(** * Task manager server: entity store, timers, queries, analytics

    A shallow embedding of [src/hello_server/server.py].

    Modelling conventions.
    - The three module-level dictionaries are insertion-ordered association
      lists ([PyDict]): Python iterates a [dict] in insertion order, and both
      the timer lookups ([for ... break]) and the stable sort of [list_tasks]
      observe that order.
    - [datetime] values are a microsecond count on the proleptic Gregorian
      calendar plus an optional UTC offset; mixing naive and aware values in
      [<] or [-] raises [TypeError] as in Python.
    - Python [float] values are IEEE 754 binary64 numbers, Rocq's primitive
      floats; [+], [*] and [/] on them are the rounded operations of the
      processor, as in Python. True division of two [int]s is the correctly
      rounded quotient and the conversion of an [int] is the nearest binary64
      number, both given through the reference implementation [SpecFloat] of
      the standard library. The integers this server converts or divides by
      are literals, list lengths and sums of stored durations; the
      [OverflowError] Python raises for an [int] beyond the binary64 range
      (above [10^308]) is not modelled.
    - [uuid.uuid4()] and [datetime.now()] are inputs supplied by the
      environment at each call.
    - Tools return a structured [response] instead of rendered text; an
      uncaught Python exception is the response [Raised]. *)

From Stdlib Require Import List String Ascii ZArith QArith Qpower Bool Lia Lqa.
From Stdlib Require Import Permutation Sorted.
From Stdlib Require Import Floats.
Import ListNotations.

Local Open Scope string_scope.
Local Open Scope Z_scope.

(* ===================================================================== *)
(** ** Python dictionaries *)
(* ===================================================================== *)

Module PyDict.

Definition dict (V : Type) : Type := list (string * V).

Section Ops.
Context {V : Type}.

Definition empty : dict V := [].

(** [d.get(k)] *)
Fixpoint get (k : string) (d : dict V) : option V :=
  match d with
  | [] => None
  | (k', v) :: r => if String.eqb k k' then Some v else get k r
  end.

(** [k in d] *)
Definition contains (k : string) (d : dict V) : bool :=
  match get k d with Some _ => true | None => false end.

(** [d[k] = v]: an existing key keeps its position, a new key goes last. *)
Fixpoint set (k : string) (v : V) (d : dict V) : dict V :=
  match d with
  | [] => [(k, v)]
  | (k', v') :: r =>
      if String.eqb k k' then (k, v) :: r else (k', v') :: set k v r
  end.

(** [d.pop(k)] on a present key (the store after the call). *)
Fixpoint pop (k : string) (d : dict V) : dict V :=
  match d with
  | [] => []
  | (k', v') :: r =>
      if String.eqb k k' then r else (k', v') :: pop k r
  end.

Definition keys (d : dict V) : list string := map fst d.
Definition values (d : dict V) : list V := map snd d.
Definition items (d : dict V) : list (string * V) := d.

(** Keys of a dictionary are pairwise distinct. *)
Definition wf (d : dict V) : Prop := NoDup (keys d).

End Ops.

End PyDict.

(* ===================================================================== *)
(** ** Floating-point numbers *)
(* ===================================================================== *)

(** An [int] as an exact floating-point datum: the mantissa is the integer
    itself, whatever its size. *)
Definition Z2SF (z : Z) : spec_float :=
  match z with
  | Z0 => S754_zero false
  | Zpos p => S754_finite false p 0
  | Zneg p => S754_finite true p 0
  end.

(** [float(n)], also the implicit conversion of an [int] operand of a
    [float] operation: the binary64 number nearest to [n], ties to even. *)
Definition of_int (z : Z) : float :=
  SF2Prim (binary_normalize prec emax z 0 false).

(** [a / b] on two [int]s (true division) with [b] not zero: the binary64
    number nearest to the exact quotient, whatever the size of [a] and [b]. *)
Definition truediv (a b : Z) : float :=
  SF2Prim (SFdiv prec emax (Z2SF a) (Z2SF b)).

(** [int(x)] on a float: truncation toward zero. Python raises on an
    infinity and on a NaN; the server applies [int] to
    [timedelta.total_seconds() / 60] only, which is finite for every
    [timedelta] ([stop_minutes_finite]). *)
Definition int_of_float (x : float) : Z :=
  match Prim2SF x with
  | S754_finite sign m e =>
      let magnitude :=
        if 0 <=? e then Zpos m * 2 ^ e else Zpos m / 2 ^ (- e) in
      if sign then - magnitude else magnitude
  | _ => 0
  end.

(** The rational a finite binary64 number stands for, in lowest terms. *)
Definition to_Q (x : float) : option Q :=
  match Prim2SF x with
  | S754_zero _ => Some 0%Q
  | S754_finite sign m e =>
      let magnitude :=
        if 0 <=? e then inject_Z (Zpos m * 2 ^ e)
        else (Zpos m # Z.to_pos (2 ^ (- e)))%Q in
      Some (Qred (if sign then Qopp magnitude else magnitude))
  | _ => None
  end.

(** Truth value of an [Optional[float]]: [None], [0.0] and [-0.0] are
    falsy. *)
Definition float_truthy (x : option float) : bool :=
  match x with
  | Some q => negb (q =? 0)%float
  | None => false
  end.

(* ===================================================================== *)
(** ** datetime and timedelta *)
(* ===================================================================== *)

Module Datetime.

(** A [timedelta] is its total number of microseconds. *)
Definition timedelta : Type := Z.

(** Wall-clock microseconds since 0001-01-01T00:00:00 and the UTC offset
    (microseconds) when the value is timezone-aware. *)
Record datetime : Type := mk { us : Z; utcoffset : option Z }.

Definition US_PER_SECOND : Z := 1000000.
Definition US_PER_MINUTE : Z := 60 * US_PER_SECOND.
Definition US_PER_DAY : Z := 86400 * US_PER_SECOND.

Definition is_leap (y : Z) : bool :=
  (y mod 4 =? 0) && (negb (y mod 100 =? 0) || (y mod 400 =? 0)).

Definition days_before_year (y : Z) : Z :=
  let y' := y - 1 in y' * 365 + y' / 4 - y' / 100 + y' / 400.

Definition days_in_month (y m : Z) : Z :=
  if m =? 2 then (if is_leap y then 29 else 28)
  else if (m =? 4) || (m =? 6) || (m =? 9) || (m =? 11) then 30
  else 31.

Fixpoint days_before_month_aux (y : Z) (n : nat) : Z :=
  match n with
  | O => 0
  | S k => days_before_month_aux y k + days_in_month y (Z.of_nat (S k))
  end.

Definition days_before_month (y m : Z) : Z :=
  days_before_month_aux y (Z.to_nat (m - 1)).

(** Proleptic Gregorian ordinal, 0001-01-01 being day 1. *)
Definition ymd2ord (y m d : Z) : Z :=
  days_before_year y + days_before_month y m + d.

Definition MAXORDINAL : Z := 3652059.
Definition max_us : Z := MAXORDINAL * US_PER_DAY - 1.

Definition of_civil (y m d hh mm ss micro : Z) (tz : option Z) : datetime :=
  mk ((ymd2ord y m d - 1) * US_PER_DAY
      + ((hh * 60 + mm) * 60 + ss) * US_PER_SECOND + micro) tz.

Definition naive (t : Z) : datetime := mk t None.

(** [datetime.max] *)
Definition max : datetime := naive max_us.

(** The instant used when two aware values are compared or subtracted. *)
Definition utc_us (a : datetime) (off : Z) : Z := us a - off.

(** [a - b]; [None] is [TypeError] (naive mixed with aware). *)
Definition sub (a b : datetime) : option timedelta :=
  match utcoffset a, utcoffset b with
  | None, None => Some (us a - us b)
  | Some oa, Some ob => Some (utc_us a oa - utc_us b ob)
  | _, _ => None
  end.

(** [a < b]; [None] is [TypeError]. *)
Definition lt (a b : datetime) : option bool :=
  match utcoffset a, utcoffset b with
  | None, None => Some (us a <? us b)
  | Some oa, Some ob => Some (utc_us a oa <? utc_us b ob)
  | _, _ => None
  end.

(** [a == b]; never raises, a naive and an aware value are unequal. *)
Definition eqb (a b : datetime) : bool :=
  match utcoffset a, utcoffset b with
  | None, None => us a =? us b
  | Some oa, Some ob => utc_us a oa =? utc_us b ob
  | _, _ => false
  end.

(** [timedelta(minutes=n)]; [None] is [OverflowError]. *)
Definition minutes (n : Z) : option timedelta :=
  let days := (n * 60) / 86400 in
  if (-999999999 <=? days) && (days <=? 999999999)
  then Some (n * US_PER_MINUTE) else None.

(** [d + td]; [None] is [OverflowError]. The offset is kept. *)
Definition add (d : datetime) (td : timedelta) : option datetime :=
  let r := us d + td in
  if (0 <=? r) && (r <=? max_us) then Some (mk r (utcoffset d)) else None.

(** [td.total_seconds()]: the true division of the microseconds by
    [10**6]. *)
Definition total_seconds (td : timedelta) : float :=
  truediv td US_PER_SECOND.

End Datetime.

Abbreviation datetime := Datetime.datetime.
Abbreviation timedelta := Datetime.timedelta.

Arguments of_int : simpl never.
Arguments truediv : simpl never.
Arguments int_of_float : simpl never.
Arguments to_Q : simpl never.
Arguments Datetime.total_seconds td%_Z : simpl never.

(* ===================================================================== *)
(** ** Strings *)
(* ===================================================================== *)

(** Truth value of an [Optional[str]]: [None] and the empty string are falsy. *)
Definition str_truthy (x : option string) : bool :=
  match x with
  | Some s => negb (String.eqb s "")
  | None => false
  end.

(** [s.replace('Z', '+00:00')] *)
Fixpoint replace_Z (s : string) : string :=
  match s with
  | EmptyString => EmptyString
  | String c r =>
      if Ascii.eqb c "Z"%char then "+00:00" ++ replace_Z r
      else String c (replace_Z r)
  end.

(* ===================================================================== *)
(** ** Data model *)
(* ===================================================================== *)

Inductive Priority : Type := LOW | MEDIUM | HIGH | URGENT.

Inductive TaskStatus : Type :=
  TODO | IN_PROGRESS | REVIEW | COMPLETED | CANCELLED.

Inductive TaskCategory : Type :=
  WORK | PERSONAL | LEARNING | HEALTH | FINANCE | OTHER.

Definition Priority_eqb (a b : Priority) : bool :=
  match a, b with
  | LOW, LOW | MEDIUM, MEDIUM | HIGH, HIGH | URGENT, URGENT => true
  | _, _ => false
  end.

Definition TaskStatus_eqb (a b : TaskStatus) : bool :=
  match a, b with
  | TODO, TODO | IN_PROGRESS, IN_PROGRESS | REVIEW, REVIEW
  | COMPLETED, COMPLETED | CANCELLED, CANCELLED => true
  | _, _ => false
  end.

Definition TaskCategory_eqb (a b : TaskCategory) : bool :=
  match a, b with
  | WORK, WORK | PERSONAL, PERSONAL | LEARNING, LEARNING
  | HEALTH, HEALTH | FINANCE, FINANCE | OTHER, OTHER => true
  | _, _ => false
  end.

(** [a == b] on two [Optional[str]] values. *)
Definition opt_str_eqb (a b : option string) : bool :=
  match a, b with
  | Some x, Some y => String.eqb x y
  | None, None => true
  | _, _ => false
  end.

Module Task.

Record t : Type := mk {
  id : string;
  title : string;
  description : option string;
  priority : Priority;
  status : TaskStatus;
  category : TaskCategory;
  due_date : option datetime;
  created_at : datetime;
  updated_at : datetime;
  estimated_hours : option float;
  actual_hours : option float;
  tags : list string;
  dependencies : list string;
  assignee : option string;
  project_id : option string
}.

(** Attribute assignments [task.<field> = v]. *)
Definition set_title (v : string) (x : t) : t :=
  mk (id x) v (description x) (priority x) (status x) (category x)
     (due_date x) (created_at x) (updated_at x) (estimated_hours x)
     (actual_hours x) (tags x) (dependencies x) (assignee x) (project_id x).
Definition set_description (v : option string) (x : t) : t :=
  mk (id x) (title x) v (priority x) (status x) (category x)
     (due_date x) (created_at x) (updated_at x) (estimated_hours x)
     (actual_hours x) (tags x) (dependencies x) (assignee x) (project_id x).
Definition set_priority (v : Priority) (x : t) : t :=
  mk (id x) (title x) (description x) v (status x) (category x)
     (due_date x) (created_at x) (updated_at x) (estimated_hours x)
     (actual_hours x) (tags x) (dependencies x) (assignee x) (project_id x).
Definition set_status (v : TaskStatus) (x : t) : t :=
  mk (id x) (title x) (description x) (priority x) v (category x)
     (due_date x) (created_at x) (updated_at x) (estimated_hours x)
     (actual_hours x) (tags x) (dependencies x) (assignee x) (project_id x).
Definition set_category (v : TaskCategory) (x : t) : t :=
  mk (id x) (title x) (description x) (priority x) (status x) v
     (due_date x) (created_at x) (updated_at x) (estimated_hours x)
     (actual_hours x) (tags x) (dependencies x) (assignee x) (project_id x).
Definition set_due_date (v : option datetime) (x : t) : t :=
  mk (id x) (title x) (description x) (priority x) (status x) (category x)
     v (created_at x) (updated_at x) (estimated_hours x)
     (actual_hours x) (tags x) (dependencies x) (assignee x) (project_id x).
Definition set_updated_at (v : datetime) (x : t) : t :=
  mk (id x) (title x) (description x) (priority x) (status x) (category x)
     (due_date x) (created_at x) v (estimated_hours x)
     (actual_hours x) (tags x) (dependencies x) (assignee x) (project_id x).
Definition set_estimated_hours (v : option float) (x : t) : t :=
  mk (id x) (title x) (description x) (priority x) (status x) (category x)
     (due_date x) (created_at x) (updated_at x) v
     (actual_hours x) (tags x) (dependencies x) (assignee x) (project_id x).
Definition set_actual_hours (v : option float) (x : t) : t :=
  mk (id x) (title x) (description x) (priority x) (status x) (category x)
     (due_date x) (created_at x) (updated_at x) (estimated_hours x)
     v (tags x) (dependencies x) (assignee x) (project_id x).
Definition set_tags (v : list string) (x : t) : t :=
  mk (id x) (title x) (description x) (priority x) (status x) (category x)
     (due_date x) (created_at x) (updated_at x) (estimated_hours x)
     (actual_hours x) v (dependencies x) (assignee x) (project_id x).
Definition set_assignee (v : option string) (x : t) : t :=
  mk (id x) (title x) (description x) (priority x) (status x) (category x)
     (due_date x) (created_at x) (updated_at x) (estimated_hours x)
     (actual_hours x) (tags x) (dependencies x) v (project_id x).

End Task.

Module TimeEntry.

Record t : Type := mk {
  id : string;
  task_id : string;
  start_time : datetime;
  end_time : option datetime;
  description : option string;
  duration_minutes : option Z
}.

Definition set_end_time (v : option datetime) (x : t) : t :=
  mk (id x) (task_id x) (start_time x) v (description x) (duration_minutes x).
Definition set_duration_minutes (v : option Z) (x : t) : t :=
  mk (id x) (task_id x) (start_time x) (end_time x) (description x) v.

(** An entry without [end_time] is an active timer. *)
Definition is_open (x : t) : bool :=
  match end_time x with None => true | Some _ => false end.

End TimeEntry.

Module Project.

Record t : Type := mk {
  id : string;
  name : string;
  description : option string;
  start_date : option datetime;
  end_date : option datetime;
  status : string;
  team_members : list string;
  budget : option float;
  created_at : datetime
}.

End Project.

(** The fields of [ConfigSchema] read by the tools. *)
Record ConfigSchema : Type := {
  default_priority : Priority;
  default_category : TaskCategory;
  work_hours_per_day : float
}.

(** The three module-level dictionaries. *)
Record Store : Type := {
  tasks_storage : PyDict.dict Task.t;
  projects_storage : PyDict.dict Project.t;
  time_entries_storage : PyDict.dict TimeEntry.t
}.

Definition empty_store : Store :=
  {| tasks_storage := PyDict.empty;
     projects_storage := PyDict.empty;
     time_entries_storage := PyDict.empty |}.

Definition with_tasks (d : PyDict.dict Task.t) (s : Store) : Store :=
  {| tasks_storage := d;
     projects_storage := projects_storage s;
     time_entries_storage := time_entries_storage s |}.

Definition with_entries (d : PyDict.dict TimeEntry.t) (s : Store) : Store :=
  {| tasks_storage := tasks_storage s;
     projects_storage := projects_storage s;
     time_entries_storage := d |}.

Definition with_projects (d : PyDict.dict Project.t) (s : Store) : Store :=
  {| tasks_storage := tasks_storage s;
     projects_storage := d;
     time_entries_storage := time_entries_storage s |}.

Definition store_wf (s : Store) : Prop :=
  PyDict.wf (tasks_storage s) /\ PyDict.wf (projects_storage s)
  /\ PyDict.wf (time_entries_storage s).

(** Uncaught Python exceptions. *)
Inductive exn : Type := KeyError | TypeError | OverflowError | ZeroDivisionError.

(** What a tool reports; the text rendering is left out. *)
Inductive response : Type :=
| TaskCreated (task : Task.t)
| TaskUpdated (task : Task.t)
| TaskDeleted (title : string) (removed : nat)
| TaskNotFound (task_id : string)
| InvalidDateFormat
| NoTasksFound
| TaskList (tasks : list Task.t)
| TaskDetails (task : Task.t) (entries : list TimeEntry.t) (total_time : Z)
| TimerAlreadyRunning (title : string) (since : datetime)
| TimerStarted (title : string) (entry_id : string) (started_at : datetime)
| TimeEntryNotFound (time_entry_id : string)
| NoActiveTimer (task_id : string)
| SelectorMissing
| TimerAlreadyStopped (title : string)
| TimerStopped (title : string) (hours minutes : Z) (total : option float)
| TimeLogged (title : string) (hours minutes : Z) (total : option float)
| NoTimeEntries (days : Z)
| TimeAnalytics (total_hours : float) (total_minutes : Z)
    (average_per_day productivity_ratio : float)
| ProjectCreated (project : Project.t)
| InvalidStartDateFormat
| InvalidEndDateFormat
| Raised (e : exn).

(** Responses that tell the caller the call failed: the messages starting
    with a cross mark or with [Error:], and uncaught exceptions. *)
Definition is_failure (r : response) : bool :=
  match r with
  | TaskNotFound _ | InvalidDateFormat | TimeEntryNotFound _
  | NoActiveTimer _ | SelectorMissing
  | InvalidStartDateFormat | InvalidEndDateFormat | Raised _ => true
  | _ => false
  end.

(** [if v is not None: x.<field> = v] *)
Definition assign {A B : Type} (v : option A) (f : A -> B -> B) (x : B) : B :=
  match v with
  | Some a => f a x
  | None => x
  end.

(** [priority_order] of [list_tasks]. *)
Definition priority_order (p : Priority) : Z :=
  match p with
  | URGENT => 4
  | HIGH => 3
  | MEDIUM => 2
  | LOW => 1
  end.

(** The sort key [(priority_order.get(t.priority, 0), t.due_date or datetime.max)]. *)
Definition sort_key (t : Task.t) : Z * datetime :=
  (priority_order (Task.priority t),
   match Task.due_date t with Some d => d | None => Datetime.max end).

(** Tuple comparison [a < b]: the first components that differ under [==]
    decide; [None] is the [TypeError] of comparing a naive with an aware
    [datetime]. *)
Definition key_lt (a b : Z * datetime) : option bool :=
  if negb (fst a =? fst b) then Some (fst a <? fst b)
  else if Datetime.eqb (snd a) (snd b) then Some false
  else Datetime.lt (snd a) (snd b).

Section ListSort.
Context {A : Type} (key : A -> Z * datetime).

(** Stable insertion: [x] goes before the first element that is not
    smaller than it. *)
Fixpoint insert_sorted (x : A) (l : list A) : option (list A) :=
  match l with
  | [] => Some [x]
  | y :: r =>
      match key_lt (key y) (key x) with
      | None => None
      | Some true =>
          match insert_sorted x r with
          | Some r' => Some (y :: r')
          | None => None
          end
      | Some false => Some (x :: y :: r)
      end
  end.

(** A stable ascending sort using only [<] on keys. *)
Fixpoint sort_ascending (l : list A) : option (list A) :=
  match l with
  | [] => Some []
  | x :: r =>
      match sort_ascending r with
      | Some r' => insert_sorted x r'
      | None => None
      end
  end.

(** [l.sort(key=key, reverse=True)]: reverse, sort ascending, reverse. *)
Definition list_sort_reverse (l : list A) : option (list A) :=
  option_map (@rev A) (sort_ascending (rev l)).

End ListSort.

(** The slice [l[:n]]. *)
Definition slice_to {A : Type} (n : Z) (l : list A) : list A :=
  let len := Z.of_nat (List.length l) in
  let stop := if n <? 0 then Z.max (len + n) 0 else n in
  firstn (Z.to_nat stop) l.

(** The loop of [start_timer] and [stop_timer] that looks for the first entry
    of a task without [end_time]. *)
Fixpoint find_active (task_id : string) (l : list (string * TimeEntry.t))
  : option (string * TimeEntry.t) :=
  match l with
  | [] => None
  | (k, e) :: r =>
      if String.eqb (TimeEntry.task_id e) task_id && TimeEntry.is_open e
      then Some (k, e) else find_active task_id r
  end.

(** The value [task.actual_hours] takes after [+= x] guarded by
    [if task.actual_hours:]. *)
Definition add_hours (x : float) (old : option float) : option float :=
  if float_truthy old
  then match old with Some q => Some (q + x)%float | None => Some x end
  else Some x.

(** [expected_hours] and [productivity_ratio] of [get_time_analytics]. *)
Definition productivity_ratio (total_minutes days : Z) (work_hours_per_day : float)
  : float :=
  let total_hours := truediv total_minutes 60 in
  let expected_hours := (work_hours_per_day * of_int days)%float in
  if (0 <? expected_hours)%float
  then ((total_hours / expected_hours) * of_int 100)%float
  else 0%float.

(* ===================================================================== *)
(** ** The tools *)
(* ===================================================================== *)

Section Tools.

(** [datetime.fromisoformat]; [None] is its [ValueError]. *)
Variable fromisoformat : string -> option datetime.

(** [datetime.fromisoformat(s.replace('Z', '+00:00'))] *)
Definition parse_iso (s : string) : option datetime :=
  fromisoformat (replace_Z s).

(** [create_task]. [new_id] is the [uuid4] drawn for the task, [now_created]
    and [now_updated] the two [datetime.now()] readings of its default
    factories. *)
Definition create_task (cfg : ConfigSchema) (new_id : string)
    (now_created now_updated : Z)
    (title : string) (description : option string)
    (priority : option Priority) (category : option TaskCategory)
    (due_date : option string) (estimated_hours : option float)
    (tags : option (list string)) (project_id assignee : option string)
    (s : Store) : Store * response :=
  let task_priority :=
    match priority with Some p => p | None => default_priority cfg end in
  let task_category :=
    match category with Some c => c | None => default_category cfg end in
  let build (parsed_due_date : option datetime) :=
    let task :=
      Task.mk new_id title description task_priority TODO task_category
        parsed_due_date (Datetime.naive now_created)
        (Datetime.naive now_updated) estimated_hours None
        (match tags with Some l => l | None => [] end) []
        assignee project_id in
    (with_tasks (PyDict.set (Task.id task) task (tasks_storage s)) s,
     TaskCreated task) in
  match due_date with
  | Some d =>
      if str_truthy due_date then
        match parse_iso d with
        | Some dt => build (Some dt)
        | None => (s, InvalidDateFormat)
        end
      else build None
  | None => build None
  end.

(** [update_task]. The task object is mutated in place, so the assignments
    made before a failing date parse stay in the store. *)
Definition update_task (now : Z) (task_id : string)
    (title description : option string)
    (priority : option Priority) (status : option TaskStatus)
    (category : option TaskCategory) (due_date : option string)
    (estimated_hours actual_hours : option float)
    (tags : option (list string)) (assignee : option string)
    (s : Store) : Store * response :=
  match PyDict.get task_id (tasks_storage s) with
  | None => (s, TaskNotFound task_id)
  | Some task =>
      let task := assign title Task.set_title task in
      let task :=
        assign description (fun d => Task.set_description (Some d)) task in
      let task := assign priority Task.set_priority task in
      let task := assign status Task.set_status task in
      let task := assign category Task.set_category task in
      let finish (task : Task.t) :=
        let task :=
          assign estimated_hours
            (fun h => Task.set_estimated_hours (Some h)) task in
        let task :=
          assign actual_hours (fun h => Task.set_actual_hours (Some h)) task in
        let task := assign tags Task.set_tags task in
        let task :=
          assign assignee (fun a => Task.set_assignee (Some a)) task in
        let task := Task.set_updated_at (Datetime.naive now) task in
        (with_tasks (PyDict.set task_id task (tasks_storage s)) s,
         TaskUpdated task) in
      match due_date with
      | Some d =>
          match parse_iso d with
          | Some dt => finish (Task.set_due_date (Some dt) task)
          | None =>
              (with_tasks (PyDict.set task_id task (tasks_storage s)) s,
               InvalidDateFormat)
          end
      | None => finish task
      end
  end.

(** The ids collected in [entries_to_remove]. *)
Definition entries_of_task (task_id : string)
    (d : PyDict.dict TimeEntry.t) : list string :=
  map fst
    (filter (fun kv => String.eqb (TimeEntry.task_id (snd kv)) task_id)
            (PyDict.items d)).

(** [delete_task] *)
Definition delete_task (task_id : string) (s : Store) : Store * response :=
  match PyDict.get task_id (tasks_storage s) with
  | None => (s, TaskNotFound task_id)
  | Some task =>
      let tasks := PyDict.pop task_id (tasks_storage s) in
      let entries_to_remove :=
        entries_of_task task_id (time_entries_storage s) in
      let entries :=
        fold_left (fun d entry_id => PyDict.pop entry_id d)
                  entries_to_remove (time_entries_storage s) in
      (with_entries entries (with_tasks tasks s),
       TaskDeleted (Task.title task) (List.length entries_to_remove))
  end.

(** The filters of [list_tasks]; an absent or falsy argument filters
    nothing. *)
Definition apply_filters (status : option TaskStatus)
    (priority : option Priority) (category : option TaskCategory)
    (assignee project_id : option string) (tasks : list Task.t)
    : list Task.t :=
  let tasks :=
    match status with
    | Some v => filter (fun t => TaskStatus_eqb (Task.status t) v) tasks
    | None => tasks
    end in
  let tasks :=
    match priority with
    | Some v => filter (fun t => Priority_eqb (Task.priority t) v) tasks
    | None => tasks
    end in
  let tasks :=
    match category with
    | Some v => filter (fun t => TaskCategory_eqb (Task.category t) v) tasks
    | None => tasks
    end in
  let tasks :=
    if str_truthy assignee
    then filter (fun t => opt_str_eqb (Task.assignee t) assignee) tasks
    else tasks in
  if str_truthy project_id
  then filter (fun t => opt_str_eqb (Task.project_id t) project_id) tasks
  else tasks.

(** [list_tasks] *)
Definition list_tasks (status : option TaskStatus)
    (priority : option Priority) (category : option TaskCategory)
    (assignee project_id : option string) (limit : Z)
    (s : Store) : Store * response :=
  let tasks := PyDict.values (tasks_storage s) in
  let tasks := apply_filters status priority category assignee project_id tasks in
  match list_sort_reverse sort_key tasks with
  | None => (s, Raised TypeError)
  | Some tasks =>
      match slice_to limit tasks with
      | [] => (s, NoTasksFound)
      | tasks => (s, TaskList tasks)
      end
  end.

(** [get_task_details] *)
Definition get_task_details (task_id : string) (s : Store)
    : Store * response :=
  match PyDict.get task_id (tasks_storage s) with
  | None => (s, TaskNotFound task_id)
  | Some task =>
      let time_entries :=
        filter (fun e => String.eqb (TimeEntry.task_id e) task_id)
               (PyDict.values (time_entries_storage s)) in
      let total_time :=
        fold_left Z.add
          (map (fun e => match TimeEntry.duration_minutes e with
                         | Some m => m
                         | None => 0
                         end) time_entries) 0 in
      (s, TaskDetails task time_entries total_time)
  end.

(** [start_timer]. [new_id] is the [uuid4] drawn for the entry. *)
Definition start_timer (new_id : string) (now : Z) (task_id : string)
    (description : option string) (s : Store) : Store * response :=
  match PyDict.get task_id (tasks_storage s) with
  | None => (s, TaskNotFound task_id)
  | Some task =>
      match find_active task_id (PyDict.items (time_entries_storage s)) with
      | Some (_, active_entry) =>
          (s, TimerAlreadyRunning (Task.title task)
                (TimeEntry.start_time active_entry))
      | None =>
          let time_entry :=
            TimeEntry.mk new_id task_id (Datetime.naive now) None
                         description None in
          (with_entries
             (PyDict.set (TimeEntry.id time_entry) time_entry
                         (time_entries_storage s)) s,
           TimerStarted (Task.title task) (TimeEntry.id time_entry)
                        (TimeEntry.start_time time_entry))
      end
  end.

(** The entry [stop_timer] works on, with the key it is stored under:
    [inl] is the early return. *)
Definition select_entry (time_entry_id task_id : option string) (s : Store)
    : response + (string * TimeEntry.t) :=
  match time_entry_id, str_truthy time_entry_id with
  | Some k, true =>
      match PyDict.get k (time_entries_storage s) with
      | None => inl (TimeEntryNotFound k)
      | Some entry => inr (k, entry)
      end
  | _, _ =>
      match task_id, str_truthy task_id with
      | Some t, true =>
          match find_active t (PyDict.items (time_entries_storage s)) with
          | None => inl (NoActiveTimer t)
          | Some ke => inr ke
          end
      | _, _ => inl SelectorMissing
      end
  end.

(** [stop_timer]. The entry is mutated in place before the task is looked
    up, so an exception raised later leaves the entry changed. *)
Definition stop_timer (now : Z) (time_entry_id task_id : option string)
    (s : Store) : Store * response :=
  match select_entry time_entry_id task_id s with
  | inl r => (s, r)
  | inr (k, entry) =>
      match TimeEntry.end_time entry with
      | Some _ =>
          match PyDict.get (TimeEntry.task_id entry) (tasks_storage s) with
          | None => (s, Raised KeyError)
          | Some task => (s, TimerAlreadyStopped (Task.title task))
          end
      | None =>
          let end_time := Datetime.naive now in
          let entry := TimeEntry.set_end_time (Some end_time) entry in
          match Datetime.sub end_time (TimeEntry.start_time entry) with
          | None =>
              (with_entries (PyDict.set k entry (time_entries_storage s)) s,
               Raised TypeError)
          | Some duration =>
              let minutes :=
                int_of_float
                  (Datetime.total_seconds duration / of_int 60)%float in
              let entry := TimeEntry.set_duration_minutes (Some minutes) entry in
              let s := with_entries (PyDict.set k entry (time_entries_storage s)) s in
              match PyDict.get (TimeEntry.task_id entry) (tasks_storage s) with
              | None => (s, Raised KeyError)
              | Some task =>
                  let task :=
                    Task.set_actual_hours
                      (add_hours
                         (Datetime.total_seconds duration / of_int 3600)%float
                         (Task.actual_hours task)) task in
                  (with_tasks
                     (PyDict.set (TimeEntry.task_id entry) task
                                 (tasks_storage s)) s,
                   TimerStopped (Task.title task) (minutes / 60)
                                (minutes mod 60) (Task.actual_hours task))
              end
          end
      end
  end.

(** [parsed_start_time] of [log_time]: [now] unless a non-empty [start_time]
    is given; [None] is the [ValueError] of the parse. *)
Definition parsed_start_time (now : Z) (start_time : option string)
  : option datetime :=
  match start_time, str_truthy start_time with
  | Some st, true => parse_iso st
  | _, _ => Some (Datetime.naive now)
  end.

(** [log_time]. [new_id] is the [uuid4] drawn for the entry; [now] is read
    even when [start_time] is given. *)
Definition log_time (new_id : string) (now : Z) (task_id : string)
    (duration_minutes : Z) (description start_time : option string)
    (s : Store) : Store * response :=
  match PyDict.get task_id (tasks_storage s) with
  | None => (s, TaskNotFound task_id)
  | Some task =>
      match parsed_start_time now start_time with
      | None => (s, InvalidDateFormat)
      | Some parsed_start_time =>
          match Datetime.minutes duration_minutes with
          | None => (s, Raised OverflowError)
          | Some delta =>
              match Datetime.add parsed_start_time delta with
              | None => (s, Raised OverflowError)
              | Some end_time =>
                  let time_entry :=
                    TimeEntry.mk new_id task_id parsed_start_time
                                 (Some end_time) description
                                 (Some duration_minutes) in
                  let s :=
                    with_entries
                      (PyDict.set (TimeEntry.id time_entry) time_entry
                                  (time_entries_storage s)) s in
                  let task :=
                    Task.set_actual_hours
                      (add_hours (truediv duration_minutes 60)
                                 (Task.actual_hours task)) task in
                  (with_tasks (PyDict.set task_id task (tasks_storage s)) s,
                   TimeLogged (Task.title task) (duration_minutes / 60)
                              (duration_minutes mod 60)
                              (Task.actual_hours task))
              end
          end
      end
  end.

(** [create_project]. [new_id] is the [uuid4] drawn for the project, [now]
    the [datetime.now()] reading of [created_at]. Both dates are parsed
    before the project is built. *)
Definition create_project (new_id : string) (now : Z) (name : string)
    (description start_date end_date : option string) (budget : option float)
    (team_members : option (list string)) (s : Store) : Store * response :=
  let parse (d : option string) : option (option datetime) :=
    match d, str_truthy d with
    | Some x, true =>
        match parse_iso x with
        | Some dt => Some (Some dt)
        | None => None
        end
    | _, _ => Some None
    end in
  match parse start_date with
  | None => (s, InvalidStartDateFormat)
  | Some parsed_start_date =>
      match parse end_date with
      | None => (s, InvalidEndDateFormat)
      | Some parsed_end_date =>
          let project :=
            Project.mk new_id name description parsed_start_date
                       parsed_end_date "active"
                       (match team_members with Some l => l | None => [] end)
                       budget (Datetime.naive now) in
          (with_projects
             (PyDict.set (Project.id project) project (projects_storage s)) s,
           ProjectCreated project)
      end
  end.

End Tools.

(** The loop of [get_time_analytics] that collects [relevant_entries];
    [None] is the [TypeError] of [entry.start_time >= start_date]. *)
Fixpoint collect_relevant (tasks : PyDict.dict Task.t) (start_date : datetime)
    (category : option TaskCategory) (project_id : option string)
    (entries : list TimeEntry.t) : option (list (TimeEntry.t * Task.t)) :=
  match entries with
  | [] => Some []
  | entry :: rest =>
      match Datetime.lt (TimeEntry.start_time entry) start_date with
      | None => None
      | Some before =>
          let keep :=
            if negb before then
              match TimeEntry.duration_minutes entry with
              | Some m =>
                  if m =? 0 then None
                  else
                    match PyDict.get (TimeEntry.task_id entry) tasks with
                    | Some task =>
                        let other_category :=
                          match category with
                          | Some c => negb (TaskCategory_eqb (Task.category task) c)
                          | None => false
                          end in
                        let other_project :=
                          str_truthy project_id
                          && negb (opt_str_eqb (Task.project_id task) project_id) in
                        if other_category then None
                        else if other_project then None
                        else Some (entry, task)
                    | None => None
                    end
              | None => None
              end
            else None in
          match collect_relevant tasks start_date category project_id rest with
          | None => None
          | Some l =>
              Some (match keep with Some p => p :: l | None => l end)
          end
      end
  end.

(** [sum(entry.duration_minutes for entry, _ in relevant_entries)] *)
Definition total_minutes_of (l : list (TimeEntry.t * Task.t)) : Z :=
  fold_left Z.add
    (map (fun p => match TimeEntry.duration_minutes (fst p) with
                   | Some m => m
                   | None => 0
                   end) l) 0.

(** [get_time_analytics], up to the headline figures of the report; the
    per-category, per-day and per-task tables are rendering of the same
    [relevant_entries] and are left out, except for the two divisions of the
    report that raise [ZeroDivisionError]: [total_hours/days] when [days] is
    zero, and the percentage [minutes / total_minutes] of the first category
    when the durations add up to zero. *)
Definition get_time_analytics (cfg : ConfigSchema) (now : Z) (days : Z)
    (category : option TaskCategory) (project_id : option string)
    (s : Store) : Store * response :=
  let end_date := Datetime.naive now in
  if negb ((-999999999 <=? days) && (days <=? 999999999))
  then (s, Raised OverflowError)
  else
    match Datetime.add end_date (- (days * Datetime.US_PER_DAY)) with
    | None => (s, Raised OverflowError)
    | Some start_date =>
        match collect_relevant (tasks_storage s) start_date category project_id
                (PyDict.values (time_entries_storage s)) with
        | None => (s, Raised TypeError)
        | Some [] => (s, NoTimeEntries days)
        | Some relevant_entries =>
            let total_minutes := total_minutes_of relevant_entries in
            let total_hours := truediv total_minutes 60 in
            let ratio :=
              productivity_ratio total_minutes days (work_hours_per_day cfg) in
            if days =? 0 then (s, Raised ZeroDivisionError)
            else if total_minutes =? 0 then (s, Raised ZeroDivisionError)
            else
              (s, TimeAnalytics total_hours total_minutes
                    (total_hours / of_int days)%float ratio)
        end
    end.

(* ===================================================================== *)
(** ** Sequences of calls *)
(* ===================================================================== *)

(** One call of a state-changing tool, with its arguments and the values the
    environment supplies to it. *)
Inductive call : Type :=
| CreateTask (cfg : ConfigSchema) (new_id : string) (now_created now_updated : Z)
    (title : string) (description : option string)
    (priority : option Priority) (category : option TaskCategory)
    (due_date : option string) (estimated_hours : option float)
    (tags : option (list string)) (project_id assignee : option string)
| UpdateTask (now : Z) (task_id : string) (title description : option string)
    (priority : option Priority) (status : option TaskStatus)
    (category : option TaskCategory) (due_date : option string)
    (estimated_hours actual_hours : option float)
    (tags : option (list string)) (assignee : option string)
| DeleteTask (task_id : string)
| StartTimer (new_id : string) (now : Z) (task_id : string)
    (description : option string)
| StopTimer (now : Z) (time_entry_id task_id : option string)
| LogTime (new_id : string) (now : Z) (task_id : string) (duration_minutes : Z)
    (description start_time : option string)
| CreateProject (new_id : string) (now : Z) (name : string)
    (description start_date end_date : option string) (budget : option float)
    (team_members : option (list string)).

Section Run.

Variable fromisoformat : string -> option datetime.

Definition exec (c : call) (s : Store) : Store * response :=
  match c with
  | CreateTask cfg new_id n1 n2 title description priority category due_date
               estimated_hours tags project_id assignee =>
      create_task fromisoformat cfg new_id n1 n2 title description priority
                  category due_date estimated_hours tags project_id assignee s
  | UpdateTask now task_id title description priority status category
               due_date estimated_hours actual_hours tags assignee =>
      update_task fromisoformat now task_id title description priority status
                  category due_date estimated_hours actual_hours tags assignee s
  | DeleteTask task_id => delete_task task_id s
  | StartTimer new_id now task_id description =>
      start_timer new_id now task_id description s
  | StopTimer now time_entry_id task_id =>
      stop_timer now time_entry_id task_id s
  | LogTime new_id now task_id duration_minutes description start_time =>
      log_time fromisoformat new_id now task_id duration_minutes description
               start_time s
  | CreateProject new_id now name description start_date end_date budget
                  team_members =>
      create_project fromisoformat new_id now name description start_date
                     end_date budget team_members s
  end.

(** The store after a sequence of calls, executed one after the other. *)
Definition run (cs : list call) (s : Store) : Store :=
  fold_left (fun st c => fst (exec c st)) cs s.

End Run.

(* ===================================================================== *)
(** ** A concrete ISO-8601 reader for running the tools *)
(* ===================================================================== *)

(** The tools are parametric in [datetime.fromisoformat]. To run them on
    concrete strings this reader accepts [YYYY-MM-DDTHH:MM:SS], optionally
    followed by an offset [+HH:MM] or [-HH:MM], and rejects everything else. *)
Module IsoBasic.

Definition digit (c : ascii) : option Z :=
  let n := Z.of_nat (nat_of_ascii c) in
  if (48 <=? n) && (n <=? 57) then Some (n - 48) else None.

(** Reads exactly [n] digits. *)
Fixpoint number (n : nat) (acc : Z) (s : string) : option (Z * string) :=
  match n with
  | O => Some (acc, s)
  | S k =>
      match s with
      | String c r =>
          match digit c with
          | Some d => number k (acc * 10 + d) r
          | None => None
          end
      | EmptyString => None
      end
  end.

Definition expect (c : ascii) (s : string) : option string :=
  match s with
  | String c' r => if Ascii.eqb c c' then Some r else None
  | EmptyString => None
  end.

Definition bind {A B : Type} (x : option A) (f : A -> option B) : option B :=
  match x with Some a => f a | None => None end.

Local Notation "x <- e ;; k" := (bind e (fun x => k))
  (at level 61, e at next level, right associativity).
Local Notation "' p <- e ;; k" := (bind e (fun p => k))
  (at level 61, p pattern, e at next level, right associativity).

Definition sign (c : ascii) : option Z :=
  if Ascii.eqb c "+"%char then Some 1
  else if Ascii.eqb c "-"%char then Some (-1)
  else None.

Definition offset (s : string) : option (option Z) :=
  match s with
  | EmptyString => Some None
  | String c r =>
      sg <- sign c ;;
      ' (hh, r) <- number 2 0 r ;;
      r <- expect ":"%char r ;;
      ' (mm, r) <- number 2 0 r ;;
      match r with
      | EmptyString =>
          if (hh <? 24) && (mm <? 60)
          then Some (Some (sg * (hh * 60 + mm) * Datetime.US_PER_MINUTE))
          else None
      | _ => None
      end
  end.

Definition fromisoformat (s : string) : option datetime :=
  ' (y, s) <- number 4 0 s ;;
  s <- expect "-"%char s ;;
  ' (m, s) <- number 2 0 s ;;
  s <- expect "-"%char s ;;
  ' (d, s) <- number 2 0 s ;;
  s <- expect "T"%char s ;;
  ' (hh, s) <- number 2 0 s ;;
  s <- expect ":"%char s ;;
  ' (mm, s) <- number 2 0 s ;;
  s <- expect ":"%char s ;;
  ' (ss, s) <- number 2 0 s ;;
  tz <- offset s ;;
  if (1 <=? y) && (1 <=? m) && (m <=? 12) && (1 <=? d)
     && (d <=? Datetime.days_in_month y m)
     && (hh <? 24) && (mm <? 60) && (ss <? 60)
  then Some (Datetime.of_civil y m d hh mm ss 0 tz)
  else None.

End IsoBasic.

(* ===================================================================== *)
(** ** Vocabulary of the properties *)
(* ===================================================================== *)

(** [e] is an active timer of task [task_id]. *)
Definition open_for (task_id : string) (e : TimeEntry.t) : bool :=
  String.eqb (TimeEntry.task_id e) task_id && TimeEntry.is_open e.

(** The active timers of a task, in storage order. *)
Definition open_entries (task_id : string) (s : Store) : list TimeEntry.t :=
  filter (open_for task_id) (PyDict.values (time_entries_storage s)).

(** Invariant I1: at most one active timer per task. *)
Definition I1 (s : Store) : Prop :=
  forall task_id, (List.length (open_entries task_id s) <= 1)%nat.

(** The entries that belong to a task. *)
Definition entries_for (task_id : string) (s : Store) : list TimeEntry.t :=
  filter (fun e => String.eqb (TimeEntry.task_id e) task_id)
         (PyDict.values (time_entries_storage s)).

(** What a call can do to the entry dictionary: leave it alone, pop keys,
    store a closed entry, or store an active timer for a task that has
    none. *)
Inductive entries_step (d : PyDict.dict TimeEntry.t)
  : PyDict.dict TimeEntry.t -> Prop :=
| step_same : entries_step d d
| step_pops (ks : list string) :
    entries_step d (fold_left (fun acc k => PyDict.pop k acc) ks d)
| step_closed (k : string) (e : TimeEntry.t) :
    TimeEntry.is_open e = false -> entries_step d (PyDict.set k e d)
| step_opened (k : string) (e : TimeEntry.t) :
    filter (open_for (TimeEntry.task_id e)) (PyDict.values d) = [] ->
    entries_step d (PyDict.set k e d).

(** The point in time a [datetime] is compared by: aware values by their
    UTC instant, naive ones by their wall-clock reading. *)
Definition instant (d : datetime) : Z :=
  match Datetime.utcoffset d with
  | Some off => Datetime.utc_us d off
  | None => Datetime.us d
  end.

(** Both naive or both aware: the pairs [<] accepts. *)
Definition same_kind (a b : datetime) : bool :=
  match Datetime.utcoffset a, Datetime.utcoffset b with
  | None, None | Some _, Some _ => true
  | _, _ => false
  end.

(** [a <= b] on sort keys, as the sort sees it: [b < a] is evaluated without
    raising and is false. *)
Definition key_le (a b : Z * datetime) : Prop := key_lt b a = Some false.

(** [x] is listed before [y] in [l]. *)
Definition listed_before {A : Type} (x y : A) (l : list A) : Prop :=
  exists l1 l2 l3, l = (l1 ++ x :: l2 ++ y :: l3)%list.

(** Every stored entry belongs to a stored task, and an active timer was
    started on the local clock. *)
Definition entries_consistent (s : Store) : Prop :=
  forall k e,
    In (k, e) (time_entries_storage s) ->
    PyDict.contains (TimeEntry.task_id e) (tasks_storage s) = true
    /\ (TimeEntry.end_time e = None ->
        Datetime.utcoffset (TimeEntry.start_time e) = None).

(** [actual_hours] read as a number of hours, nothing recorded being zero. *)
Definition hours_of (x : option float) : float :=
  match x with Some q => q | None => 0%float end.

(** The mantissa and the exponent [shr_fexp] returns for a mantissa [m] and
    an exponent [e]: the mantissa cut to the precision of the format. *)
Definition shifted_m (m e : Z) : Z :=
  let n := fexp prec emax (Zdigits2 m + e) - e in
  if 0 <? n then m / 2 ^ n else m.

Definition shifted_e (m e : Z) : Z :=
  let n := fexp prec emax (Zdigits2 m + e) - e in
  if 0 <? n then e + n else e.

(** The last step of [binary_round_aux], after the rounded mantissa [m2] has
    been chosen. *)
Definition finish (s : bool) (m2 e1 : Z) : spec_float :=
  match shifted_m m2 e1 with
  | Z0 => S754_zero s
  | Zpos p =>
      if shifted_e m2 e1 <=? emax - prec
      then S754_finite s p (shifted_e m2 e1) else S754_infinity s
  | Zneg _ => S754_nan
  end.

(** The rational a mantissa and an exponent stand for. *)
Definition F2Q (m e : Z) : Q := (inject_Z m * 2 ^ e)%Q.

(** The number [p * 2^e] is one of the two binary64 neighbours of [X], a
    positive rational in the range of the normal numbers: it is at most [X]
    increased by one part in [2^52], and not below any integer that [X]
    reaches when [X] is below [2^53]. *)
Definition faithful (X : Q) (p : positive) (e : Z) : Prop :=
  (F2Q (Zpos p) e <= X * (1 + (1 # 4503599627370496)))%Q
  /\ (forall j : Z,
        (X < inject_Z (2 ^ 53))%Q -> (inject_Z j <= X)%Q ->
        (inject_Z j <= F2Q (Zpos p) e)%Q).

(* ===================================================================== *)
(** ** Breakdowns, project status and resources *)
(* ===================================================================== *)

(** The [.value] of the enumeration members. *)
Definition Priority_value (p : Priority) : string :=
  match p with
  | LOW => "low"
  | MEDIUM => "medium"
  | HIGH => "high"
  | URGENT => "urgent"
  end.

Definition TaskStatus_value (x : TaskStatus) : string :=
  match x with
  | TODO => "todo"
  | IN_PROGRESS => "in_progress"
  | REVIEW => "review"
  | COMPLETED => "completed"
  | CANCELLED => "cancelled"
  end.

Definition TaskCategory_value (c : TaskCategory) : string :=
  match c with
  | WORK => "work"
  | PERSONAL => "personal"
  | LEARNING => "learning"
  | HEALTH => "health"
  | FINANCE => "finance"
  | OTHER => "other"
  end.

(** [d.get(k, default)] *)
Definition get_or {V : Type} (k : string) (default : V) (d : PyDict.dict V) : V :=
  match PyDict.get k d with
  | Some v => v
  | None => default
  end.

(** The counting loop [counts[k] = counts.get(k, 0) + 1] over [l]. *)
Definition count_by {A : Type} (key : A -> string) (l : list A)
  : PyDict.dict Z :=
  fold_left
    (fun counts x => PyDict.set (key x) (get_or (key x) 0 counts + 1) counts)
    l PyDict.empty.

(** The summing loop [if k not in stats: stats[k] = 0] followed by
    [stats[k] += minutes]. *)
Definition add_to_group (k : string) (minutes : Z) (stats : PyDict.dict Z)
  : PyDict.dict Z :=
  let stats := if PyDict.contains k stats then stats else PyDict.set k 0 stats in
  PyDict.set k (get_or k 0 stats + minutes) stats.

(** [entry.duration_minutes] of an entry of [relevant_entries]. *)
Definition minutes_of (p : TimeEntry.t * Task.t) : Z :=
  match TimeEntry.duration_minutes (fst p) with
  | Some m => m
  | None => 0
  end.

(** [category_stats] of [get_time_analytics]. *)
Definition category_stats (relevant_entries : list (TimeEntry.t * Task.t))
  : PyDict.dict Z :=
  fold_left
    (fun stats p =>
       add_to_group (TaskCategory_value (Task.category (snd p))) (minutes_of p)
                    stats)
    relevant_entries PyDict.empty.

(** [task_stats] of [get_time_analytics], keyed by the task title. *)
Definition task_stats (relevant_entries : list (TimeEntry.t * Task.t))
  : PyDict.dict Z :=
  fold_left
    (fun stats p => add_to_group (Task.title (snd p)) (minutes_of p) stats)
    relevant_entries PyDict.empty.

(** [(minutes / total_minutes) * 100] of the category breakdown. *)
Definition category_percentage (minutes total_minutes : Z) : float :=
  (truediv minutes total_minutes * of_int 100)%float.

(** [sum(d.values())] *)
Definition sum_values (d : PyDict.dict Z) : Z :=
  fold_right Z.add 0 (PyDict.values d).

(** [sum(entry.duration_minutes or 0 for entry in entries)] *)
Definition sum_durations (entries : list TimeEntry.t) : Z :=
  fold_left Z.add
    (map (fun e => match TimeEntry.duration_minutes e with
                   | Some m => m
                   | None => 0
                   end) entries) 0.

Module ProjectStatus.

(** The figures [get_project_status] reports. [budget] holds
    [estimated_cost] and [budget_usage] when the project has a budget. *)
Record t : Type := mk {
  name : string;
  total_tasks : nat;
  completed_tasks : nat;
  progress_percentage : float;
  total_time_minutes : Z;
  total_hours : float;
  budget : option (float * float);
  status_counts : PyDict.dict Z
}.

End ProjectStatus.

Inductive project_status : Type :=
| ProjectNotFound (project_id : string)
| ProjectStatusReport (report : ProjectStatus.t).

(** [[task for task in tasks_storage.values() if task.project_id == id]] *)
Definition tasks_of_project (id : string) (s : Store) : list Task.t :=
  filter (fun task => opt_str_eqb (Task.project_id task) (Some id))
         (PyDict.values (tasks_storage s)).

(** [len([t for t in project_tasks if t.status == TaskStatus.COMPLETED])] *)
Definition count_completed (project_tasks : list Task.t) : nat :=
  List.length
    (filter (fun t => TaskStatus_eqb (Task.status t) COMPLETED) project_tasks).

(** The loop of [get_project_status] that adds up the time of the project's
    tasks. *)
Definition project_time_minutes (project_tasks : list Task.t) (s : Store) : Z :=
  fold_left
    (fun total_time_minutes task =>
       let task_entries :=
         filter (fun entry => String.eqb (TimeEntry.task_id entry) (Task.id task))
                (PyDict.values (time_entries_storage s)) in
       total_time_minutes + sum_durations task_entries)
    project_tasks 0.

(** [get_project_status], up to the figures of the report. *)
Definition get_project_status (project_id : string) (s : Store)
  : project_status :=
  match PyDict.get project_id (projects_storage s) with
  | None => ProjectNotFound project_id
  | Some project =>
      let project_tasks := tasks_of_project project_id s in
      let total_tasks := List.length project_tasks in
      let completed_tasks := count_completed project_tasks in
      let progress_percentage :=
        if (0 <? Z.of_nat total_tasks)
        then (truediv (Z.of_nat completed_tasks) (Z.of_nat total_tasks)
              * of_int 100)%float
        else 0%float in
      let total_time_minutes := project_time_minutes project_tasks s in
      let total_hours := truediv total_time_minutes 60 in
      let budget_info :=
        if float_truthy (Project.budget project) then
          match Project.budget project with
          | Some budget =>
              let estimated_cost := (total_hours * of_int 50)%float in
              Some (estimated_cost,
                    ((estimated_cost / budget) * of_int 100)%float)
          | None => None
          end
        else None in
      ProjectStatusReport
        (ProjectStatus.mk (Project.name project) total_tasks completed_tasks
           progress_percentage total_time_minutes total_hours budget_info
           (count_by (fun task => TaskStatus_value (Task.status task))
                     project_tasks))
  end.

Module TasksOverview.

(** The figures of the [tasks://all] resource. *)
Record t : Type := mk {
  total_tasks : nat;
  completed_tasks : nat;
  completed_percentage : float;
  in_progress_tasks : nat;
  priority_counts : PyDict.dict Z;
  category_counts : PyDict.dict Z
}.

End TasksOverview.

Inductive tasks_overview : Type :=
| NoTasksInSystem
| TasksOverviewReport (report : TasksOverview.t)
| TasksOverviewRaised (e : exn).

(** The resource [all_tasks]. The division [completed_tasks/total_tasks]
    raises [ZeroDivisionError] on a zero divisor. *)
Definition all_tasks (s : Store) : tasks_overview :=
  match tasks_storage s with
  | [] => NoTasksInSystem
  | _ =>
      let tasks := PyDict.values (tasks_storage s) in
      let total_tasks := List.length (tasks_storage s) in
      let completed_tasks :=
        List.length
          (filter (fun t => TaskStatus_eqb (Task.status t) COMPLETED) tasks) in
      let in_progress_tasks :=
        List.length
          (filter (fun t => TaskStatus_eqb (Task.status t) IN_PROGRESS) tasks) in
      let priority_counts :=
        count_by (fun task => Priority_value (Task.priority task)) tasks in
      let category_counts :=
        count_by (fun task => TaskCategory_value (Task.category task)) tasks in
      if Z.of_nat total_tasks =? 0 then TasksOverviewRaised ZeroDivisionError
      else
        TasksOverviewReport
          (TasksOverview.mk total_tasks completed_tasks
             (truediv (Z.of_nat completed_tasks) (Z.of_nat total_tasks)
              * of_int 100)%float
             in_progress_tasks priority_counts category_counts)
  end.

(** The loop of [productivity_analytics] that collects [recent_entries];
    [None] is the [TypeError] of [entry.start_time >= start_date]. *)
Fixpoint collect_recent (tasks : PyDict.dict Task.t) (start_date : datetime)
    (entries : list TimeEntry.t) : option (list (TimeEntry.t * Task.t)) :=
  match entries with
  | [] => Some []
  | entry :: rest =>
      match Datetime.lt (TimeEntry.start_time entry) start_date with
      | None => None
      | Some before =>
          let keep :=
            if negb before then
              match TimeEntry.duration_minutes entry with
              | Some m =>
                  if m =? 0 then None
                  else
                    match PyDict.get (TimeEntry.task_id entry) tasks with
                    | Some task => Some (entry, task)
                    | None => None
                    end
              | None => None
              end
            else None in
          match collect_recent tasks start_date rest with
          | None => None
          | Some l => Some (match keep with Some p => p :: l | None => l end)
          end
      end
  end.

Inductive productivity_report : Type :=
| NoTrackingData
| NoRecentTrackingData
| ProductivityReport (total_hours avg_hours_per_day : float) (sessions : nat)
| ProductivityRaised (e : exn).

(** The resource [productivity_analytics], up to the headline figures; the
    two top-five tables are left out. *)
Definition productivity_analytics (now : Z) (s : Store) : productivity_report :=
  match time_entries_storage s with
  | [] => NoTrackingData
  | _ =>
      let end_date := Datetime.naive now in
      match Datetime.add end_date (- (30 * Datetime.US_PER_DAY)) with
      | None => ProductivityRaised OverflowError
      | Some start_date =>
          match collect_recent (tasks_storage s) start_date
                  (PyDict.values (time_entries_storage s)) with
          | None => ProductivityRaised TypeError
          | Some [] => NoRecentTrackingData
          | Some recent_entries =>
              let total_minutes := total_minutes_of recent_entries in
              let total_hours := truediv total_minutes 60 in
              ProductivityReport total_hours (total_hours / of_int 30)%float
                                 (List.length recent_entries)
          end
      end
  end.

Module ProjectLine.

(** One project of the [projects://overview] resource. *)
Record t : Type := mk {
  name : string;
  status : string;
  completed : nat;
  total : nat;
  progress : float;
  team_size : nat;
  budget : option float
}.

End ProjectLine.

(** One iteration of the loop of [projects_overview]. *)
Definition project_line (project : Project.t) (s : Store) : ProjectLine.t :=
  let project_tasks :=
    filter (fun task =>
              opt_str_eqb (Task.project_id task) (Some (Project.id project)))
           (PyDict.values (tasks_storage s)) in
  let completed :=
    List.length
      (filter (fun t => TaskStatus_eqb (Task.status t) COMPLETED)
              project_tasks) in
  let progress :=
    match project_tasks with
    | [] => 0%float
    | _ =>
        (truediv (Z.of_nat completed) (Z.of_nat (List.length project_tasks))
         * of_int 100)%float
    end in
  ProjectLine.mk (Project.name project) (Project.status project) completed
                 (List.length project_tasks) progress
                 (List.length (Project.team_members project))
                 (if float_truthy (Project.budget project)
                  then Project.budget project else None).

(** The resource [projects_overview]: [None] when there is no project, else
    the number of projects and one line per project. *)
Definition projects_overview (s : Store)
  : option (nat * list ProjectLine.t) :=
  match projects_storage s with
  | [] => None
  | _ =>
      Some (List.length (projects_storage s),
            map (fun project => project_line project s)
                (PyDict.values (projects_storage s)))
  end.

(** Every record is stored under its own [id]. *)
Definition keys_are_ids (s : Store) : Prop :=
  (forall k task, In (k, task) (tasks_storage s) -> Task.id task = k)
  /\ (forall k project,
        In (k, project) (projects_storage s) -> Project.id project = k)
  /\ (forall k entry,
        In (k, entry) (time_entries_storage s) -> TimeEntry.id entry = k).

(* ===================================================================== *)
(** ** Scenarios *)
(* ===================================================================== *)

(** The defaults of [ConfigSchema]. *)
Definition default_config : ConfigSchema :=
  {| default_priority := MEDIUM;
     default_category := OTHER;
     work_hours_per_day := 8%float |}.

(** 2024-01-01T09:00:00 on the local clock. *)
Definition nine_am : Z :=
  Datetime.us (Datetime.of_civil 2024 1 1 9 0 0 0 None).

Definition after_minutes (n : Z) (t : Z) : Z := t + n * Datetime.US_PER_MINUTE.

(** A task "Write spec" of high priority, created at nine. *)
Definition create_write_spec : call :=
  CreateTask default_config "task-1" nine_am nine_am "Write spec" None
             (Some HIGH) None None None None None None.

(** The task as [create_write_spec] stores it. *)
Definition write_spec_task : Task.t :=
  Task.mk "task-1" "Write spec" None HIGH TODO OTHER None
          (Datetime.naive nine_am) (Datetime.naive nine_am) None None [] []
          None None.

(** Its timer is started at nine and stopped ninety minutes later. *)
Definition first_session : list call :=
  [ StartTimer "entry-1" nine_am "task-1" None;
    StopTimer (after_minutes 90 nine_am) None (Some "task-1") ].

(** A second timer runs for thirty minutes and is stopped by its entry id. *)
Definition second_session : list call :=
  [ StartTimer "entry-2" (after_minutes 120 nine_am) "task-1" None;
    StopTimer (after_minutes 150 nine_am) (Some "entry-2") None ].

(** A second task, and a store with a project and both tasks: "Write spec"
    has a logged entry and a running timer, "Review" has one logged entry. *)
Definition create_review : call :=
  CreateTask default_config "task-2" nine_am nine_am "Review" None
             None None None None None None None.

Definition two_tasks_calls : list call :=
  [ CreateProject "project-1" nine_am "Documentation" None None None None None;
    create_write_spec;
    create_review;
    LogTime "entry-1" nine_am "task-1" 45 None None;
    StartTimer "entry-2" (after_minutes 60 nine_am) "task-1" None;
    LogTime "entry-3" nine_am "task-2" 20 None None ].

Definition two_tasks_store : Store :=
  run IsoBasic.fromisoformat two_tasks_calls empty_store.

(** The store holding only "Write spec", and the same store with a timer
    running on it. *)
Definition one_task_store : Store :=
  run IsoBasic.fromisoformat [create_write_spec] empty_store.

Definition running_store : Store :=
  run IsoBasic.fromisoformat
      [create_write_spec; StartTimer "entry-1" nine_am "task-1" None]
      empty_store.

(** Three tasks of the same priority, stored in this order: due in January,
    due in June, and without a due date. *)
Definition same_tier_calls : list call :=
  [ CreateTask default_config "task-jan" nine_am nine_am "Due in January" None
               (Some HIGH) None (Some "2024-01-31T17:00:00") None None None None;
    CreateTask default_config "task-jun" nine_am nine_am "Due in June" None
               (Some HIGH) None (Some "2024-06-30T17:00:00") None None None None;
    CreateTask default_config "task-none" nine_am nine_am "No due date" None
               (Some HIGH) None None None None None None ].

Definition same_tier_store : Store :=
  run IsoBasic.fromisoformat same_tier_calls empty_store.

(** The same tier when the due date is given in the documented form, with a
    trailing [Z]. *)
Definition same_tier_utc_calls : list call :=
  [ CreateTask default_config "task-jan" nine_am nine_am "Due in January" None
               (Some HIGH) None (Some "2024-01-31T17:00:00Z") None None None None;
    CreateTask default_config "task-none" nine_am nine_am "No due date" None
               (Some HIGH) None None None None None None ].

Definition same_tier_utc_store : Store :=
  run IsoBasic.fromisoformat same_tier_utc_calls empty_store.

(** The titles of a task listing, in the order listed. *)
Definition listed_titles (r : response) : option (list string) :=
  match r with
  | TaskList tasks => Some (map Task.title tasks)
  | NoTasksFound => Some []
  | _ => None
  end.

(* ===================================================================== *)
(** ** Facts about dictionaries *)
(* ===================================================================== *)

Module PyDictFacts.
Import PyDict.

Section Facts.
Context {V : Type}.
Implicit Types (d : dict V) (k : string) (v : V).

Lemma get_set_eq k v d : get k (set k v d) = Some v.
Proof.
  induction d as [|[k' v'] r IH]; simpl.
  - now rewrite String.eqb_refl.
  - destruct (String.eqb k k') eqn:E; simpl.
    + now rewrite String.eqb_refl.
    + now rewrite E.
Qed.

Lemma get_set_ne k k' v d : k <> k' -> get k' (set k v d) = get k' d.
Proof.
  intros Hne. induction d as [|[k0 v0] r IH]; simpl.
  - destruct (String.eqb_spec k' k); congruence.
  - destruct (String.eqb_spec k k0) as [->|Hk]; simpl.
    + destruct (String.eqb_spec k' k0); congruence.
    + now rewrite IH.
Qed.

Lemma get_pop_ne k k' d : k <> k' -> get k' (pop k d) = get k' d.
Proof.
  intros Hne. induction d as [|[k0 v0] r IH]; simpl; [reflexivity|].
  destruct (String.eqb_spec k k0) as [->|Hk]; simpl.
  - destruct (String.eqb_spec k' k0); congruence.
  - now rewrite IH.
Qed.

Lemma get_None_not_In k d : get k d = None <-> ~ In k (keys d).
Proof.
  induction d as [|[k0 v0] r IH]; simpl.
  - tauto.
  - destruct (String.eqb_spec k k0) as [->|Hk].
    + split; [discriminate | intros H; exfalso; apply H; now left].
    + rewrite IH. split.
      * intros H [E|HIn]; [congruence | tauto].
      * tauto.
Qed.

Lemma get_Some_In k v d : get k d = Some v -> In (k, v) d.
Proof.
  induction d as [|[k0 v0] r IH]; simpl; [discriminate|].
  destruct (String.eqb_spec k k0) as [->|Hk].
  - intros [= ->]. now left.
  - intros H. right. now apply IH.
Qed.

Lemma In_get k v d : wf d -> In (k, v) d -> get k d = Some v.
Proof.
  unfold wf. induction d as [|[k0 v0] r IH]; simpl; [tauto|].
  intros Hnd [E|HIn].
  - injection E as -> ->. now rewrite String.eqb_refl.
  - inversion Hnd as [|? ? Hnot Hr]; subst.
    destruct (String.eqb_spec k k0) as [->|Hk].
    + exfalso. apply Hnot. change k0 with (fst (k0, v)).
      now apply in_map.
    + now apply IH.
Qed.

Lemma get_pop_eq k d : wf d -> get k (pop k d) = None.
Proof.
  unfold wf. induction d as [|[k0 v0] r IH]; simpl; [reflexivity|].
  intros Hnd. inversion Hnd as [|? ? Hnot Hr]; subst.
  destruct (String.eqb_spec k k0) as [->|Hk]; simpl.
  - now apply get_None_not_In.
  - destruct (String.eqb_spec k k0); [congruence|]. now apply IH.
Qed.

Lemma keys_pop_incl k d : incl (keys (pop k d)) (keys d).
Proof.
  induction d as [|[k0 v0] r IH]; simpl; [apply incl_refl|].
  destruct (String.eqb k k0); simpl.
  - apply incl_tl, incl_refl.
  - intros x [E|HIn]; [now left | right; now apply IH].
Qed.

Lemma wf_pop k d : wf d -> wf (pop k d).
Proof.
  unfold wf. induction d as [|[k0 v0] r IH]; simpl; [trivial|].
  intros Hnd. inversion Hnd as [|? ? Hnot Hr]; subst.
  destruct (String.eqb k k0); simpl; [assumption|].
  constructor; [|now apply IH].
  intros HIn. apply Hnot. now apply (keys_pop_incl k r).
Qed.

Lemma keys_set_In k k' v d :
  In k' (keys (set k v d)) -> k' = k \/ In k' (keys d).
Proof.
  induction d as [|[k0 v0] r IH]; simpl.
  - intros [E|[]]. now left.
  - destruct (String.eqb_spec k k0) as [->|Hk]; simpl.
    + intros [E|HIn]; [right; now left | right; now right].
    + intros [E|HIn]; [right; now left|].
      destruct (IH HIn); [now left | right; now right].
Qed.

Lemma wf_set k v d : wf d -> wf (set k v d).
Proof.
  unfold wf. induction d as [|[k0 v0] r IH]; simpl.
  - intros _. constructor; [simpl; tauto | constructor].
  - intros Hnd. inversion Hnd as [|? ? Hnot Hr]; subst.
    destruct (String.eqb_spec k k0) as [->|Hk]; simpl.
    + now constructor.
    + constructor; [|now apply IH].
      intros HIn. destruct (keys_set_In _ _ _ _ HIn); congruence.
Qed.

(** On a well-formed dictionary [pop] is a filter on keys. *)
Lemma pop_filter k d :
  wf d -> pop k d = filter (fun kv => negb (String.eqb k (fst kv))) d.
Proof.
  unfold wf. induction d as [|[k0 v0] r IH]; simpl; [reflexivity|].
  intros Hnd. inversion Hnd as [|? ? Hnot Hr]; subst.
  destruct (String.eqb_spec k k0) as [->|Hk]; simpl.
  - symmetry. apply forallb_filter_id. apply forallb_forall.
    intros [k1 v1] HIn. simpl.
    destruct (String.eqb_spec k0 k1) as [->|]; [|reflexivity].
    exfalso. apply Hnot. change k1 with (fst (k1, v1)). now apply in_map.
  - now rewrite IH.
Qed.

Lemma wf_filter (p : string * V -> bool) d : wf d -> wf (filter p d).
Proof.
  unfold wf. induction d as [|[k0 v0] r IH]; simpl; [trivial|].
  intros Hnd. inversion Hnd as [|? ? Hnot Hr]; subst.
  destruct (p (k0, v0)); simpl; [|now apply IH].
  constructor; [|now apply IH].
  intros HIn. apply Hnot. unfold keys in *.
  apply in_map_iff in HIn. destruct HIn as [[k1 v1] [E HIn]].
  apply filter_In in HIn. apply in_map_iff. exists (k1, v1). tauto.
Qed.

(** Popping a list of keys one after the other. *)
Lemma fold_pop_filter (ks : list string) d :
  wf d ->
  fold_left (fun acc k => pop k acc) ks d
  = filter (fun kv => negb (existsb (String.eqb (fst kv)) ks)) d.
Proof.
  revert d. induction ks as [|k ks IH]; intros d Hwf; simpl.
  - symmetry. apply forallb_filter_id. now apply forallb_forall.
  - rewrite IH by now apply wf_pop.
    rewrite pop_filter by assumption.
    clear. induction d as [|[k0 v0] r IHd]; simpl; [reflexivity|].
    rewrite (String.eqb_sym k0 k).
    destruct (String.eqb k k0); simpl; [assumption|].
    destruct (existsb (String.eqb k0) ks); simpl; now rewrite IHd.
Qed.

Lemma get_filter_true (p : string * V -> bool) k v d :
  get k d = Some v -> p (k, v) = true -> get k (filter p d) = Some v.
Proof.
  induction d as [|[k0 v0] r IH]; simpl; [discriminate|].
  destruct (String.eqb_spec k k0) as [->|Hk].
  - intros [= ->] Hp. rewrite Hp. simpl. now rewrite String.eqb_refl.
  - intros Hg Hp. destruct (p (k0, v0)); simpl; [|now apply IH].
    destruct (String.eqb_spec k k0); [congruence | now apply IH].
Qed.

Lemma get_filter_false (p : string * V -> bool) k v d :
  wf d -> get k d = Some v -> p (k, v) = false -> get k (filter p d) = None.
Proof.
  intros Hwf Hg Hp.
  destruct (get k (filter p d)) as [v'|] eqn:E; [|reflexivity].
  apply get_Some_In in E. apply filter_In in E. destruct E as [HIn Hp'].
  apply (In_get _ _ _ Hwf) in HIn. congruence.
Qed.

Lemma get_filter_None (p : string * V -> bool) k d :
  get k d = None -> get k (filter p d) = None.
Proof.
  rewrite !get_None_not_In. intros Hn HIn. apply Hn.
  unfold keys in *. apply in_map_iff in HIn.
  destruct HIn as [kv [E HIn]]. apply filter_In in HIn.
  apply in_map_iff. exists kv. tauto.
Qed.

End Facts.

End PyDictFacts.

(* ===================================================================== *)
(** ** Sanity checks of the calendar and of the reader *)
(* ===================================================================== *)

Example iso_basic_utc :
  parse_iso IsoBasic.fromisoformat "2024-01-01T09:00:00Z"
  = Some (Datetime.of_civil 2024 1 1 9 0 0 0 (Some 0)).
Proof. reflexivity. Qed.

Example iso_basic_malformed :
  parse_iso IsoBasic.fromisoformat "next tuesday" = None.
Proof. reflexivity. Qed.

Example datetime_max_is_last_microsecond :
  Datetime.max = Datetime.of_civil 9999 12 31 23 59 59 999999 None.
Proof. reflexivity. Qed.


(* ===================================================================== *)
(** ** Invariant I1: at most one active timer per task *)
(* ===================================================================== *)

Section Counting.
Context {V : Type} (p : V -> bool).

Lemma count_set_le (k : string) (v : V) (d : PyDict.dict V) :
  (List.length (filter p (PyDict.values (PyDict.set k v d)))
   <= List.length (filter p (PyDict.values d)) + (if p v then 1 else 0))%nat.
Proof.
  induction d as [|[k0 v0] r IH]; simpl.
  - destruct (p v); simpl; lia.
  - destruct (String.eqb k k0); simpl.
    + destruct (p v), (p v0); simpl; lia.
    + destruct (p v0); simpl; lia.
Qed.

Lemma count_pop_le (k : string) (d : PyDict.dict V) :
  (List.length (filter p (PyDict.values (PyDict.pop k d)))
   <= List.length (filter p (PyDict.values d)))%nat.
Proof.
  induction d as [|[k0 v0] r IH]; simpl; [lia|].
  destruct (String.eqb k k0); simpl; destruct (p v0); simpl; lia.
Qed.

Lemma count_fold_pop_le (ks : list string) (d : PyDict.dict V) :
  (List.length
     (filter p (PyDict.values (fold_left (fun acc k => PyDict.pop k acc) ks d)))
   <= List.length (filter p (PyDict.values d)))%nat.
Proof.
  revert d. induction ks as [|k ks IH]; intros d; simpl; [lia|].
  etransitivity; [apply IH | apply count_pop_le].
Qed.

(** Two elements that both pass a filter keeping at most one element are
    the same element. *)
Lemma filter_le1_unique (l : list V) (x y : V) :
  (List.length (filter p l) <= 1)%nat ->
  In x l -> In y l -> p x = true -> p y = true -> x = y.
Proof.
  intros Hlen Hx Hy Hpx Hpy.
  assert (Hfx : In x (filter p l)) by (apply filter_In; tauto).
  assert (Hfy : In y (filter p l)) by (apply filter_In; tauto).
  destruct (filter p l) as [|a [|b t]]; simpl in *; try tauto; try lia.
  destruct Hfx as [<-|[]], Hfy as [<-|[]]. reflexivity.
Qed.

End Counting.

Lemma find_active_None task_id (d : PyDict.dict TimeEntry.t) :
  find_active task_id (PyDict.items d) = None ->
  filter (open_for task_id) (PyDict.values d) = [].
Proof.
  unfold PyDict.items. induction d as [|[k e] r IH]; simpl; [reflexivity|].
  unfold open_for at 1.
  destruct (String.eqb (TimeEntry.task_id e) task_id && TimeEntry.is_open e);
    [discriminate | assumption].
Qed.

Lemma find_active_Some task_id (d : PyDict.dict TimeEntry.t) k e :
  find_active task_id (PyDict.items d) = Some (k, e) ->
  In (k, e) d /\ open_for task_id e = true.
Proof.
  unfold PyDict.items. induction d as [|[k0 e0] r IH]; simpl; [discriminate|].
  destruct (String.eqb (TimeEntry.task_id e0) task_id && TimeEntry.is_open e0)
    eqn:E.
  - intros [= -> ->]. split; [now left | exact E].
  - intros H. destruct (IH H). split; [now right | assumption].
Qed.

Lemma find_active_complete task_id (d : PyDict.dict TimeEntry.t) k e :
  In (k, e) d -> open_for task_id e = true ->
  exists k' e', find_active task_id (PyDict.items d) = Some (k', e').
Proof.
  unfold PyDict.items. induction d as [|[k0 e0] r IH]; simpl; [tauto|].
  intros HIn Hopen.
  destruct (String.eqb (TimeEntry.task_id e0) task_id && TimeEntry.is_open e0)
    eqn:E; [eauto|].
  destruct HIn as [[= -> ->]|HIn]; [unfold open_for in Hopen; congruence|].
  now apply IH.
Qed.

(** A closed entry is nobody's active timer. *)
Lemma closed_not_open_for task_id e :
  TimeEntry.is_open e = false -> open_for task_id e = false.
Proof. unfold open_for. intros ->. apply andb_false_r. Qed.

Lemma entries_step_I1 (s s' : Store) :
  entries_step (time_entries_storage s) (time_entries_storage s') ->
  I1 s -> I1 s'.
Proof.
  unfold I1, open_entries. intros Hstep HI task_id.
  specialize (HI task_id).
  inversion Hstep as [Heq | ks Heq | k e Hclosed Heq | k e Hnone Heq].
  - assumption.
  - etransitivity; [apply count_fold_pop_le | exact HI].
  - etransitivity; [apply count_set_le|].
    rewrite (closed_not_open_for task_id e Hclosed). lia.
  - etransitivity; [apply count_set_le|].
    destruct (open_for task_id e) eqn:Hopen; [|lia].
    unfold open_for in Hopen. apply andb_prop in Hopen.
    destruct Hopen as [Heqb _]. apply String.eqb_eq in Heqb. subst task_id.
    rewrite Hnone. simpl. lia.
Qed.

Section StepsOfTools.
Variable fromisoformat : string -> option datetime.

Lemma create_task_entries cfg new_id n1 n2 title description priority category
    due_date estimated_hours tags project_id assignee s :
  time_entries_storage
    (fst (create_task fromisoformat cfg new_id n1 n2 title description priority
            category due_date estimated_hours tags project_id assignee s))
  = time_entries_storage s.
Proof.
  unfold create_task.
  destruct due_date as [d|]; [|reflexivity].
  destruct (str_truthy (Some d)); [|reflexivity].
  destruct (parse_iso fromisoformat d); reflexivity.
Qed.

Lemma update_task_entries now task_id title description priority status
    category due_date estimated_hours actual_hours tags assignee s :
  time_entries_storage
    (fst (update_task fromisoformat now task_id title description priority
            status category due_date estimated_hours actual_hours tags
            assignee s))
  = time_entries_storage s.
Proof.
  unfold update_task.
  destruct (PyDict.get task_id (tasks_storage s)); [|reflexivity].
  destruct due_date as [d|]; [|reflexivity].
  destruct (parse_iso fromisoformat d); reflexivity.
Qed.

Lemma start_timer_step new_id now task_id description s :
  entries_step (time_entries_storage s)
    (time_entries_storage (fst (start_timer new_id now task_id description s))).
Proof.
  unfold start_timer.
  destruct (PyDict.get task_id (tasks_storage s)); [|apply step_same].
  destruct (find_active task_id (PyDict.items (time_entries_storage s)))
    as [[k e]|] eqn:E; [apply step_same|].
  simpl. apply step_opened. simpl. now apply find_active_None.
Qed.

Lemma stop_timer_step now time_entry_id task_id s :
  entries_step (time_entries_storage s)
    (time_entries_storage (fst (stop_timer now time_entry_id task_id s))).
Proof.
  unfold stop_timer.
  destruct (select_entry time_entry_id task_id s) as [r|[k entry]];
    [apply step_same|].
  destruct (TimeEntry.end_time entry).
  - destruct (PyDict.get (TimeEntry.task_id entry) (tasks_storage s));
      apply step_same.
  - destruct (Datetime.sub _ _); simpl.
    + destruct (PyDict.get _ _); simpl; now apply step_closed.
    + now apply step_closed.
Qed.

Lemma log_time_step new_id now task_id duration_minutes description start_time s :
  entries_step (time_entries_storage s)
    (time_entries_storage
       (fst (log_time fromisoformat new_id now task_id duration_minutes
               description start_time s))).
Proof.
  unfold log_time.
  destruct (PyDict.get task_id (tasks_storage s)); [|apply step_same].
  destruct (parsed_start_time fromisoformat now start_time);
    [|apply step_same].
  destruct (Datetime.minutes duration_minutes); [|apply step_same].
  destruct (Datetime.add _ _); [|apply step_same].
  simpl. now apply step_closed.
Qed.

Lemma delete_task_step task_id s :
  entries_step (time_entries_storage s)
    (time_entries_storage (fst (delete_task task_id s))).
Proof.
  unfold delete_task.
  destruct (PyDict.get task_id (tasks_storage s)); [|apply step_same].
  simpl. apply step_pops.
Qed.

(** [create_project] writes one project and nothing else. *)
Lemma create_project_frame new_id now name description start_date end_date
    budget team_members s :
  let s' := fst (create_project fromisoformat new_id now name description
                   start_date end_date budget team_members s) in
  tasks_storage s' = tasks_storage s
  /\ time_entries_storage s' = time_entries_storage s
  /\ (projects_storage s' = projects_storage s
      \/ exists project,
           projects_storage s'
           = PyDict.set new_id project (projects_storage s)).
Proof.
  unfold create_project.
  repeat match goal with
         | |- context [match ?x with Some _ => _ | None => _ end] => destruct x
         | |- context [if ?b then _ else _] => destruct b
         end;
    simpl; repeat split; eauto.
Qed.

Lemma exec_step c s :
  entries_step (time_entries_storage s)
    (time_entries_storage (fst (exec fromisoformat c s))).
Proof.
  destruct c; simpl.
  - rewrite create_task_entries. apply step_same.
  - rewrite update_task_entries. apply step_same.
  - apply delete_task_step.
  - apply start_timer_step.
  - apply stop_timer_step.
  - apply log_time_step.
  - destruct (create_project_frame new_id now name description start_date
                end_date budget team_members s) as (_ & -> & _).
    apply step_same.
Qed.

Lemma exec_I1 c s : I1 s -> I1 (fst (exec fromisoformat c s)).
Proof. apply entries_step_I1, exec_step. Qed.

Lemma run_I1 cs s : I1 s -> I1 (run fromisoformat cs s).
Proof.
  revert s. induction cs as [|c cs IH]; intros s HI; simpl; [assumption|].
  apply IH, exec_I1, HI.
Qed.

Lemma I1_empty_store : I1 empty_store.
Proof. intros task_id. simpl. lia. Qed.

(** With I1, [start_timer] on a task that has an active timer changes
    nothing and reports that timer's start time. *)
Lemma start_timer_running new_id now task_id description s task k e :
  I1 s ->
  PyDict.get task_id (tasks_storage s) = Some task ->
  In (k, e) (time_entries_storage s) ->
  TimeEntry.task_id e = task_id ->
  TimeEntry.end_time e = None ->
  start_timer new_id now task_id description s
  = (s, TimerAlreadyRunning (Task.title task) (TimeEntry.start_time e)).
Proof.
  intros HI Htask HIn Htid Hend. unfold start_timer. rewrite Htask.
  assert (Hopen : open_for task_id e = true).
  { unfold open_for, TimeEntry.is_open. rewrite Htid, Hend.
    now rewrite String.eqb_refl. }
  destruct (find_active_complete task_id _ k e HIn Hopen) as (k' & e' & Hf).
  rewrite Hf. destruct (find_active_Some _ _ _ _ Hf) as [HIn' Hopen'].
  assert (e' = e) as ->; [|reflexivity].
  apply (filter_le1_unique (open_for task_id)
           (PyDict.values (time_entries_storage s))); auto.
  - apply HI.
  - change e' with (snd (k', e')). now apply in_map.
  - change e with (snd (k, e)). now apply in_map.
Qed.

End StepsOfTools.

(** C1 (invariant I1). After any sequence of [create_task], [update_task],
    [delete_task], [start_timer], [stop_timer], [log_time] (and
    [create_project]) calls executed one after the other on the empty store,
    every task has at most one time entry without [end_time]; and in such a store [start_timer] on a task
    that has an entry without [end_time] leaves the store as it is and
    reports that entry's start time. *)
Theorem at_most_one_open_timer_per_task :
  forall (fromisoformat : string -> option datetime) (cs : list call),
    let s := run fromisoformat cs empty_store in
    (forall task_id, (List.length (open_entries task_id s) <= 1)%nat)
    /\ (forall new_id now task_id description task k e,
          PyDict.get task_id (tasks_storage s) = Some task ->
          In (k, e) (time_entries_storage s) ->
          TimeEntry.task_id e = task_id ->
          TimeEntry.end_time e = None ->
          start_timer new_id now task_id description s
          = (s, TimerAlreadyRunning (Task.title task) (TimeEntry.start_time e))).
Proof.
  intros fromisoformat cs s.
  assert (HI : I1 s) by apply run_I1, I1_empty_store.
  split.
  - exact HI.
  - intros. now apply start_timer_running with (k := k).
Qed.

(* ===================================================================== *)
(** ** Binary64 arithmetic *)
(* ===================================================================== *)

(** The operations of [SpecFloat] are followed on the integers they compute
    with: a result is obtained by cutting a mantissa to 53 bits
    ([shifted_m]), rounding it to one of its two neighbours and cutting
    again ([finish]). *)

(** *** Digits and shifts *)

Lemma fexp_eq (e : Z) : fexp prec emax e = Z.max (e - 53) (-1074).
Proof. reflexivity. Qed.

Lemma digits2_pos_size (p : positive) : digits2_pos p = Pos.size p.
Proof. induction p; simpl; congruence. Qed.

Lemma Zdigits2_log2 (m : Z) : 0 < m -> Zdigits2 m = Z.log2 m + 1.
Proof.
  destruct m as [|p|p]; try lia. intros _. simpl. rewrite digits2_pos_size.
  destruct p; simpl; lia.
Qed.

Lemma Zdigits2_spec (m : Z) :
  0 < m -> 0 < Zdigits2 m /\ 2 ^ (Zdigits2 m - 1) <= m < 2 ^ Zdigits2 m.
Proof.
  intros Hm. rewrite (Zdigits2_log2 m Hm).
  pose proof (Z.log2_nonneg m). pose proof (Z.log2_spec m Hm).
  replace (Z.log2 m + 1 - 1) with (Z.log2 m) by lia.
  replace (Z.log2 m + 1) with (Z.succ (Z.log2 m)) by lia. lia.
Qed.

Lemma Zdigits2_unique (m d : Z) :
  0 < d -> 2 ^ (d - 1) <= m < 2 ^ d -> Zdigits2 m = d.
Proof.
  intros Hd Hm.
  assert (0 < m) by (pose proof (Z.pow_pos_nonneg 2 (d - 1)); lia).
  rewrite (Zdigits2_log2 m) by assumption.
  rewrite (Z.log2_unique m (d - 1)); [lia | lia |].
  replace (Z.succ (d - 1)) with d by lia. assumption.
Qed.

Lemma Zdigits2_0 : Zdigits2 0 = 0.
Proof. reflexivity. Qed.

Lemma Zdigits2_nonneg (m : Z) : 0 <= Zdigits2 m.
Proof. destruct m; simpl; lia. Qed.

Lemma Zdigits2_le (a b : Z) : 0 <= a <= b -> Zdigits2 a <= Zdigits2 b.
Proof.
  intros [Ha Hab]. destruct (Z.eq_dec a 0) as [->|Hne].
  - apply Zdigits2_nonneg.
  - rewrite !Zdigits2_log2 by lia. pose proof (Z.log2_le_mono a b Hab). lia.
Qed.

(** Shifting right *)
Lemma shr_1_m (mrs : shr_record) :
  0 <= shr_m mrs -> shr_m (shr_1 mrs) = shr_m mrs / 2.
Proof.
  destruct mrs as [m r s]. simpl. intros Hm.
  destruct m as [|[p|p|]|p]; simpl; try lia; try reflexivity.
  - rewrite Pos2Z.inj_xI. apply Z.div_unique with 1; lia.
  - rewrite Pos2Z.inj_xO. apply Z.div_unique with 0; lia.
Qed.

Lemma pow2_xO (p : positive) : 2 ^ Zpos p~0 = 2 ^ Zpos p * 2 ^ Zpos p.
Proof.
  replace (Zpos p~0) with (Zpos p + Zpos p) by lia.
  apply Z.pow_add_r; lia.
Qed.

Lemma pow2_xI (p : positive) : 2 ^ Zpos p~1 = 2 * (2 ^ Zpos p * 2 ^ Zpos p).
Proof.
  replace (Zpos p~1) with (1 + (Zpos p + Zpos p)) by lia.
  rewrite Z.pow_add_r, Z.pow_add_r by lia. reflexivity.
Qed.

Lemma shr_m_iter (p : positive) : forall mrs,
  0 <= shr_m mrs ->
  shr_m (iter_pos shr_1 p mrs) = shr_m mrs / 2 ^ Zpos p.
Proof.
  assert (Hp : forall q, 0 < 2 ^ Zpos q) by (intros; apply Z.pow_pos_nonneg; lia).
  induction p as [p IH|p IH|]; intros mrs Hm; simpl iter_pos.
  - assert (H1 : 0 <= shr_m (shr_1 mrs)).
    { rewrite shr_1_m by assumption. apply Z.div_pos; lia. }
    assert (H2 : 0 <= shr_m (iter_pos shr_1 p (shr_1 mrs))).
    { rewrite IH by assumption. apply Z.div_pos; [assumption | apply Hp]. }
    rewrite IH, IH, shr_1_m by assumption.
    pose proof (Hp p).
    rewrite pow2_xI, !Z.div_div by lia. f_equal; lia.
  - assert (H2 : 0 <= shr_m (iter_pos shr_1 p mrs)).
    { rewrite IH by assumption. apply Z.div_pos; [assumption | apply Hp]. }
    rewrite IH, IH by assumption.
    pose proof (Hp p).
    rewrite pow2_xO, !Z.div_div by lia. f_equal; lia.
  - rewrite shr_1_m by assumption. reflexivity.
Qed.

Lemma shr_record_of_loc_m (m : Z) (l : location) :
  shr_m (shr_record_of_loc m l) = m.
Proof. destruct l as [|[]]; reflexivity. Qed.

Lemma shr_fexp_spec (m e : Z) (l : location) :
  0 <= m ->
  shr_m (fst (shr_fexp prec emax m e l)) = shifted_m m e
  /\ snd (shr_fexp prec emax m e l) = shifted_e m e.
Proof.
  intros Hm. unfold shr_fexp, shifted_m, shifted_e, shr.
  destruct (fexp prec emax (Zdigits2 m + e) - e) as [|p|p] eqn:E; simpl.
  - split; [apply shr_record_of_loc_m | reflexivity].
  - rewrite shr_m_iter by (rewrite shr_record_of_loc_m; assumption).
    rewrite shr_record_of_loc_m. split; reflexivity.
  - split; [apply shr_record_of_loc_m | reflexivity].
Qed.

Lemma shr_fexp_exact (m e : Z) :
  fexp prec emax (Zdigits2 m + e) - e <= 0 ->
  shr_fexp prec emax m e loc_Exact = (Build_shr_record m false false, e).
Proof.
  intros Hn. unfold shr_fexp, shr.
  destruct (fexp prec emax (Zdigits2 m + e) - e) as [|p|p]; try reflexivity; lia.
Qed.

Lemma round_nearest_even_range (m : Z) (l : location) :
  m <= round_nearest_even m l <= m + 1.
Proof.
  destruct l as [|[]]; simpl; try lia. destruct (Z.even m); lia.
Qed.

Lemma binary_round_aux_spec (s : bool) (m e : Z) (l : location) :
  0 <= m ->
  exists m2,
    shifted_m m e <= m2 <= shifted_m m e + 1
    /\ (l = loc_Exact -> fexp prec emax (Zdigits2 m + e) - e <= 0 -> m2 = m)
    /\ binary_round_aux prec emax s m e l = finish s m2 (shifted_e m e).
Proof.
  intros Hm. unfold binary_round_aux.
  destruct (shr_fexp_spec m e l Hm) as [H1 H2].
  destruct (shr_fexp prec emax m e l) as [mrs' e'] eqn:E1. cbn [fst snd] in H1, H2.
  set (m2 := round_nearest_even (shr_m mrs') (loc_of_shr_record mrs')).
  assert (Hr : shr_m mrs' <= m2 <= shr_m mrs' + 1)
    by apply round_nearest_even_range.
  assert (Hm1 : 0 <= shifted_m m e).
  { unfold shifted_m. destruct (0 <? _) eqn:En; [|assumption].
    apply Z.ltb_lt in En.
    apply Z.div_pos; [assumption | apply Z.pow_pos_nonneg; lia]. }
  assert (Hm2 : 0 <= m2) by lia.
  destruct (shr_fexp_spec m2 e' loc_Exact Hm2) as [H3 H4].
  destruct (shr_fexp prec emax m2 e' loc_Exact) as [mrs'' e''] eqn:E2.
  cbn [fst snd] in H3, H4. exists m2. split; [rewrite <- H1; exact Hr|]. split.
  - intros -> Hn. rewrite shr_fexp_exact in E1 by assumption.
    injection E1 as <- <-. reflexivity.
  - unfold finish. rewrite H3, H4, H2. reflexivity.
Qed.

Lemma shifted_shift (m e n : Z) :
  fexp prec emax (Zdigits2 m + e) - e = n -> 0 < n ->
  shifted_m m e = m / 2 ^ n /\ shifted_e m e = e + n.
Proof.
  intros Hn Hpos. unfold shifted_m, shifted_e. rewrite Hn.
  apply Z.ltb_lt in Hpos. rewrite Hpos. split; reflexivity.
Qed.

Lemma shifted_keep (m e : Z) :
  fexp prec emax (Zdigits2 m + e) - e <= 0 ->
  shifted_m m e = m /\ shifted_e m e = e.
Proof.
  intros Hn. unfold shifted_m, shifted_e.
  apply Z.ltb_ge in Hn. rewrite Hn. split; reflexivity.
Qed.

Lemma finish_finite (s : bool) (m2 e1 : Z) (p : positive) (e3 : Z) :
  shifted_m m2 e1 = Zpos p -> shifted_e m2 e1 = e3 -> e3 <= 971 ->
  finish s m2 e1 = S754_finite s p e3.
Proof.
  intros Hm He Hle. unfold finish. rewrite Hm, He.
  replace (e3 <=? emax - prec) with true; [reflexivity|].
  symmetry. apply Z.leb_le. exact Hle.
Qed.

Lemma bounded_normal (p : positive) (e : Z) :
  2 ^ 52 <= Zpos p < 2 ^ 53 -> -1074 <= e <= 971 -> bounded prec emax p e = true.
Proof.
  intros Hp He. unfold bounded, canonical_mantissa.
  apply andb_true_intro. split.
  - apply Z.eqb_eq. rewrite fexp_eq.
    change (Zpos (digits2_pos p)) with (Zdigits2 (Zpos p)).
    rewrite (Zdigits2_unique (Zpos p) 53); [lia | lia | exact Hp].
  - apply Z.leb_le. apply He.
Qed.

(** Rounding a mantissa of at least 53 bits: the result is a normal number
    next to the mantissa cut to 53 bits, or an infinity when the exponent is
    out of range. *)
Lemma binary_round_aux_normal_or_overflow (s : bool) (m e k : Z) (l : location) :
  0 <= k -> 2 ^ (52 + k) <= m < 2 ^ (53 + k) -> -1074 <= e + k ->
  (binary_round_aux prec emax s m e l = S754_infinity s /\ 971 <= e + k)
  \/ exists p e3 c,
       binary_round_aux prec emax s m e l = S754_finite s p e3
       /\ bounded prec emax p e3 = true
       /\ 2 ^ 52 <= Zpos p < 2 ^ 53
       /\ e + k <= e3 <= e + k + 1
       /\ 0 <= c <= 1
       /\ (l = loc_Exact -> k = 0 -> c = 0)
       /\ Zpos p * 2 ^ (e3 - (e + k)) = m / 2 ^ k + c.
Proof.
  intros Hk Hm He1.
  assert (Hpos : 0 < m) by (pose proof (Z.pow_pos_nonneg 2 (52 + k)); lia).
  destruct (binary_round_aux_spec s m e l ltac:(lia)) as (m2 & Hr & Hex & ->).
  assert (Hd : Zdigits2 m = 53 + k).
  { apply Zdigits2_unique; [lia|]. replace (53 + k - 1) with (52 + k) by lia.
    assumption. }
  assert (Hn : fexp prec emax (Zdigits2 m + e) - e = k)
    by (rewrite Hd, fexp_eq; lia).
  assert (Hm1 : shifted_m m e = m / 2 ^ k /\ shifted_e m e = e + k).
  { destruct (Z.eq_dec k 0) as [->|Hne].
    - rewrite Z.pow_0_r, Z.div_1_r, Z.add_0_r. apply shifted_keep. lia.
    - apply shifted_shift; [assumption | lia]. }
  destruct Hm1 as [Hm1 He]. rewrite Hm1 in Hr. rewrite He.
  assert (Hq : 2 ^ 52 <= m / 2 ^ k < 2 ^ 53).
  { assert (Hp : 0 < 2 ^ k) by (apply Z.pow_pos_nonneg; lia).
    rewrite !Z.pow_add_r in Hm by lia. split.
    - apply Z.div_le_lower_bound; lia.
    - apply Z.div_lt_upper_bound; lia. }
  assert (Hexact : l = loc_Exact -> k = 0 -> m2 = m / 2 ^ k).
  { intros Hl Hk0. rewrite Hk0, Z.pow_0_r, Z.div_1_r. apply Hex; [exact Hl | lia]. }
  destruct (Z.eq_dec m2 (2 ^ 53)) as [Heq|Hne].
  - assert (Hd2 : Zdigits2 m2 = 54) by (rewrite Heq; reflexivity).
    destruct (shifted_shift m2 (e + k) 1) as [H1 H2];
      [rewrite Hd2, fexp_eq; lia | lia |].
    destruct (Z_le_gt_dec (e + k + 1) 971) as [Hle|Hgt].
    + right. exists 4503599627370496%positive, (e + k + 1), 1.
      split; [apply finish_finite; [rewrite H1, Heq; reflexivity | exact H2 | lia]|].
      split; [apply bounded_normal; [simpl; lia | lia]|].
      split; [simpl; lia|]. split; [lia|]. split; [lia|].
      split; [intros Hl Hk0; specialize (Hexact Hl Hk0); lia|].
      replace (e + k + 1 - (e + k)) with 1 by lia. lia.
    + left. split; [|lia]. unfold finish. rewrite H1, H2, Heq.
      change (2 ^ 53 / 2 ^ 1) with (Zpos 4503599627370496). cbv iota.
      replace (e + k + 1 <=? emax - prec) with false; [reflexivity|].
      symmetry. apply Z.leb_gt. unfold emax, prec. lia.
  - assert (Hd2 : Zdigits2 m2 = 53).
    { apply Zdigits2_unique; [lia|]. simpl (53 - 1). lia. }
    destruct (shifted_keep m2 (e + k)) as [H1 H2];
      [rewrite Hd2, fexp_eq; lia|].
    destruct m2 as [|p|p]; try (exfalso; simpl in *; lia).
    destruct (Z_le_gt_dec (e + k) 971) as [Hle|Hgt].
    + right. exists p, (e + k), (Zpos p - m / 2 ^ k).
      split; [apply finish_finite; [exact H1 | exact H2 | lia]|].
      split; [apply bounded_normal; lia|].
      split; [lia|]. split; [lia|]. split; [lia|].
      split; [intros Hl Hk0; specialize (Hexact Hl Hk0); lia|].
      rewrite Z.sub_diag, Z.pow_0_r. lia.
    + left. split; [|lia]. unfold finish. rewrite H1, H2.
      replace (e + k <=? emax - prec) with false; [reflexivity|].
      symmetry. apply Z.leb_gt. unfold emax, prec. lia.
Qed.

(** When the exponent stays in range the result is a normal number. *)
Lemma binary_round_aux_normal (s : bool) (m e k : Z) (l : location) :
  0 <= k -> 2 ^ (52 + k) <= m < 2 ^ (53 + k) ->
  -1074 <= e + k -> e + k + 1 <= 971 ->
  exists p e3 c,
    binary_round_aux prec emax s m e l = S754_finite s p e3
    /\ bounded prec emax p e3 = true
    /\ 2 ^ 52 <= Zpos p < 2 ^ 53
    /\ e + k <= e3 <= e + k + 1
    /\ 0 <= c <= 1
    /\ Zpos p * 2 ^ (e3 - (e + k)) = m / 2 ^ k + c.
Proof.
  intros Hk Hm He1 He2.
  destruct (binary_round_aux_normal_or_overflow s m e k l Hk Hm He1)
    as [[_ Hbig] | (p & e3 & c & H1 & H2 & H3 & H4 & H5 & _ & H6)]; [lia|].
  exists p, e3, c. repeat split; try assumption; lia.
Qed.

(** A positive mantissa above the smallest subnormal number does not round
    to zero. *)
Lemma shifted_pos (m e : Z) :
  0 < m -> -1074 < Zdigits2 m + e ->
  0 < shifted_m m e /\ -1074 <= shifted_e m e.
Proof.
  intros Hm Hd. destruct (Zdigits2_spec m Hm) as [HD0 HD].
  set (D := Zdigits2 m) in *.
  destruct (Z_le_gt_dec (fexp prec emax (D + e) - e) 0) as [Hn|Hn].
  - destruct (shifted_keep m e Hn) as [-> ->]. rewrite fexp_eq in Hn.
    split; [exact Hm | lia].
  - destruct (shifted_shift m e (fexp prec emax (D + e) - e) eq_refl)
      as [-> ->]; [lia|].
    rewrite fexp_eq in *. split; [|lia].
    set (n := Z.max (D + e - 53) (-1074) - e) in *.
    assert (Hle : 2 ^ n <= 2 ^ (D - 1)) by (apply Z.pow_le_mono_r; lia).
    assert (Hp : 0 < 2 ^ n) by (apply Z.pow_pos_nonneg; lia).
    assert (1 <= m / 2 ^ n); [|lia].
    apply Z.div_le_lower_bound; lia.
Qed.

Lemma binary_round_aux_pos (s : bool) (m e : Z) (l : location) :
  0 < m -> -1074 < Zdigits2 m + e ->
  binary_round_aux prec emax s m e l = S754_infinity s
  \/ exists p e3, binary_round_aux prec emax s m e l = S754_finite s p e3.
Proof.
  intros Hm Hd.
  destruct (binary_round_aux_spec s m e l ltac:(lia)) as (m2 & Hr & _ & ->).
  destruct (shifted_pos m e Hm Hd) as [H1 H2].
  assert (Hm2 : 0 < m2) by lia.
  destruct (Zdigits2_spec m2 Hm2) as [HD0 _].
  destruct (shifted_pos m2 (shifted_e m e) Hm2 ltac:(lia)) as [H3 _].
  unfold finish. destruct (shifted_m m2 (shifted_e m e)) as [|p|p]; try lia.
  destruct (_ <=? _); [right; eauto | left; reflexivity].
Qed.

(** *** Division *)

Lemma SFdiv_core_binary_spec (m1 e1 m2 e2 : Z) :
  let e' := Z.min (fexp prec emax (Zdigits2 m1 + e1 - (Zdigits2 m2 + e2)))
                  (e1 - e2) in
  exists l,
    SFdiv_core_binary prec emax m1 e1 m2 e2
    = ((m1 * 2 ^ (e1 - e2 - e')) / m2, e', l).
Proof.
  intros e'. unfold SFdiv_core_binary. fold e'.
  assert (Hs : 0 <= e1 - e2 - e') by (unfold e'; lia).
  set (m' := match e1 - e2 - e' with
             | 0 => m1
             | Zpos _ => Z.shiftl m1 (e1 - e2 - e')
             | Zneg _ => 0
             end).
  assert (Hm' : m' = m1 * 2 ^ (e1 - e2 - e')).
  { unfold m'. destruct (e1 - e2 - e') as [|p|p] eqn:E.
    - rewrite Z.pow_0_r. lia.
    - apply Z.shiftl_mul_pow2. lia.
    - lia. }
  destruct (Z.div_eucl m' m2) as [q r] eqn:E.
  exists (new_location m2 r). rewrite <- Hm'. unfold Z.div. rewrite E. reflexivity.
Qed.

(** A quotient of two positive mantissas whose result is a normal number. *)
Lemma SFdiv_normal (sx sy : bool) (mx my : positive) (ex ey k : Z) :
  let e' := Z.min (fexp prec emax (Zdigits2 (Zpos mx) + ex
                                   - (Zdigits2 (Zpos my) + ey)))
                  (ex - ey) in
  let q := (Zpos mx * 2 ^ (ex - ey - e')) / Zpos my in
  0 <= k -> 2 ^ (52 + k) <= q < 2 ^ (53 + k) ->
  -1074 <= e' + k -> e' + k + 1 <= 971 ->
  exists p e c,
    SFdiv prec emax (S754_finite sx mx ex) (S754_finite sy my ey)
    = S754_finite (xorb sx sy) p e
    /\ bounded prec emax p e = true
    /\ 2 ^ 52 <= Zpos p < 2 ^ 53
    /\ e' + k <= e <= e' + k + 1
    /\ 0 <= c <= 1
    /\ Zpos p * 2 ^ (e - (e' + k)) = q / 2 ^ k + c.
Proof.
  intros e' q Hk Hq He1 He2. unfold SFdiv.
  destruct (SFdiv_core_binary_spec (Zpos mx) ex (Zpos my) ey) as [l ->].
  fold e'. fold q.
  apply binary_round_aux_normal; assumption.
Qed.

Lemma pow2Q_pos (e : Z) : (0 < 2 ^ e)%Q.
Proof. apply Qpower_0_lt. reflexivity. Qed.

Lemma pow2Q_add (a b : Z) : (2 ^ (a + b) == 2 ^ a * 2 ^ b)%Q.
Proof. apply Qpower_plus. discriminate. Qed.

Lemma pow2Q_Z (n : Z) : 0 <= n -> (inject_Z (2 ^ n) == 2 ^ n)%Q.
Proof. intros Hn. rewrite Zpower_Qpower by assumption. reflexivity. Qed.

Lemma pow2Q_sub (a b : Z) : (2 ^ (a - b) == 2 ^ a / 2 ^ b)%Q.
Proof.
  unfold Z.sub. rewrite pow2Q_add, Qpower_opp. reflexivity.
Qed.

Lemma pow2Q_ge2 (n : Z) : 1 <= n -> (2 <= 2 ^ n)%Q.
Proof.
  intros Hn. rewrite <- pow2Q_Z by lia.
  change 2%Q with (inject_Z 2). rewrite <- Zle_Qle.
  replace n with (1 + (n - 1)) by lia. rewrite Z.pow_add_r by lia.
  pose proof (Z.pow_pos_nonneg 2 (n - 1)). lia.
Qed.

Lemma F2Q_shift (m e E : Z) :
  E <= e -> (F2Q m e == F2Q (m * 2 ^ (e - E)) E)%Q.
Proof.
  intros HE. unfold F2Q. rewrite inject_Z_mult, pow2Q_Z by lia.
  replace e with ((e - E) + E) at 1 by lia. rewrite pow2Q_add. ring.
Qed.

Lemma Qdiv_floor_le (a b : Z) :
  0 < b -> (inject_Z (a / b) <= inject_Z a / inject_Z b)%Q.
Proof.
  intros Hb. apply Qle_shift_div_l.
  - change 0%Q with (inject_Z 0). now rewrite <- Zlt_Qlt.
  - rewrite <- inject_Z_mult, <- Zle_Qle.
    pose proof (Z.mul_div_le a b Hb). lia.
Qed.

Lemma Qdiv_floor_ge (a b j : Z) :
  0 < b -> (inject_Z j <= inject_Z a / inject_Z b)%Q -> j <= a / b.
Proof.
  intros Hb Hj. apply Z.div_le_lower_bound; [assumption|].
  assert (H : (inject_Z j * inject_Z b <= inject_Z a)%Q).
  { assert (Hbq : (0 < inject_Z b)%Q)
      by (change 0%Q with (inject_Z 0); now rewrite <- Zlt_Qlt).
    apply (Qmult_le_compat_r _ _ (inject_Z b)) in Hj;
      [|apply Qlt_le_weak; exact Hbq].
    setoid_replace (inject_Z a / inject_Z b * inject_Z b)%Q with (inject_Z a) in Hj;
      [exact Hj|].
    field. intros H0. rewrite H0 in Hbq. discriminate. }
  rewrite <- inject_Z_mult, <- Zle_Qle in H. lia.
Qed.

Lemma inject_Z_pos (z : Z) : 0 < z -> (0 < inject_Z z)%Q.
Proof. intros H. change 0%Q with (inject_Z 0). now rewrite <- Zlt_Qlt. Qed.

(** Rounding a quotient goes to one of the two neighbours of the exact
    value. *)
Lemma SFdiv_faithful (sx sy : bool) (mx my : positive) (ex ey k : Z) :
  let e' := Z.min (fexp prec emax (Zdigits2 (Zpos mx) + ex
                                   - (Zdigits2 (Zpos my) + ey)))
                  (ex - ey) in
  let q := (Zpos mx * 2 ^ (ex - ey - e')) / Zpos my in
  0 <= k -> 2 ^ (52 + k) <= q < 2 ^ (53 + k) ->
  -1074 <= e' + k -> e' + k + 1 <= 971 ->
  exists p e,
    SFdiv prec emax (S754_finite sx mx ex) (S754_finite sy my ey)
    = S754_finite (xorb sx sy) p e
    /\ bounded prec emax p e = true
    /\ 2 ^ 52 <= Zpos p < 2 ^ 53
    /\ e' + k <= e <= e' + k + 1
    /\ faithful (F2Q (Zpos mx) ex / F2Q (Zpos my) ey) p e.
Proof.
  intros e' q Hk Hq He1 He2.
  destruct (SFdiv_normal sx sy mx my ex ey k Hk Hq He1 He2)
    as (p & e & c & Hdiv & Hb & Hp & He & Hc & HP).
  fold e' in He, HP. fold q in HP.
  exists p, e. split; [exact Hdiv|]. split; [exact Hb|]. split; [exact Hp|].
  split; [exact He|].
  set (E := e' + k) in *.
  set (s := ex - ey - e') in *.
  assert (Hs : 0 <= s) by (unfold s, e'; lia).
  set (A := Zpos mx * 2 ^ s) in *.
  set (B := Zpos my * 2 ^ k).
  assert (H2k : 0 < 2 ^ k) by (apply Z.pow_pos_nonneg; lia).
  assert (HB : 0 < B) by (unfold B; lia).
  assert (HQ1 : q / 2 ^ k = A / B).
  { unfold q, B. rewrite Z.div_div by lia. reflexivity. }
  assert (HQ1lo : 2 ^ 52 <= A / B).
  { rewrite <- HQ1. apply Z.div_le_lower_bound; [lia|].
    rewrite Z.pow_add_r in Hq by lia. lia. }
  set (Q1 := A / B) in *.
  set (R := (inject_Z A / inject_Z B)%Q).
  assert (HR : (inject_Z Q1 <= R)%Q) by (apply Qdiv_floor_le; exact HB).
  assert (HBq : (0 < inject_Z B)%Q) by (apply inject_Z_pos; exact HB).
  assert (HV : (F2Q (Zpos p) e == inject_Z (Q1 + c) * 2 ^ E)%Q).
  { rewrite (F2Q_shift (Zpos p) e E) by lia. unfold F2Q. rewrite HP, HQ1.
    reflexivity. }
  assert (HX : (F2Q (Zpos mx) ex / F2Q (Zpos my) ey == R * 2 ^ E)%Q).
  { unfold R, A, B, F2Q, E. rewrite !inject_Z_mult, !pow2Q_Z by lia.
    unfold s. rewrite !pow2Q_sub, pow2Q_add.
    pose proof (pow2Q_pos ex). pose proof (pow2Q_pos ey).
    pose proof (pow2Q_pos e'). pose proof (pow2Q_pos k).
    pose proof (inject_Z_pos (Zpos my) ltac:(lia)).
    field. repeat split; intros Hzero; rewrite Hzero in *; discriminate. }
  assert (HE : (0 < 2 ^ E)%Q) by apply pow2Q_pos.
  assert (H52 : (inject_Z (2 ^ 52) <= inject_Z Q1)%Q)
    by (rewrite <- Zle_Qle; exact HQ1lo).
  unfold faithful. rewrite HV, HX. split.
  - rewrite inject_Z_plus.
    assert (Hc1 : (inject_Z c <= 1)%Q)
      by (change 1%Q with (inject_Z 1); rewrite <- Zle_Qle; lia).
    setoid_replace (R * 2 ^ E * (1 + (1 # 4503599627370496)))%Q
      with ((R * (1 + (1 # 4503599627370496))) * 2 ^ E)%Q by ring.
    apply Qmult_le_compat_r; [|apply Qlt_le_weak; exact HE].
    change (inject_Z (2 ^ 52)) with (4503599627370496 # 1)%Q in H52.
    lra.
  - intros j HXlt Hj. rewrite HX in HXlt, Hj.
    assert (HEle : E <= 0).
    { destruct (Z_le_gt_dec E 0) as [|Hgt]; [assumption|exfalso].
      pose proof (pow2Q_ge2 E ltac:(lia)) as H2.
      change (inject_Z (2 ^ 53)) with (9007199254740992 # 1)%Q in HXlt.
      change (inject_Z (2 ^ 52)) with (4503599627370496 # 1)%Q in H52.
      assert (Hlow : (4503599627370496 * 2 <= R * 2 ^ E)%Q).
      { apply Qmult_le_compat_nonneg; split; lra. }
      lra. }
    set (N := 2 ^ (- E)).
    assert (HN : (2 ^ E * inject_Z N == 1)%Q).
    { unfold N. rewrite pow2Q_Z by lia. rewrite <- pow2Q_add.
      replace (E + - E) with 0 by lia. reflexivity. }
    assert (HNpos : (0 < inject_Z N)%Q).
    { apply inject_Z_pos. unfold N. apply Z.pow_pos_nonneg; lia. }
    assert (HjNq : (inject_Z (j * N) <= R)%Q).
    { rewrite inject_Z_mult.
      setoid_replace R with ((R * 2 ^ E) * inject_Z N)%Q
        by (rewrite <- Qmult_assoc, HN; ring).
      apply Qmult_le_compat_r; [exact Hj | apply Qlt_le_weak, HNpos]. }
    assert (HjN : j * N <= Q1).
    { apply Qdiv_floor_ge; [exact HB | exact HjNq]. }
    assert (Hstep : (inject_Z j == inject_Z (j * N) * 2 ^ E)%Q).
    { rewrite inject_Z_mult, <- Qmult_assoc, (Qmult_comm (inject_Z N)), HN. ring. }
    rewrite HV, Hstep. apply Qmult_le_compat_r; [|apply Qlt_le_weak; exact HE].
    rewrite <- Zle_Qle. lia.
Qed.

Lemma quotient_digits (a b lo hi : Z) :
  0 < b -> lo * b <= a -> a < hi * b -> lo <= a / b < hi.
Proof.
  intros Hb Hlo Hhi. split.
  - apply Z.div_le_lower_bound; lia.
  - apply Z.div_lt_upper_bound; lia.
Qed.

Lemma two_cases (q : Z) :
  2 ^ 52 <= q < 2 ^ 54 ->
  exists k, 0 <= k <= 1 /\ 2 ^ (52 + k) <= q < 2 ^ (53 + k).
Proof.
  intros Hq. destruct (Z_lt_ge_dec q (2 ^ 53)).
  - exists 0. simpl in *. lia.
  - exists 1. simpl in *. lia.
Qed.

Lemma pow2_lt_inv (a b : Z) : 0 <= b -> 2 ^ a < 2 ^ b -> a < b.
Proof.
  intros Hb H. destruct (Z_lt_ge_dec a b) as [|Hge]; [assumption|exfalso].
  assert (2 ^ b <= 2 ^ a) by (apply Z.pow_le_mono_r; lia). lia.
Qed.

(** The quotient of two integers. *)
Lemma SFdiv_raw (sx sy : bool) (a b : positive) :
  Zpos a < 2 ^ 52 * Zpos b -> Zpos b < 2 ^ 1000 * Zpos a ->
  exists p e,
    SFdiv prec emax (S754_finite sx a 0) (S754_finite sy b 0)
    = S754_finite (xorb sx sy) p e
    /\ bounded prec emax p e = true
    /\ 2 ^ 52 <= Zpos p < 2 ^ 53
    /\ -1053 <= e <= 1
    /\ faithful (inject_Z (Zpos a) / inject_Z (Zpos b)) p e.
Proof.
  intros Hab Hba.
  destruct (Zdigits2_spec (Zpos a) ltac:(lia)) as [Hda0 Hda].
  destruct (Zdigits2_spec (Zpos b) ltac:(lia)) as [Hdb0 Hdb].
  set (d1 := Zdigits2 (Zpos a)) in *. set (d2 := Zdigits2 (Zpos b)) in *.
  assert (H1 : d1 <= d2 + 52).
  { assert (2 ^ (d1 - 1) < 2 ^ (52 + d2)).
    { rewrite (Z.pow_add_r 2 52 d2) by lia. lia. }
    apply pow2_lt_inv in H; lia. }
  assert (H2 : d2 <= d1 + 1000).
  { assert (2 ^ (d2 - 1) < 2 ^ (1000 + d1)).
    { rewrite (Z.pow_add_r 2 1000 d1) by lia. lia. }
    apply pow2_lt_inv in H; lia. }
  assert (He : Z.min (fexp prec emax (Zdigits2 (Zpos a) + 0
                                       - (Zdigits2 (Zpos b) + 0))) (0 - 0)
               = d1 - d2 - 53).
  { fold d1 d2. rewrite fexp_eq. lia. }
  assert (Hq : 2 ^ 52 <= Zpos a * 2 ^ (0 - 0 - (d1 - d2 - 53)) / Zpos b < 2 ^ 54).
  { replace (0 - 0 - (d1 - d2 - 53)) with (53 + d2 - d1) by lia.
    assert (Hlo : 2 ^ (52 + d2) <= Zpos a * 2 ^ (53 + d2 - d1)).
    { replace (52 + d2) with ((d1 - 1) + (53 + d2 - d1)) by lia.
      rewrite Z.pow_add_r by lia.
      apply Z.mul_le_mono_nonneg_r; [apply Z.pow_nonneg; lia | lia]. }
    assert (Hhi : Zpos a * 2 ^ (53 + d2 - d1) < 2 ^ (53 + d2)).
    { replace (53 + d2) with (d1 + (53 + d2 - d1)) at 2 by lia.
      rewrite Z.pow_add_r by lia.
      apply Z.mul_lt_mono_pos_r; [apply Z.pow_pos_nonneg; lia | lia]. }
    assert (Hb1 : 2 ^ 52 * Zpos b <= 2 ^ (52 + d2)).
    { rewrite (Z.pow_add_r 2 52 d2) by lia.
      apply Z.mul_le_mono_nonneg_l; lia. }
    assert (Hb2 : 2 ^ (53 + d2) <= 2 ^ 54 * Zpos b).
    { replace (53 + d2) with (54 + (d2 - 1)) by lia.
      rewrite (Z.pow_add_r 2 54 (d2 - 1)) by lia.
      apply Z.mul_le_mono_nonneg_l; lia. }
    apply quotient_digits; [lia | |].
    - eapply Z.le_trans; eassumption.
    - eapply Z.lt_le_trans; eassumption. }
  destruct (two_cases _ Hq) as (k & Hk & Hq').
  destruct (SFdiv_faithful sx sy a b 0 0 k) as
    (p & e & Hdiv & Hb & Hp & Hexp & Hup & Hlo);
    [lia | rewrite He; exact Hq' | rewrite He; lia | rewrite He; lia |].
  rewrite He in Hexp. exists p, e.
  split; [exact Hdiv|]. split; [exact Hb|]. split; [exact Hp|].
  split; [lia|].
  assert (HX : (F2Q (Zpos a) 0 / F2Q (Zpos b) 0
                == inject_Z (Zpos a) / inject_Z (Zpos b))%Q).
  { unfold F2Q. change (2 ^ 0)%Q with 1%Q. rewrite !Qmult_1_r. reflexivity. }
  split.
  - rewrite <- HX. exact Hup.
  - intros j Hlt Hj. apply Hlo; rewrite HX; assumption.
Qed.

(** The quotient of two normal numbers. *)
Lemma SFdiv_normal_normal (sx sy : bool) (p1 my : positive) (e1 ey : Z) :
  2 ^ 52 <= Zpos p1 < 2 ^ 53 -> 2 ^ 52 <= Zpos my < 2 ^ 53 ->
  -1021 <= e1 - ey <= 1022 ->
  exists p e,
    SFdiv prec emax (S754_finite sx p1 e1) (S754_finite sy my ey)
    = S754_finite (xorb sx sy) p e
    /\ bounded prec emax p e = true
    /\ 2 ^ 52 <= Zpos p < 2 ^ 53
    /\ e1 - ey - 53 <= e <= e1 - ey - 51
    /\ faithful (F2Q (Zpos p1) e1 / F2Q (Zpos my) ey) p e.
Proof.
  intros Hp1 Hmy Hexp.
  assert (Hd1 : Zdigits2 (Zpos p1) = 53)
    by (apply Zdigits2_unique; [lia | exact Hp1]).
  assert (Hd2 : Zdigits2 (Zpos my) = 53)
    by (apply Zdigits2_unique; [lia | exact Hmy]).
  assert (He : Z.min (fexp prec emax (Zdigits2 (Zpos p1) + e1
                                       - (Zdigits2 (Zpos my) + ey)))
                     (e1 - ey)
               = e1 - ey - 53).
  { rewrite Hd1, Hd2, fexp_eq. lia. }
  assert (Hq : 2 ^ 52 <= Zpos p1 * 2 ^ (e1 - ey - (e1 - ey - 53)) / Zpos my
               < 2 ^ 54).
  { replace (e1 - ey - (e1 - ey - 53)) with 53 by lia.
    apply quotient_digits; simpl in *; lia. }
  destruct (two_cases _ Hq) as (k & Hk & Hq').
  destruct (SFdiv_faithful sx sy p1 my e1 ey k) as
    (p & e & Hdiv & Hb & Hp & Hexp' & Hup & Hlo);
    [lia | rewrite He; exact Hq' | rewrite He; lia | rewrite He; lia |].
  rewrite He in Hexp'. exists p, e.
  split; [exact Hdiv|]. split; [exact Hb|]. split; [exact Hp|].
  split; [lia|]. split; [exact Hup | exact Hlo].
Qed.

Lemma F2Q_0 (m : Z) : (F2Q m 0 == inject_Z m)%Q.
Proof. unfold F2Q. change (2 ^ 0)%Q with 1%Q. ring. Qed.

(** Truncation of a positive number given by mantissa and exponent. *)
Lemma trunc_F2Q (p : positive) (e n : Z) :
  (inject_Z n <= F2Q (Zpos p) e)%Q -> (F2Q (Zpos p) e < inject_Z (n + 1))%Q ->
  (if 0 <=? e then Zpos p * 2 ^ e else Zpos p / 2 ^ (- e)) = n.
Proof.
  intros Hlo Hhi. destruct (0 <=? e) eqn:Ee.
  - apply Z.leb_le in Ee.
    rewrite (F2Q_shift _ e 0), F2Q_0, Z.sub_0_r in Hlo, Hhi by lia.
    rewrite <- Zle_Qle in Hlo. rewrite <- Zlt_Qlt in Hhi. lia.
  - apply Z.leb_gt in Ee.
    set (N := 2 ^ (- e)).
    assert (HN : 0 < N) by (apply Z.pow_pos_nonneg; lia).
    pose proof (inject_Z_pos N HN) as HNq.
    assert (HV : (F2Q (Zpos p) e * inject_Z N == inject_Z (Zpos p))%Q).
    { unfold F2Q, N. rewrite pow2Q_Z by lia.
      rewrite <- Qmult_assoc, <- pow2Q_add.
      replace (e + - e) with 0 by lia. change (2 ^ 0)%Q with 1%Q. ring. }
    assert (H1 : N * n <= Zpos p).
    { apply (Qmult_le_compat_r _ _ (inject_Z N)) in Hlo;
        [|apply Qlt_le_weak; exact HNq].
      rewrite HV, <- inject_Z_mult, <- Zle_Qle in Hlo. lia. }
    assert (H2 : Zpos p < N * (n + 1)).
    { apply (Qmult_lt_compat_r _ _ (inject_Z N)) in Hhi; [|exact HNq].
      rewrite HV, <- inject_Z_mult, <- Zlt_Qlt in Hhi. lia. }
    pose proof (Z.div_le_lower_bound _ _ _ HN H1).
    pose proof (Z.div_lt_upper_bound _ _ _ HN H2). lia.
Qed.

(** [a / b] on two positive integers of comparable size is a normal number
    next to the exact quotient. *)
Lemma truediv_pos (sx sy : bool) (a b : positive) :
  Zpos a < 2 ^ 52 * Zpos b -> Zpos b < 2 ^ 1000 * Zpos a ->
  exists p e,
    Prim2SF (SF2Prim (SFdiv prec emax (S754_finite sx a 0) (S754_finite sy b 0)))
    = S754_finite (xorb sx sy) p e
    /\ 2 ^ 52 <= Zpos p < 2 ^ 53
    /\ -1053 <= e <= 1
    /\ faithful (inject_Z (Zpos a) / inject_Z (Zpos b)) p e.
Proof.
  intros Hab Hba.
  destruct (SFdiv_raw sx sy a b Hab Hba) as (p & e & Hdiv & Hb & Hp & He & Hf).
  exists p, e. rewrite Hdiv, Prim2SF_SF2Prim by exact Hb. auto.
Qed.

(** A normal number divided by a normal number. *)
Lemma div_normal (x c : float) (sx sc : bool) (p1 pc : positive) (e1 ec : Z) :
  Prim2SF x = S754_finite sx p1 e1 -> Prim2SF c = S754_finite sc pc ec ->
  2 ^ 52 <= Zpos p1 < 2 ^ 53 -> 2 ^ 52 <= Zpos pc < 2 ^ 53 ->
  -1021 <= e1 - ec <= 1022 ->
  exists p e,
    Prim2SF (x / c)%float = S754_finite (xorb sx sc) p e
    /\ 2 ^ 52 <= Zpos p < 2 ^ 53
    /\ e1 - ec - 53 <= e <= e1 - ec - 51
    /\ faithful (F2Q (Zpos p1) e1 / F2Q (Zpos pc) ec) p e.
Proof.
  intros Hx Hc Hp1 Hpc Hexp.
  destruct (SFdiv_normal_normal sx sc p1 pc e1 ec Hp1 Hpc Hexp)
    as (p & e & Hdiv & Hb & Hp & He & Hf).
  exists p, e. rewrite div_spec, Hx, Hc. unfold SF64div. rewrite Hdiv. auto.
Qed.

Lemma Prim2SF_of_int_60 :
  Prim2SF (of_int 60) = S754_finite false 8444249301319680 (-47).
Proof. reflexivity. Qed.

Lemma Prim2SF_of_int_3600 :
  Prim2SF (of_int 3600) = S754_finite false 7916483719987200 (-41).
Proof. reflexivity. Qed.

Lemma F2Q_60 : (F2Q 8444249301319680 (-47) == 60)%Q.
Proof. reflexivity. Qed.

(** [int(td.total_seconds() / 60)] on a positive number of microseconds
    below [2^25] minutes. *)
Lemma stop_minutes_pos (s : bool) (mx : positive) :
  Zpos mx < 2 ^ 25 * 60000000 ->
  exists p e,
    Prim2SF (SF2Prim (SFdiv prec emax (S754_finite s mx 0)
                                      (S754_finite false 1000000 0))
             / of_int 60)%float
    = S754_finite s p e
    /\ (if 0 <=? e then Zpos p * 2 ^ e else Zpos p / 2 ^ (- e))
       = Zpos mx / 60000000.
Proof.
  intros Hmx.
  destruct (truediv_pos s false mx 1000000) as
    (p1 & e1 & Hx & Hp1 & He1 & Hup1 & Hlo1); [lia | lia |].
  rewrite xorb_false_r in Hx.
  destruct (div_normal _ _ _ _ _ _ _ _ Hx Prim2SF_of_int_60 Hp1)
    as (p2 & e2 & Hy & Hp2 & He2 & Hup2 & Hlo2); [simpl; lia | lia |].
  rewrite xorb_false_r in Hy. exists p2, e2. split; [exact Hy|].
  set (n := Zpos mx / 60000000).
  assert (Hn : 60000000 * n <= Zpos mx < 60000000 * (n + 1)).
  { unfold n. pose proof (Z.mul_div_le (Zpos mx) 60000000 ltac:(lia)).
    pose proof (Z.mul_succ_div_gt (Zpos mx) 60000000 ltac:(lia)). lia. }
  assert (Hn25 : n + 1 <= 2 ^ 25).
  { assert (n < 2 ^ 25); [|lia]. apply Z.div_lt_upper_bound; lia. }
  assert (Hn0 : 0 <= n) by (apply Z.div_pos; lia).
  set (V1 := F2Q (Zpos p1) e1) in *. set (V2 := F2Q (Zpos p2) e2) in *.
  assert (HnQ : (inject_Z 60000000 * inject_Z n <= inject_Z (Zpos mx))%Q)
    by (rewrite <- inject_Z_mult, <- Zle_Qle; lia).
  assert (HnQ' : (inject_Z (Zpos mx) <= inject_Z 60000000 * (inject_Z n + 1) - 1)%Q).
  { change 1%Q with (inject_Z 1).
    rewrite <- inject_Z_plus, <- inject_Z_mult. unfold Qminus.
    rewrite <- inject_Z_opp, <- inject_Z_plus, <- Zle_Qle. lia. }
  assert (Hn25Q : (inject_Z n + 1 <= inject_Z (2 ^ 25))%Q).
  { change 1%Q with (inject_Z 1). rewrite <- inject_Z_plus, <- Zle_Qle. lia. }
  assert (Hn0Q : (0 <= inject_Z n)%Q)
    by (change 0%Q with (inject_Z 0); rewrite <- Zle_Qle; lia).
  change (inject_Z 60000000) with (60000000 # 1)%Q in HnQ, HnQ'.
  change (inject_Z (2 ^ 25)) with (33554432 # 1)%Q in Hn25Q.
  set (x := inject_Z (Zpos mx)) in *. set (nq := inject_Z n) in *.
  change (inject_Z 1000000) with (1000000 # 1)%Q in Hup1, Hlo1.
  assert (HX2 : (V1 / F2Q 8444249301319680 (-47) == V1 / 60)%Q)
    by (rewrite F2Q_60; reflexivity).
  rewrite HX2 in Hup2.
  specialize (Hlo1 (60 * n)). specialize (Hlo2 n).
  rewrite HX2 in Hlo2.
  change (inject_Z (2 ^ 53)) with (9007199254740992 # 1)%Q in Hlo1, Hlo2.
  rewrite inject_Z_mult in Hlo1. fold nq in Hlo1, Hlo2.
  change (inject_Z 60) with (60 # 1)%Q in Hlo1.
  assert (HV1lo : (60 * nq <= V1)%Q).
  { apply Hlo1.
    - apply Qlt_shift_div_r; lra.
    - apply Qle_shift_div_l; lra. }
  assert (HV1 : (V1 * 1000000 <= x * (1 + (1 # 4503599627370496)))%Q).
  { setoid_replace (x * (1 + (1 # 4503599627370496)))%Q
      with ((x / 1000000 * (1 + (1 # 4503599627370496))) * 1000000)%Q by field.
    apply Qmult_le_compat_r; [exact Hup1 | lra]. }
  assert (HV2lo : (nq <= V2)%Q).
  { apply Hlo2.
    - apply Qlt_shift_div_r; lra.
    - apply Qle_shift_div_l; lra. }
  assert (HV2 : (V2 * 60 <= V1 * (1 + (1 # 4503599627370496)))%Q).
  { setoid_replace (V1 * (1 + (1 # 4503599627370496)))%Q
      with ((V1 / 60 * (1 + (1 # 4503599627370496))) * 60)%Q by field.
    apply Qmult_le_compat_r; [exact Hup2 | lra]. }
  apply trunc_F2Q; fold V2; fold n; [exact HV2lo|].
  rewrite inject_Z_plus. fold nq. change (inject_Z 1) with 1%Q.
  lra.
Qed.

(** [int(td.total_seconds() / 60)] is the number of minutes truncated toward
    zero, for every elapsed time of less than [2^25] minutes (some 63
    years), before or after the start. *)
Lemma int_of_float_minutes (td : Z) :
  Z.abs td < 2 ^ 25 * Datetime.US_PER_MINUTE ->
  int_of_float (Datetime.total_seconds td / of_int 60)%float
  = Z.quot td Datetime.US_PER_MINUTE.
Proof.
  change Datetime.US_PER_MINUTE with 60000000.
  intros Htd. unfold int_of_float, Datetime.total_seconds, truediv.
  change Datetime.US_PER_SECOND with 1000000.
  destruct td as [|mx|mx]; cbn [Z2SF].
  - reflexivity.
  - destruct (stop_minutes_pos false mx Htd) as (p & e & -> & ->).
    symmetry. apply Z.quot_div_nonneg; lia.
  - destruct (stop_minutes_pos true mx Htd) as (p & e & -> & ->).
    change (Zneg mx) with (- Zpos mx). rewrite Z.quot_opp_l by lia.
    f_equal. symmetry. apply Z.quot_div_nonneg; lia.
Qed.

(** *** Addition to a zero, and signs *)

Lemma Prim2SF_zero : Prim2SF 0%float = S754_zero false.
Proof. reflexivity. Qed.

(** Adding to a zero gives the number added, unless that number is [-0.0]. *)
Lemma add_zero_l (z x : float) (sz : bool) :
  Prim2SF z = S754_zero sz -> Prim2SF x <> S754_zero true -> (z + x)%float = x.
Proof.
  intros Hz Hx. apply Prim2SF_inj. rewrite add_spec, Hz. unfold SF64add.
  destruct (Prim2SF x) as [sx| | |]; try reflexivity.
  destruct sz, sx; try reflexivity. congruence.
Qed.

Lemma eqb_zero (q : float) :
  (q =? 0)%float = true -> exists sq, Prim2SF q = S754_zero sq.
Proof.
  rewrite eqb_spec, Prim2SF_zero. unfold SFeqb, SFcompare.
  destruct (Prim2SF q) as [sq|[]| |[]]; try discriminate. eauto.
Qed.

(** [task.actual_hours] after the guarded [+=] is the binary64 sum of what
    was recorded, nothing recorded counting as zero, and the increment. *)
Lemma add_hours_spec (x : float) (old : option float) :
  Prim2SF x <> S754_zero true ->
  add_hours x old = Some (hours_of old + x)%float.
Proof.
  intros Hx. unfold add_hours, float_truthy, hours_of.
  destruct old as [q|]; simpl.
  - destruct (q =? 0)%float eqn:E; simpl; [|reflexivity].
    destruct (eqb_zero q E) as [sq Hq]. now rewrite (add_zero_l q x sq).
  - now rewrite (add_zero_l 0%float x false Prim2SF_zero).
Qed.

(** [a / b] on two integers of comparable size. *)
Lemma truediv_normal (a b : Z) :
  a <> 0 -> b <> 0 ->
  Z.abs a < 2 ^ 52 * Z.abs b -> Z.abs b < 2 ^ 1000 * Z.abs a ->
  exists p e,
    Prim2SF (truediv a b) = S754_finite (xorb (a <? 0) (b <? 0)) p e
    /\ 2 ^ 52 <= Zpos p < 2 ^ 53
    /\ -1053 <= e <= 1
    /\ faithful (inject_Z (Z.abs a) / inject_Z (Z.abs b)) p e.
Proof.
  intros Ha Hb Hab Hba. unfold truediv.
  destruct a as [|a|a], b as [|b|b]; try congruence; cbn [Z2SF Z.abs] in *;
    apply truediv_pos; assumption.
Qed.

Lemma truediv_not_neg_zero (a b : Z) :
  b <> 0 -> Z.abs a < 2 ^ 52 * Z.abs b -> Z.abs b < 2 ^ 1000 * Z.abs a \/ a = 0 ->
  0 < b ->
  Prim2SF (truediv a b) <> S754_zero true.
Proof.
  intros Hb Hab Hba Hpos. destruct (Z.eq_dec a 0) as [->|Ha].
  - unfold truediv. destruct b; try lia. simpl. discriminate.
  - destruct (truediv_normal a b Ha Hb Hab ltac:(lia)) as (p & e & -> & _).
    discriminate.
Qed.

(** A negative number of minutes is a negative number of hours. *)
Lemma truediv_negative (a b : Z) :
  a < 0 -> 0 < b ->
  Z.abs a < 2 ^ 52 * Z.abs b -> Z.abs b < 2 ^ 1000 * Z.abs a ->
  (truediv a b <? 0)%float = true.
Proof.
  intros Ha Hb Hab Hba.
  destruct (truediv_normal a b ltac:(lia) ltac:(lia) Hab Hba)
    as (p & e & Hq & _).
  rewrite ltb_spec, Hq, Prim2SF_zero.
  replace (a <? 0) with true by (symmetry; apply Z.ltb_lt; lia).
  replace (b <? 0) with false by (symmetry; apply Z.ltb_ge; lia).
  reflexivity.
Qed.

(** [td.total_seconds() / 3600] is never [-0.0]. *)
Lemma stop_hours_not_neg_zero (td : Z) :
  Z.abs td < 2 ^ 25 * Datetime.US_PER_MINUTE ->
  Prim2SF (Datetime.total_seconds td / of_int 3600)%float <> S754_zero true.
Proof.
  change Datetime.US_PER_MINUTE with 60000000.
  intros Htd. destruct (Z.eq_dec td 0) as [->|Hne].
  - vm_compute. discriminate.
  - unfold Datetime.total_seconds. change Datetime.US_PER_SECOND with 1000000.
    destruct (truediv_normal td 1000000 Hne ltac:(lia)) as
      (p1 & e1 & Hx & Hp1 & He1 & _); [lia | lia |].
    destruct (div_normal _ _ _ _ _ _ _ _ Hx Prim2SF_of_int_3600 Hp1)
      as (p2 & e2 & -> & _); [simpl; lia | lia |].
    discriminate.
Qed.

(** *** Conversion of integers and products *)

Lemma iter_xO (n : positive) : forall p : positive,
  Zpos (Pos.iter xO p n) = Zpos p * 2 ^ Zpos n.
Proof.
  induction n as [n IH|n IH|]; intros p; simpl Pos.iter.
  - rewrite Pos2Z.inj_xO, IH, IH, pow2_xI. lia.
  - rewrite IH, IH, pow2_xO. lia.
  - lia.
Qed.

(** The conversion of a positive integer is an infinity or a number that
    is at least one. *)
Lemma binary_round_pos (p : positive) :
  let r := binary_round prec emax false p 0 in
  valid_binary r = true
  /\ (r = S754_infinity false
      \/ exists my ey,
           r = S754_finite false my ey /\ 1 <= Zdigits2 (Zpos my) + ey).
Proof.
  destruct (Zdigits2_spec (Zpos p) ltac:(lia)) as [Hd0 Hd].
  set (d := Zdigits2 (Zpos p)) in *.
  assert (Hcases :
    exists m e k, 0 <= k /\ 2 ^ (52 + k) <= m < 2 ^ (53 + k) /\ -1074 <= e + k
                  /\ 1 <= 53 + (e + k)
                  /\ binary_round prec emax false p 0
                     = binary_round_aux prec emax false m e loc_Exact).
  { unfold binary_round, shl_align.
    change (Zpos (digits2_pos p)) with (Zdigits2 (Zpos p)). fold d.
    rewrite fexp_eq.
    destruct (Z.max (d + 0 - 53) (-1074) - 0) as [|n|n] eqn:En.
    - exists (Zpos p), 0, 0. assert (Hd53 : d = 53) by lia.
      rewrite Hd53 in Hd. change (52 + 0) with (53 - 1). change (53 + 0) with 53.
      split; [lia|]. split; [exact Hd|]. split; [lia|]. split; [lia | reflexivity].
    - exists (Zpos p), 0, (d - 53).
      replace (52 + (d - 53)) with (d - 1) by lia.
      replace (53 + (d - 53)) with d by lia.
      split; [lia|]. split; [exact Hd|]. split; [lia|]. split; [lia | reflexivity].
    - exists (Zpos (Pos.iter xO p n)), (Z.max (d + 0 - 53) (-1074)), 0.
      rewrite iter_xO. assert (Hn : Zpos n = 53 - d) by lia. rewrite Hn.
      split; [lia|]. split.
      + split.
        * replace (52 + 0) with ((d - 1) + (53 - d)) by lia.
          rewrite Z.pow_add_r by lia.
          apply Z.mul_le_mono_nonneg_r; [apply Z.pow_nonneg; lia | lia].
        * replace (53 + 0) with (d + (53 - d)) by lia.
          rewrite Z.pow_add_r by lia.
          apply Z.mul_lt_mono_pos_r; [apply Z.pow_pos_nonneg; lia | lia].
      + split; [lia|]. split; [lia | reflexivity]. }
  destruct Hcases as (m & e & k & Hk & Hm & He & Hv & Hr).
  intros r. unfold r. rewrite Hr.
  destruct (binary_round_aux_normal_or_overflow false m e k loc_Exact Hk Hm He)
    as [[-> _] | (q & e3 & c & -> & Hb & Hq & He3 & _)].
  - split; [reflexivity | now left].
  - split; [exact Hb|]. right. exists q, e3. split; [reflexivity|].
    rewrite (Zdigits2_unique (Zpos q) 53); [lia | lia | exact Hq].
Qed.

Lemma of_int_pos (z : Z) :
  0 < z ->
  Prim2SF (of_int z) = S754_infinity false
  \/ exists my ey,
       Prim2SF (of_int z) = S754_finite false my ey
       /\ 1 <= Zdigits2 (Zpos my) + ey.
Proof.
  intros Hz. destruct z as [|p|p]; try lia. unfold of_int.
  cbn [binary_normalize].
  destruct (binary_round_pos p) as [Hv H]. cbv zeta in Hv, H.
  rewrite Prim2SF_SF2Prim by exact Hv. exact H.
Qed.

Lemma Zdigits2_mul (a b : Z) :
  0 < a -> 0 < b -> Zdigits2 a + Zdigits2 b - 1 <= Zdigits2 (a * b).
Proof.
  intros Ha Hb.
  destruct (Zdigits2_spec a Ha) as [Ha0 Hda].
  destruct (Zdigits2_spec b Hb) as [Hb0 Hdb].
  set (da := Zdigits2 a) in *. set (db := Zdigits2 b) in *.
  assert (Hlow : 2 ^ (da + db - 2) <= a * b).
  { replace (da + db - 2) with ((da - 1) + (db - 1)) by lia.
    rewrite Z.pow_add_r by lia.
    apply Z.mul_le_mono_nonneg; try lia; apply Z.pow_nonneg; lia. }
  assert (Hp : 0 < 2 ^ (da + db - 2)) by (apply Z.pow_pos_nonneg; lia).
  assert (Hdig : Zdigits2 (2 ^ (da + db - 2)) = da + db - 1).
  { apply Zdigits2_unique; [lia|].
    replace (da + db - 1 - 1) with (da + db - 2) by lia. split; [lia|].
    apply Z.pow_lt_mono_r; lia. }
  rewrite <- Hdig. apply Zdigits2_le. lia.
Qed.

(** The product of a positive number and a number that is at least one is
    positive: it does not round to zero. *)
Lemma SFmul_pos (mx my : positive) (ex ey : Z) :
  bounded prec emax mx ex = true -> 1 <= Zdigits2 (Zpos my) + ey ->
  SFmul prec emax (S754_finite false mx ex) (S754_finite false my ey)
  = S754_infinity false
  \/ exists p e,
       SFmul prec emax (S754_finite false mx ex) (S754_finite false my ey)
       = S754_finite false p e.
Proof.
  intros Hb Hy. unfold SFmul. cbn [xorb].
  apply binary_round_aux_pos; [lia|].
  unfold bounded, canonical_mantissa in Hb. apply andb_prop in Hb.
  destruct Hb as [Hc _]. apply Z.eqb_eq in Hc. rewrite fexp_eq in Hc.
  change (Zpos (digits2_pos mx)) with (Zdigits2 (Zpos mx)) in Hc.
  destruct (Zdigits2_spec (Zpos mx) ltac:(lia)) as [Hdx _].
  pose proof (Zdigits2_mul (Zpos mx) (Zpos my) ltac:(lia) ltac:(lia)) as Hmul.
  change (Zpos (mx * my)) with (Zpos mx * Zpos my). lia.
Qed.

Lemma ltb_zero_pos (x : float) :
  (0 <? x)%float = true ->
  Prim2SF x = S754_infinity false
  \/ exists m e, Prim2SF x = S754_finite false m e.
Proof.
  rewrite ltb_spec, Prim2SF_zero. unfold SFltb, SFcompare.
  destruct (Prim2SF x) as [s|[]| |[] m e]; try discriminate; eauto.
Qed.

(** [expected_hours > 0] holds for every positive [work_hours_per_day] and
    every positive number of days. *)
Lemma expected_hours_positive (days : Z) (w : float) :
  (0 <? w)%float = true -> 0 < days -> (0 <? w * of_int days)%float = true.
Proof.
  intros Hw Hd. rewrite ltb_spec, Prim2SF_zero, mul_spec. unfold SF64mul.
  pose proof (Prim2SF_valid w) as Hv.
  destruct (ltb_zero_pos w Hw) as [Hfw | (mx & ex & Hfw)];
    destruct (of_int_pos days Hd) as [Hfd | (my & ey & Hfd & Hy)];
    rewrite Hfw, Hfd in *; try reflexivity.
  destruct (SFmul_pos mx my ex ey Hv Hy) as [-> | (p & e & ->)]; reflexivity.
Qed.

(* ===================================================================== *)
(** ** Numbers of the timer *)
(* ===================================================================== *)

(** [int] is applied to a finite number: for every [timedelta],
    [total_seconds() / 60] is zero or a normal number. *)
Lemma stop_minutes_finite (td : Z) :
  Z.abs td <= 86399999999999999999 ->
  Prim2SF (Datetime.total_seconds td / of_int 60)%float = S754_zero false
  \/ exists sign m e,
       Prim2SF (Datetime.total_seconds td / of_int 60)%float
       = S754_finite sign m e.
Proof.
  intros Htd. destruct (Z.eq_dec td 0) as [->|Hne].
  - left. vm_compute. reflexivity.
  - right. unfold Datetime.total_seconds.
    change Datetime.US_PER_SECOND with 1000000.
    destruct (truediv_normal td 1000000 Hne ltac:(lia)) as
      (p1 & e1 & Hx & Hp1 & He1 & _); [lia | lia |].
    destruct (div_normal _ _ _ _ _ _ _ _ Hx Prim2SF_of_int_60 Hp1)
      as (p2 & e2 & Hy & _); [simpl; lia | lia |].
    eauto.
Qed.

(** Truncation toward zero is the floor on a non-negative elapsed time. *)
Lemma quot_minutes_floor (td : Z) :
  0 <= td -> Z.quot td Datetime.US_PER_MINUTE = td / Datetime.US_PER_MINUTE.
Proof. intros Hnn. apply Z.quot_div_nonneg; [assumption | reflexivity]. Qed.

(** On a negative elapsed time, a clock set back while the timer ran, the
    truncation is not the floor: minus ninety seconds give minus one minute. *)
Example int_of_float_clock_set_back :
  int_of_float (Datetime.total_seconds (-90 * Datetime.US_PER_SECOND)
                / of_int 60)%float = -1
  /\ (-90 * Datetime.US_PER_SECOND) / Datetime.US_PER_MINUTE = -2.
Proof. split; reflexivity. Qed.

(** Beyond the bound of [int_of_float_minutes] the two roundings can carry
    the quotient to the next integer: one microsecond before 286642080
    minutes (some 545 years) the result is 286642080. *)
Example int_of_float_long_timer :
  int_of_float (Datetime.total_seconds (286642080 * Datetime.US_PER_MINUTE - 1)
                / of_int 60)%float = 286642080
  /\ (286642080 * Datetime.US_PER_MINUTE - 1) / Datetime.US_PER_MINUTE
     = 286642079.
Proof. split; reflexivity. Qed.

(** The store and the report of a [stop_timer] call that reaches its end. *)
Lemma stop_timer_ok now time_entry_id task_id s k entry task st :
  select_entry time_entry_id task_id s = inr (k, entry) ->
  TimeEntry.end_time entry = None ->
  TimeEntry.start_time entry = Datetime.naive st ->
  PyDict.get (TimeEntry.task_id entry) (tasks_storage s) = Some task ->
  let secs := Datetime.total_seconds (now - st) in
  let minutes := int_of_float (secs / of_int 60)%float in
  let entry' :=
    TimeEntry.set_duration_minutes (Some minutes)
      (TimeEntry.set_end_time (Some (Datetime.naive now)) entry) in
  let task' :=
    Task.set_actual_hours
      (add_hours (secs / of_int 3600)%float (Task.actual_hours task)) task in
  stop_timer now time_entry_id task_id s
  = (with_tasks
       (PyDict.set (TimeEntry.task_id entry) task' (tasks_storage s))
       (with_entries (PyDict.set k entry' (time_entries_storage s)) s),
     TimerStopped (Task.title task) (minutes / 60) (minutes mod 60)
                  (Task.actual_hours task')).
Proof.
  intros Hsel Hend Hstart Htask. unfold stop_timer.
  rewrite Hsel, Hend. simpl. rewrite Hstart. simpl. rewrite Htask.
  reflexivity.
Qed.

(** What [stop_timer] does to an active timer whose task is stored, when
    less than [2^25] minutes lie between its start and [now]. *)
Lemma stop_timer_spec now time_entry_id task_id s k entry task st :
  select_entry time_entry_id task_id s = inr (k, entry) ->
  TimeEntry.end_time entry = None ->
  TimeEntry.start_time entry = Datetime.naive st ->
  Z.abs (now - st) < 2 ^ 25 * Datetime.US_PER_MINUTE ->
  PyDict.get (TimeEntry.task_id entry) (tasks_storage s) = Some task ->
  exists s' r entry' task' h,
    stop_timer now time_entry_id task_id s = (s', r)
    /\ is_failure r = false
    /\ PyDict.get k (time_entries_storage s') = Some entry'
    /\ TimeEntry.end_time entry' = Some (Datetime.naive now)
    /\ TimeEntry.duration_minutes entry'
       = Some (Z.quot (now - st) Datetime.US_PER_MINUTE)
    /\ PyDict.get (TimeEntry.task_id entry) (tasks_storage s') = Some task'
    /\ Task.actual_hours task' = Some h
    /\ h = (hours_of (Task.actual_hours task)
            + Datetime.total_seconds (now - st) / of_int 3600)%float.
Proof.
  intros Hsel Hend Hstart Hlt Htask.
  rewrite (stop_timer_ok _ _ _ _ _ _ _ _ Hsel Hend Hstart Htask).
  do 5 eexists. split; [reflexivity|]. split; [reflexivity|].
  split; [simpl; apply PyDictFacts.get_set_eq|].
  split; [reflexivity|].
  split; [simpl; f_equal; apply int_of_float_minutes; exact Hlt|].
  split; [simpl; apply PyDictFacts.get_set_eq|].
  split; [simpl; apply add_hours_spec, stop_hours_not_neg_zero; exact Hlt|].
  reflexivity.
Qed.

(* ===================================================================== *)
(** ** Cascading delete *)
(* ===================================================================== *)

Lemma entries_of_task_length task_id (d : PyDict.dict TimeEntry.t) :
  List.length (entries_of_task task_id d)
  = List.length
      (filter (fun e => String.eqb (TimeEntry.task_id e) task_id)
              (PyDict.values d)).
Proof.
  unfold entries_of_task, PyDict.items, PyDict.values.
  rewrite length_map.
  induction d as [|[k e] r IH]; simpl; [reflexivity|].
  destruct (String.eqb (TimeEntry.task_id e) task_id); simpl; now rewrite IH.
Qed.

Lemma In_entries_of_task task_id (d : PyDict.dict TimeEntry.t) k :
  In k (entries_of_task task_id d)
  <-> exists e, In (k, e) d /\ TimeEntry.task_id e = task_id.
Proof.
  unfold entries_of_task, PyDict.items. rewrite in_map_iff. split.
  - intros [[k' e] [Hk HIn]]. simpl in Hk. subst k'.
    apply filter_In in HIn. destruct HIn as [HIn Heq]. simpl in Heq.
    exists e. split; [assumption | now apply String.eqb_eq].
  - intros [e [HIn Heq]]. exists (k, e). split; [reflexivity|].
    apply filter_In. split; [assumption|]. simpl. now apply String.eqb_eq.
Qed.

(** The loop over [entries_to_remove] keeps exactly the entries of the other
    tasks. *)
Lemma cascade_filter task_id (d : PyDict.dict TimeEntry.t) :
  PyDict.wf d ->
  fold_left (fun acc k => PyDict.pop k acc) (entries_of_task task_id d) d
  = filter (fun kv => negb (String.eqb (TimeEntry.task_id (snd kv)) task_id)) d.
Proof.
  intros Hwf. rewrite PyDictFacts.fold_pop_filter by assumption.
  apply filter_ext_in. intros [k e] HIn. simpl. f_equal.
  destruct (String.eqb_spec (TimeEntry.task_id e) task_id) as [Heq|Hne].
  - apply existsb_exists. exists k. split; [|apply String.eqb_refl].
    apply In_entries_of_task. eauto.
  - destruct (existsb (String.eqb k) (entries_of_task task_id d)) eqn:E;
      [|reflexivity].
    apply existsb_exists in E. destruct E as [k' [HIn' Hk]].
    apply String.eqb_eq in Hk. subst k'.
    apply In_entries_of_task in HIn'. destruct HIn' as [e' [HIn' Heq']].
    apply (PyDictFacts.In_get _ _ _ Hwf) in HIn.
    apply (PyDictFacts.In_get _ _ _ Hwf) in HIn'. congruence.
Qed.

Lemma cascade_length task_id (d : PyDict.dict TimeEntry.t) :
  (List.length
     (filter (fun kv => negb (String.eqb (TimeEntry.task_id (snd kv)) task_id)) d)
   + List.length
       (filter (fun e => String.eqb (TimeEntry.task_id e) task_id)
               (PyDict.values d))
   = List.length d)%nat.
Proof.
  unfold PyDict.values.
  induction d as [|[k e] r IH]; simpl; [reflexivity|].
  destruct (String.eqb (TimeEntry.task_id e) task_id); simpl; lia.
Qed.

(** What [delete_task] does on a store whose dictionaries have distinct
    keys. *)
Lemma delete_task_spec :
  forall task_id s task,
    store_wf s ->
    PyDict.get task_id (tasks_storage s) = Some task ->
    exists s',
      delete_task task_id s
      = (s', TaskDeleted (Task.title task)
               (List.length (entries_for task_id s)))
      /\ PyDict.get task_id (tasks_storage s') = None
      /\ get_task_details task_id s' = (s', TaskNotFound task_id)
      /\ (forall k, k <> task_id ->
            PyDict.get k (tasks_storage s') = PyDict.get k (tasks_storage s))
      /\ (forall k e,
            PyDict.get k (time_entries_storage s) = Some e ->
            TimeEntry.task_id e = task_id ->
            PyDict.get k (time_entries_storage s') = None
            /\ (forall now any, k <> "" ->
                  stop_timer now (Some k) any s' = (s', TimeEntryNotFound k)))
      /\ (forall k e,
            PyDict.get k (time_entries_storage s) = Some e ->
            TimeEntry.task_id e <> task_id ->
            PyDict.get k (time_entries_storage s') = Some e)
      /\ (forall k,
            PyDict.get k (time_entries_storage s) = None ->
            PyDict.get k (time_entries_storage s') = None)
      /\ (List.length (time_entries_storage s')
          + List.length (entries_for task_id s)
          = List.length (time_entries_storage s))%nat
      /\ projects_storage s' = projects_storage s.
Proof.
  intros task_id s task (Hwt & _ & Hwe) Htask.
  unfold delete_task. rewrite Htask.
  rewrite cascade_filter by assumption.
  rewrite entries_of_task_length.
  eexists. split; [reflexivity|]. cbn [tasks_storage time_entries_storage
    projects_storage with_tasks with_entries].
  assert (Hgone : PyDict.get task_id (PyDict.pop task_id (tasks_storage s)) = None)
    by now apply PyDictFacts.get_pop_eq.
  split; [exact Hgone|].
  split; [unfold get_task_details;
          cbn [tasks_storage with_tasks with_entries]; now rewrite Hgone|].
  split; [intros k Hk; apply PyDictFacts.get_pop_ne; congruence|].
  split.
  { intros k e Hget Htid.
    assert (Hnone :
      PyDict.get k
        (filter (fun kv => negb (String.eqb (TimeEntry.task_id (snd kv)) task_id))
                (time_entries_storage s)) = None).
    { apply PyDictFacts.get_filter_false with (v := e); try assumption.
      simpl. rewrite Htid, String.eqb_refl. reflexivity. }
    split; [exact Hnone|].
    intros now any Hk. unfold stop_timer, select_entry, str_truthy.
    apply String.eqb_neq in Hk. rewrite Hk.
    cbn [negb time_entries_storage with_tasks with_entries].
    now rewrite Hnone. }
  split.
  { intros k e Hget Htid. apply PyDictFacts.get_filter_true; [assumption|].
    simpl. apply String.eqb_neq in Htid. now rewrite Htid. }
  split; [intros k; apply PyDictFacts.get_filter_None|].
  split; [apply cascade_length | reflexivity].
Qed.

(* ===================================================================== *)
(** ** Manual time logging *)
(* ===================================================================== *)

(** [timedelta(minutes=n)] bounds [n]. *)
Lemma minutes_range (n : Z) (delta : timedelta) :
  Datetime.minutes n = Some delta -> Z.abs n < 2 ^ 41.
Proof.
  unfold Datetime.minutes.
  destruct ((-999999999 <=? n * 60 / 86400) && (n * 60 / 86400 <=? 999999999))
    eqn:E; [|discriminate].
  intros _. apply andb_prop in E. destruct E as [Hlo Hhi].
  apply Z.leb_le in Hlo, Hhi.
  pose proof (Z.mul_div_le (n * 60) 86400 ltac:(lia)).
  pose proof (Z.mul_succ_div_gt (n * 60) 86400 ltac:(lia)).
  change (2 ^ 41) with 2199023255552. lia.
Qed.

(** [duration_minutes / 60] of [log_time] is never [-0.0]. *)
Lemma log_hours_not_neg_zero (n : Z) (delta : timedelta) :
  Datetime.minutes n = Some delta ->
  Prim2SF (truediv n 60) <> S754_zero true.
Proof.
  intros Hn. apply minutes_range in Hn.
  change (2 ^ 41) with 2199023255552 in Hn.
  apply truediv_not_neg_zero; lia.
Qed.

(** A negative [duration_minutes] gives a negative number of hours. *)
Lemma log_hours_negative (n : Z) (delta : timedelta) :
  Datetime.minutes n = Some delta -> n < 0 ->
  (truediv n 60 <? 0)%float = true.
Proof.
  intros Hn Hneg. apply minutes_range in Hn.
  change (2 ^ 41) with 2199023255552 in Hn.
  apply truediv_negative; lia.
Qed.

Lemma minutes_value (n : Z) (delta : timedelta) :
  Datetime.minutes n = Some delta -> delta = n * Datetime.US_PER_MINUTE.
Proof.
  unfold Datetime.minutes.
  destruct ((-999999999 <=? n * 60 / 86400) && (n * 60 / 86400 <=? 999999999));
    congruence.
Qed.

Lemma add_value (d : datetime) (td : timedelta) (r : datetime) :
  Datetime.add d td = Some r ->
  r = Datetime.mk (Datetime.us d + td) (Datetime.utcoffset d).
Proof.
  unfold Datetime.add.
  destruct ((0 <=? Datetime.us d + td) && (Datetime.us d + td <=? Datetime.max_us));
    congruence.
Qed.

Section LogTime.
Variable fromisoformat : string -> option datetime.

(** The store and the report of a [log_time] call that reaches its end. *)
Lemma log_time_ok new_id now task_id duration_minutes description start_time
    s task start delta end_time :
  PyDict.get task_id (tasks_storage s) = Some task ->
  parsed_start_time fromisoformat now start_time = Some start ->
  Datetime.minutes duration_minutes = Some delta ->
  Datetime.add start delta = Some end_time ->
  let entry :=
    TimeEntry.mk new_id task_id start (Some end_time) description
                 (Some duration_minutes) in
  let task' :=
    Task.set_actual_hours
      (add_hours (truediv duration_minutes 60) (Task.actual_hours task)) task in
  log_time fromisoformat new_id now task_id duration_minutes description
           start_time s
  = (with_tasks (PyDict.set task_id task' (tasks_storage s))
       (with_entries (PyDict.set new_id entry (time_entries_storage s)) s),
     TimeLogged (Task.title task) (duration_minutes / 60)
                (duration_minutes mod 60) (Task.actual_hours task')).
Proof.
  intros Htask Hstart Hdelta Hend. unfold log_time.
  rewrite Htask, Hstart, Hdelta, Hend. reflexivity.
Qed.

End LogTime.

(** C5. [log_time] on a stored task (start time readable, no date overflow)
    stores a closed entry whose [end_time] is the start time plus
    [duration_minutes] minutes and whose [duration_minutes] is the argument
    as given, touches no other entry, and adds [duration_minutes / 60] to
    the task's [actual_hours]: the new value is the binary64 sum of the
    value recorded before, nothing recorded counting as [0.0], and the
    binary64 quotient [duration_minutes / 60], the numbers Python's
    [task.actual_hours += duration_minutes / 60] computes with. Logging 45
    minutes from ["2024-01-01T09:00:00Z"] on a task without recorded time
    gives an entry ending at 2024-01-01T09:45:00Z, [duration_minutes = 45]
    and [actual_hours = 0.75], also while a timer is running for the task,
    which stays running. *)
Theorem log_time_stores_closed_entry_and_adds_hours :
  (forall fromisoformat new_id now task_id duration_minutes description
          start_time s task start delta end_time,
      PyDict.get task_id (tasks_storage s) = Some task ->
      parsed_start_time fromisoformat now start_time = Some start ->
      Datetime.minutes duration_minutes = Some delta ->
      Datetime.add start delta = Some end_time ->
      exists s' r task' h,
        log_time fromisoformat new_id now task_id duration_minutes
                 description start_time s = (s', r)
        /\ is_failure r = false
        /\ PyDict.get new_id (time_entries_storage s')
           = Some (TimeEntry.mk new_id task_id start (Some end_time)
                                description (Some duration_minutes))
        /\ end_time
           = Datetime.mk
               (Datetime.us start + duration_minutes * Datetime.US_PER_MINUTE)
               (Datetime.utcoffset start)
        /\ (forall k, k <> new_id ->
              PyDict.get k (time_entries_storage s')
              = PyDict.get k (time_entries_storage s))
        /\ PyDict.get task_id (tasks_storage s') = Some task'
        /\ Task.actual_hours task' = Some h
        /\ h = (hours_of (Task.actual_hours task)
                + truediv duration_minutes 60)%float)
  /\ (forall fromisoformat now s,
        fromisoformat "2024-01-01T09:00:00+00:00"
        = Some (Datetime.of_civil 2024 1 1 9 0 0 0 (Some 0)) ->
        s = one_task_store \/ s = running_store ->
        exists s' r entry task',
          log_time fromisoformat "entry-9" now "task-1" 45 None
                   (Some "2024-01-01T09:00:00Z") s = (s', r)
          /\ is_failure r = false
          /\ PyDict.get "entry-9" (time_entries_storage s') = Some entry
          /\ TimeEntry.end_time entry
             = Some (Datetime.of_civil 2024 1 1 9 45 0 0 (Some 0))
          /\ TimeEntry.duration_minutes entry = Some 45
          /\ PyDict.get "task-1" (tasks_storage s') = Some task'
          /\ Task.actual_hours task' = Some 0.75%float
          /\ PyDict.get "entry-1" (time_entries_storage s')
             = PyDict.get "entry-1" (time_entries_storage s)).
Proof.
  split.
  - intros fromisoformat new_id now task_id duration_minutes description
           start_time s task start delta end_time Htask Hstart Hdelta Hend.
    rewrite (log_time_ok _ _ _ _ _ _ _ _ _ _ _ _ Htask Hstart Hdelta Hend).
    do 4 eexists. split; [reflexivity|]. split; [reflexivity|].
    split; [simpl; apply PyDictFacts.get_set_eq|].
    split; [rewrite (add_value _ _ _ Hend), (minutes_value _ _ Hdelta);
            reflexivity|].
    split; [intros k Hk; simpl; apply PyDictFacts.get_set_ne; congruence|].
    split; [simpl; apply PyDictFacts.get_set_eq|].
    split; [simpl; apply add_hours_spec;
            apply (log_hours_not_neg_zero _ _ Hdelta)|].
    reflexivity.
  - intros fromisoformat now s Hparse Hs.
    assert (Hstart :
      parsed_start_time fromisoformat now (Some "2024-01-01T09:00:00Z")
      = Some (Datetime.of_civil 2024 1 1 9 0 0 0 (Some 0))).
    { unfold parsed_start_time, parse_iso. cbn. exact Hparse. }
    destruct Hs as [-> | ->].
    + rewrite (log_time_ok fromisoformat "entry-9" now "task-1" 45 None _
                 one_task_store write_spec_task _ _ _
                 eq_refl Hstart eq_refl eq_refl).
      do 4 eexists. repeat split; reflexivity.
    + rewrite (log_time_ok fromisoformat "entry-9" now "task-1" 45 None _
                 running_store write_spec_task _ _ _
                 eq_refl Hstart eq_refl eq_refl).
      do 4 eexists. repeat split; reflexivity.
Qed.

Lemma log_time_stores_closed_entry_and_adds_hours_witness :
  exists s' r task' h,
    log_time IsoBasic.fromisoformat "entry-2" nine_am "task-1" 45 None
             (Some "2024-01-01T09:00:00Z") running_store = (s', r)
    /\ is_failure r = false
    /\ PyDict.get "entry-2" (time_entries_storage s')
       = Some (TimeEntry.mk "entry-2" "task-1"
                 (Datetime.of_civil 2024 1 1 9 0 0 0 (Some 0))
                 (Some (Datetime.of_civil 2024 1 1 9 45 0 0 (Some 0)))
                 None (Some 45))
    /\ Datetime.of_civil 2024 1 1 9 45 0 0 (Some 0)
       = Datetime.mk
           (Datetime.us (Datetime.of_civil 2024 1 1 9 0 0 0 (Some 0))
            + 45 * Datetime.US_PER_MINUTE)
           (Datetime.utcoffset (Datetime.of_civil 2024 1 1 9 0 0 0 (Some 0)))
    /\ (forall k, k <> "entry-2" ->
          PyDict.get k (time_entries_storage s')
          = PyDict.get k (time_entries_storage running_store))
    /\ PyDict.get "task-1" (tasks_storage s') = Some task'
    /\ Task.actual_hours task' = Some h
    /\ h = (hours_of (Task.actual_hours write_spec_task) + truediv 45 60)%float.
Proof.
  exact (proj1 log_time_stores_closed_entry_and_adds_hours
           IsoBasic.fromisoformat "entry-2" nine_am "task-1" 45 None
           (Some "2024-01-01T09:00:00Z") running_store write_spec_task
           (Datetime.of_civil 2024 1 1 9 0 0 0 (Some 0))
           (45 * Datetime.US_PER_MINUTE)
           (Datetime.of_civil 2024 1 1 9 45 0 0 (Some 0))
           eq_refl eq_refl eq_refl eq_refl).
Defined.

(** C9, as stated, fails: logging minus thirty minutes on "Write spec" is
    reported as a success, stores a new entry and changes the task's
    [actual_hours] from nothing recorded to minus half an hour. *)
Lemma log_time_negative_duration_counterexample :
  exists s' task',
    log_time IsoBasic.fromisoformat "entry-1" nine_am "task-1" (-30) None None
             one_task_store
    = (s', TimeLogged "Write spec" (-1) 30 (Some (-0.5)%float))
    /\ is_failure (TimeLogged "Write spec" (-1) 30 (Some (-0.5)%float)) = false
    /\ PyDict.get "entry-1" (time_entries_storage one_task_store) = None
    /\ PyDict.get "entry-1" (time_entries_storage s')
       = Some (TimeEntry.mk "entry-1" "task-1" (Datetime.naive nine_am)
                 (Some (Datetime.naive (after_minutes (-30) nine_am)))
                 None (Some (-30)))
    /\ PyDict.get "task-1" (tasks_storage one_task_store) = Some write_spec_task
    /\ Task.actual_hours write_spec_task = None
    /\ PyDict.get "task-1" (tasks_storage s') = Some task'
    /\ Task.actual_hours task' = Some (-0.5)%float.
Proof. do 2 eexists. repeat split; reflexivity. Qed.

(** C9, amended. [log_time] with a negative [duration_minutes] on a stored
    task, with a start time that is absent, empty or readable and with
    [timedelta(minutes=duration_minutes)] and the end time inside the ranges
    of [timedelta] and [datetime], is accepted like any other duration: it
    reports success, stores a closed entry carrying that negative duration
    whose [end_time] is before its [start_time], and adds
    [duration_minutes / 60], a negative number, to the task's
    [actual_hours] in binary64 arithmetic; a task with nothing recorded ends
    with a negative [actual_hours]. *)
Theorem log_time_accepts_negative_duration :
  forall fromisoformat new_id now task_id duration_minutes description
         start_time s task start delta end_time,
    duration_minutes < 0 ->
    PyDict.get task_id (tasks_storage s) = Some task ->
    parsed_start_time fromisoformat now start_time = Some start ->
    Datetime.minutes duration_minutes = Some delta ->
    Datetime.add start delta = Some end_time ->
    exists s' task' h,
      log_time fromisoformat new_id now task_id duration_minutes
               description start_time s
      = (s', TimeLogged (Task.title task) (duration_minutes / 60)
               (duration_minutes mod 60) (Some h))
      /\ PyDict.get new_id (time_entries_storage s')
         = Some (TimeEntry.mk new_id task_id start (Some end_time)
                              description (Some duration_minutes))
      /\ Datetime.us end_time < Datetime.us start
      /\ Datetime.utcoffset end_time = Datetime.utcoffset start
      /\ PyDict.get task_id (tasks_storage s') = Some task'
      /\ Task.actual_hours task' = Some h
      /\ h = (hours_of (Task.actual_hours task)
              + truediv duration_minutes 60)%float
      /\ (truediv duration_minutes 60 <? 0)%float = true
      /\ (Task.actual_hours task = None -> (h <? 0)%float = true).
Proof.
  intros fromisoformat new_id now task_id duration_minutes description
         start_time s task start delta end_time Hneg Htask Hstart Hdelta Hend.
  rewrite (log_time_ok _ _ _ _ _ _ _ _ _ _ _ _ Htask Hstart Hdelta Hend).
  pose proof (add_hours_spec (truediv duration_minutes 60)
                (Task.actual_hours task)
                (log_hours_not_neg_zero _ _ Hdelta)) as Hh.
  pose proof (log_hours_negative _ _ Hdelta Hneg) as Hlt.
  exists (with_tasks
            (PyDict.set task_id
               (Task.set_actual_hours
                  (Some (hours_of (Task.actual_hours task)
                         + truediv duration_minutes 60)%float) task)
               (tasks_storage s))
            (with_entries
               (PyDict.set new_id
                  (TimeEntry.mk new_id task_id start (Some end_time)
                                description (Some duration_minutes))
                  (time_entries_storage s)) s)),
         (Task.set_actual_hours
            (Some (hours_of (Task.actual_hours task)
                   + truediv duration_minutes 60)%float) task),
         (hours_of (Task.actual_hours task) + truediv duration_minutes 60)%float.
  rewrite Hh.
  split; [reflexivity|].
  split; [simpl; apply PyDictFacts.get_set_eq|].
  rewrite (add_value _ _ _ Hend), (minutes_value _ _ Hdelta).
  split; [simpl; unfold Datetime.US_PER_MINUTE, Datetime.US_PER_SECOND; lia|].
  split; [reflexivity|].
  split; [simpl; apply PyDictFacts.get_set_eq|].
  split; [reflexivity|].
  split; [reflexivity|].
  split; [exact Hlt|].
  intros Hnone. rewrite Hnone. cbn [hours_of].
  rewrite (add_zero_l _ _ false Prim2SF_zero (log_hours_not_neg_zero _ _ Hdelta)).
  exact Hlt.
Qed.

Lemma log_time_accepts_negative_duration_witness :
  exists s' task' h,
    log_time IsoBasic.fromisoformat "entry-1" nine_am "task-1" (-30) None None
             one_task_store
    = (s', TimeLogged (Task.title write_spec_task) (-30 / 60) (-30 mod 60)
             (Some h))
    /\ PyDict.get "entry-1" (time_entries_storage s')
       = Some (TimeEntry.mk "entry-1" "task-1" (Datetime.naive nine_am)
                 (Some (Datetime.naive (after_minutes (-30) nine_am)))
                 None (Some (-30)))
    /\ Datetime.us (Datetime.naive (after_minutes (-30) nine_am))
       < Datetime.us (Datetime.naive nine_am)
    /\ Datetime.utcoffset (Datetime.naive (after_minutes (-30) nine_am))
       = Datetime.utcoffset (Datetime.naive nine_am)
    /\ PyDict.get "task-1" (tasks_storage s') = Some task'
    /\ Task.actual_hours task' = Some h
    /\ h = (hours_of (Task.actual_hours write_spec_task) + truediv (-30) 60)%float
    /\ (truediv (-30) 60 <? 0)%float = true
    /\ (Task.actual_hours write_spec_task = None -> (h <? 0)%float = true).
Proof.
  assert (Hneg : -30 < 0) by lia.
  exact (log_time_accepts_negative_duration
           IsoBasic.fromisoformat "entry-1" nine_am "task-1" (-30) None None
           one_task_store write_spec_task (Datetime.naive nine_am)
           (-30 * Datetime.US_PER_MINUTE)
           (Datetime.naive (after_minutes (-30) nine_am))
           Hneg eq_refl eq_refl eq_refl eq_refl).
Defined.

(* ===================================================================== *)
(** ** [updated_at] and partial updates *)
(* ===================================================================== *)

(** C10, on the code: [log_time] and [stop_timer] change a stored task's
    [actual_hours] and leave its [updated_at] as it was; only [update_task]
    writes [updated_at]. Logging 45 minutes an hour after "Write spec" was
    created records 0.75 hours on it while [updated_at] still reads the
    creation time. *)
Theorem timers_leave_updated_at_unchanged :
  (forall fromisoformat new_id now task_id duration_minutes description
          start_time s task start delta end_time,
      PyDict.get task_id (tasks_storage s) = Some task ->
      parsed_start_time fromisoformat now start_time = Some start ->
      Datetime.minutes duration_minutes = Some delta ->
      Datetime.add start delta = Some end_time ->
      exists task',
        PyDict.get task_id
          (tasks_storage
             (fst (log_time fromisoformat new_id now task_id duration_minutes
                     description start_time s))) = Some task'
        /\ Task.actual_hours task'
           = add_hours (truediv duration_minutes 60) (Task.actual_hours task)
        /\ Task.updated_at task' = Task.updated_at task)
  /\ (forall now time_entry_id task_id s k entry task st,
        select_entry time_entry_id task_id s = inr (k, entry) ->
        TimeEntry.end_time entry = None ->
        TimeEntry.start_time entry = Datetime.naive st ->
        PyDict.get (TimeEntry.task_id entry) (tasks_storage s) = Some task ->
        exists task',
          PyDict.get (TimeEntry.task_id entry)
            (tasks_storage (fst (stop_timer now time_entry_id task_id s)))
          = Some task'
          /\ Task.actual_hours task'
             = add_hours
                 (Datetime.total_seconds (now - st) / of_int 3600)%float
                 (Task.actual_hours task)
          /\ Task.updated_at task' = Task.updated_at task)
  /\ (exists task',
        PyDict.get "task-1"
          (tasks_storage
             (fst (log_time IsoBasic.fromisoformat "entry-1"
                     (after_minutes 60 nine_am) "task-1" 45 None None
                     one_task_store))) = Some task'
        /\ Task.actual_hours write_spec_task = None
        /\ Task.actual_hours task' = Some 0.75%float
        /\ Task.updated_at task' = Datetime.naive nine_am
        /\ Task.updated_at task' <> Datetime.naive (after_minutes 60 nine_am)).
Proof.
  split; [|split].
  - intros fromisoformat new_id now task_id duration_minutes description
           start_time s task start delta end_time Htask Hstart Hdelta Hend.
    rewrite (log_time_ok _ _ _ _ _ _ _ _ _ _ _ _ Htask Hstart Hdelta Hend).
    eexists. split; [simpl; apply PyDictFacts.get_set_eq|].
    split; reflexivity.
  - intros now time_entry_id task_id s k entry task st Hsel Hend Hstart Htask.
    rewrite (stop_timer_ok _ _ _ _ _ _ _ _ Hsel Hend Hstart Htask).
    eexists. split; [simpl; apply PyDictFacts.get_set_eq|].
    split; reflexivity.
  - eexists. split; [reflexivity|]. repeat split. discriminate.
Qed.

(** C7, on the code: when the [due_date] of an [update_task] call cannot be
    read, the call reports the date error after the title, description,
    priority, status and category it was given have been written to the
    stored task; the later fields and [updated_at] are not written. *)
Theorem update_task_bad_date_keeps_earlier_fields :
  forall fromisoformat now task_id title description priority status category
         due_date estimated_hours actual_hours tags assignee s task,
    PyDict.get task_id (tasks_storage s) = Some task ->
    parse_iso fromisoformat due_date = None ->
    exists s',
      update_task fromisoformat now task_id title description priority status
                  category (Some due_date) estimated_hours actual_hours tags
                  assignee s
      = (s', InvalidDateFormat)
      /\ PyDict.get task_id (tasks_storage s')
         = Some (assign category Task.set_category
                   (assign status Task.set_status
                      (assign priority Task.set_priority
                         (assign description
                            (fun d => Task.set_description (Some d))
                            (assign title Task.set_title task)))))
      /\ (forall new_title,
            title = Some new_title -> new_title <> Task.title task ->
            PyDict.get task_id (tasks_storage s') <> Some task).
Proof.
  intros fromisoformat now task_id title description priority status category
         due_date estimated_hours actual_hours tags assignee s task Htask Hbad.
  unfold update_task. rewrite Htask, Hbad.
  eexists. split; [reflexivity|].
  split; [simpl; apply PyDictFacts.get_set_eq|].
  intros new_title -> Hne. simpl. rewrite PyDictFacts.get_set_eq.
  intros [= Heq]. apply Hne.
  apply (f_equal Task.title) in Heq. rewrite <- Heq.
  destruct description, priority, status, category; reflexivity.
Qed.

Lemma update_task_bad_date_keeps_earlier_fields_witness :
  exists s',
    update_task IsoBasic.fromisoformat (after_minutes 60 nine_am) "task-1"
                (Some "Write the spec") None (Some URGENT) None None
                (Some "next tuesday") None None None None one_task_store
    = (s', InvalidDateFormat)
    /\ PyDict.get "task-1" (tasks_storage s')
       = Some (Task.set_priority URGENT
                 (Task.set_title "Write the spec" write_spec_task))
    /\ (forall new_title,
          Some "Write the spec" = Some new_title ->
          new_title <> Task.title write_spec_task ->
          PyDict.get "task-1" (tasks_storage s') <> Some write_spec_task).
Proof.
  exact (update_task_bad_date_keeps_earlier_fields
           IsoBasic.fromisoformat (after_minutes 60 nine_am) "task-1"
           (Some "Write the spec") None (Some URGENT) None None
           "next tuesday" None None None None one_task_store write_spec_task
           eq_refl eq_refl).
Defined.

(** On its successful path [update_task] does write [updated_at]. *)
Lemma update_task_sets_updated_at fromisoformat now task_id title description
    priority status category due_date estimated_hours actual_hours tags
    assignee s s' task' :
  update_task fromisoformat now task_id title description priority status
              category due_date estimated_hours actual_hours tags assignee s
  = (s', TaskUpdated task') ->
  PyDict.get task_id (tasks_storage s') = Some task'
  /\ Task.updated_at task' = Datetime.naive now.
Proof.
  unfold update_task.
  destruct (PyDict.get task_id (tasks_storage s)) as [task|]; [|discriminate].
  destruct due_date as [d|].
  - destruct (parse_iso fromisoformat d); [|discriminate].
    intros [= <- <-]. split; [simpl; apply PyDictFacts.get_set_eq | reflexivity].
  - intros [= <- <-]. split; [simpl; apply PyDictFacts.get_set_eq | reflexivity].
Qed.

(* ===================================================================== *)
(** ** Productivity ratio *)
(* ===================================================================== *)

(** C6. With a positive [work_hours_per_day] and a positive number of days
    the guard [expected_hours > 0] passes and the productivity ratio is
    [((total_minutes / 60) / (work_hours_per_day * days)) * 100], evaluated
    as Python evaluates it, in binary64; for 480 minutes over 7 days at 8
    hours a day it is [(8 / 56) * 100], a number between 14.25 and 14.35,
    which prints as 14.3; it is the figure [get_time_analytics] reports. *)
Theorem productivity_ratio_formula :
  forall (total_minutes days : Z) (per_day : float),
    (0 <? per_day)%float = true ->
    0 < days ->
    productivity_ratio total_minutes days per_day
    = ((truediv total_minutes 60 / (per_day * of_int days)) * of_int 100)%float
    /\ productivity_ratio 480 7 8 = ((8 / 56) * 100)%float
    /\ (exists q,
          to_Q (productivity_ratio 480 7 8) = Some q
          /\ (14.25 <= q < 14.35)%Q)
    /\ (forall cfg now category project_id s s' total_hours reported_minutes
               average ratio,
          get_time_analytics cfg now days category project_id s
          = (s', TimeAnalytics total_hours reported_minutes average ratio) ->
          ratio = productivity_ratio reported_minutes days
                    (work_hours_per_day cfg)).
Proof.
  intros total_minutes days per_day Hw Hd.
  split; [|split; [|split]].
  - unfold productivity_ratio.
    rewrite (expected_hours_positive _ _ Hw Hd). reflexivity.
  - reflexivity.
  - eexists. split; [reflexivity|].
    split; [vm_compute; discriminate | vm_compute; reflexivity].
  - intros cfg now category project_id s s' total_hours reported_minutes
           average ratio.
    unfold get_time_analytics.
    destruct (negb _); [discriminate|].
    destruct (Datetime.add _ _); [|discriminate].
    destruct (collect_relevant _ _ _ _ _) as [[|p l]|]; try discriminate.
    cbv zeta.
    destruct (days =? 0); [discriminate|].
    destruct (total_minutes_of (p :: l) =? 0); [discriminate|].
    intros [= _ _ <- _ <-]. reflexivity.
Qed.

Lemma productivity_ratio_formula_witness :
  productivity_ratio 480 7 8
  = ((truediv 480 60 / (8 * of_int 7)) * of_int 100)%float.
Proof.
  assert (Hw : (0 <? 8)%float = true) by reflexivity.
  assert (Hd : 0 < 7) by lia.
  exact (proj1 (productivity_ratio_formula 480 7 8 Hw Hd)).
Defined.

(* ===================================================================== *)
(** ** Listing tasks: limit and order *)
(* ===================================================================== *)

Lemma firstn_nil_iff {A : Type} (n : nat) (l : list A) :
  firstn n l = [] <-> n = 0%nat \/ l = [].
Proof.
  destruct n, l; simpl; split; intros H; auto; try discriminate.
  destruct H; discriminate.
Qed.

(** C8, as stated, fails: with a limit of [-1] the three stored tasks are
    not cut down to nothing, the first two of the ordering are listed. *)
Lemma list_tasks_negative_limit_counterexample :
  listed_titles
    (snd (list_tasks None None None None None (-1) same_tier_store))
  = Some ["No due date"; "Due in June"]
  /\ slice_to (-1) (PyDict.values (tasks_storage same_tier_store)) <> [].
Proof. split; [reflexivity | discriminate]. Qed.

(** C8, amended. The limit step is the slice [tasks[:n]]: for [n = 0] it is
    empty, for [n > 0] it is the first [n] tasks of the ordering, and for
    [n < 0] it drops the last [-n] tasks, so it is empty exactly when there
    are at most [-n] of them. An empty listing is reported as
    [NoTasksFound], which is not a failure. *)
Theorem limit_is_python_slice :
  forall (tasks : list Task.t) (n : Z),
    (n = 0 -> slice_to n tasks = [])
    /\ (0 < n -> slice_to n tasks = firstn (Z.to_nat n) tasks)
    /\ (n < 0 ->
          slice_to n tasks
          = firstn (List.length tasks - Z.to_nat (- n)) tasks
          /\ (slice_to n tasks = [] <-> Z.of_nat (List.length tasks) <= - n))
    /\ (forall status priority category assignee project_id s ordered,
          list_sort_reverse sort_key
            (apply_filters status priority category assignee project_id
               (PyDict.values (tasks_storage s))) = Some ordered ->
          list_tasks status priority category assignee project_id n s
          = (s, match slice_to n ordered with
                | [] => NoTasksFound
                | listed => TaskList listed
                end))
    /\ is_failure NoTasksFound = false.
Proof.
  intros tasks n. unfold slice_to.
  split; [intros ->; reflexivity|].
  split.
  { intros Hpos. destruct (n <? 0) eqn:E; [|reflexivity].
    apply Z.ltb_lt in E. lia. }
  split.
  { intros Hneg. apply Z.ltb_lt in Hneg as E. rewrite E.
    assert (Hstop : Z.to_nat (Z.max (Z.of_nat (List.length tasks) + n) 0)
                    = (List.length tasks - Z.to_nat (- n))%nat) by lia.
    rewrite Hstop. split; [reflexivity|].
    rewrite firstn_nil_iff. split.
    - intros [H0 | ->]; [lia | simpl; lia].
    - intros Hle. left. lia. }
  split; [|reflexivity].
  intros status priority category assignee project_id s ordered Hsort.
  unfold list_tasks. rewrite Hsort. fold (slice_to n ordered).
  destruct (slice_to n ordered); reflexivity.
Qed.

(** *** The order [list.sort(key=..., reverse=True)] produces *)

Ltac case_comparisons :=
  repeat match goal with
         | |- context [?x =? ?y] => destruct (Z.eqb_spec x y)
         | |- context [?x <? ?y] => destruct (Z.ltb_spec x y)
         end.

Lemma key_le_iff (a b : Z * datetime) :
  key_le a b
  <-> fst a < fst b
      \/ (fst a = fst b /\ same_kind (snd a) (snd b) = true
          /\ instant (snd a) <= instant (snd b)).
Proof.
  unfold key_le, key_lt, Datetime.eqb, Datetime.lt, same_kind, instant,
    Datetime.utc_us.
  destruct a as [ra [ua [oa|]]], b as [rb [ub [ob|]]]; simpl;
    case_comparisons; simpl; split;
    first [ intros _; first [ reflexivity | left; lia
                            | right; repeat split; lia ]
          | intros Hyp; exfalso;
            first [ discriminate Hyp
                  | destruct Hyp as [Hyp | (Hyp1 & Hyp2 & Hyp3)];
                    first [ lia | discriminate ] ] ].
Qed.

Lemma key_le_trans (a b c : Z * datetime) :
  key_le a b -> key_le b c -> key_le a c.
Proof.
  rewrite !key_le_iff. unfold same_kind.
  destruct (Datetime.utcoffset (snd a)), (Datetime.utcoffset (snd b)),
           (Datetime.utcoffset (snd c));
    intros [H1 | (H1 & K1 & L1)] [H2 | (H2 & K2 & L2)];
    try discriminate; try (left; lia); right; repeat split; lia.
Qed.

(** [<] on keys is asymmetric. *)
Lemma key_lt_true_le (a b : Z * datetime) :
  key_lt a b = Some true -> key_le a b.
Proof.
  unfold key_le, key_lt, Datetime.eqb, Datetime.lt, Datetime.utc_us.
  destruct a as [ra [ua [oa|]]], b as [rb [ub [ob|]]]; simpl;
    case_comparisons; simpl; intros Hyp;
    first [ reflexivity | discriminate Hyp | exfalso; lia ].
Qed.

Lemma StronglySorted_app {A : Type} (R : A -> A -> Prop) (l1 l2 : list A) :
  StronglySorted R l1 -> StronglySorted R l2 ->
  (forall x y, In x l1 -> In y l2 -> R x y) ->
  StronglySorted R (l1 ++ l2).
Proof.
  induction l1 as [|a l1 IH]; simpl; intros H1 H2 H12; [assumption|].
  inversion H1 as [|? ? Hs Hall]; subst. constructor.
  - apply IH; auto.
  - apply Forall_app. split; [assumption|].
    apply Forall_forall. intros y Hy. apply H12; auto.
Qed.

Lemma StronglySorted_rev {A : Type} (R : A -> A -> Prop) (l : list A) :
  StronglySorted R l -> StronglySorted (fun x y => R y x) (rev l).
Proof.
  induction 1 as [|a l Hs IH Hall]; simpl; [constructor|].
  apply StronglySorted_app; [assumption | repeat constructor |].
  intros x y Hx [<-|[]]. apply in_rev in Hx.
  rewrite Forall_forall in Hall. now apply Hall.
Qed.

Section SortFacts.
Context {A : Type} (key : A -> Z * datetime).

Let ascending (x y : A) : Prop := key_le (key x) (key y).

Lemma insert_sorted_spec (x : A) (l l' : list A) :
  StronglySorted ascending l ->
  insert_sorted key x l = Some l' ->
  StronglySorted ascending l' /\ Permutation (x :: l) l'.
Proof.
  revert l'. induction l as [|y r IH]; simpl; intros l' Hs Hins.
  - injection Hins as <-. split; [repeat constructor | reflexivity].
  - inversion Hs as [|? ? Hr Hall]; subst.
    destruct (key_lt (key y) (key x)) as [[|]|] eqn:E; [| |discriminate].
    + destruct (insert_sorted key x r) as [r'|] eqn:Er; [|discriminate].
      injection Hins as <-.
      destruct (IH r' Hr eq_refl) as [Hs' Hp]. split.
      * constructor; [assumption|].
        apply (Permutation_Forall Hp). constructor; [|assumption].
        now apply key_lt_true_le.
      * rewrite perm_swap. now apply perm_skip.
    + injection Hins as <-. split; [|reflexivity].
      constructor; [assumption|]. constructor; [exact E|].
      apply Forall_forall. intros z Hz. rewrite Forall_forall in Hall.
      apply key_le_trans with (b := key y); [exact E | now apply Hall].
Qed.

Lemma sort_ascending_spec (l l' : list A) :
  sort_ascending key l = Some l' ->
  StronglySorted ascending l' /\ Permutation l l'.
Proof.
  revert l'. induction l as [|x r IH]; simpl; intros l' Hsort.
  - injection Hsort as <-. split; [constructor | reflexivity].
  - destruct (sort_ascending key r) as [r'|]; [|discriminate].
    destruct (IH r' eq_refl) as [Hs Hp].
    destruct (insert_sorted_spec x r' l' Hs Hsort) as [Hs' Hp'].
    split; [assumption|]. now rewrite <- Hp', Hp.
Qed.

(** When [l.sort(key=key, reverse=True)] does not raise, the result is a
    rearrangement of [l] in which no element has a smaller key than a later
    one. *)
Lemma list_sort_reverse_descending (l l' : list A) :
  list_sort_reverse key l = Some l' ->
  Permutation l l'
  /\ StronglySorted (fun x y => key_le (key y) (key x)) l'.
Proof.
  unfold list_sort_reverse.
  destruct (sort_ascending key (rev l)) as [r|] eqn:E; [|discriminate].
  intros [= <-]. destruct (sort_ascending_spec _ _ E) as [Hs Hp]. split.
  - rewrite <- Permutation_rev. rewrite <- Hp. apply Permutation_rev.
  - now apply StronglySorted_rev.
Qed.

(** An element listed before another one does not have the smaller key. *)
Lemma listed_before_key_le (l l' : list A) (x y : A) :
  list_sort_reverse key l = Some l' ->
  listed_before x y l' ->
  key_le (key y) (key x).
Proof.
  intros Hsort (l1 & l2 & l3 & ->).
  destruct (list_sort_reverse_descending _ _ Hsort) as [_ Hs].
  clear Hsort. induction l1 as [|a l1 IH]; simpl in Hs.
  - inversion Hs as [|? ? _ Hall]; subst.
    rewrite Forall_forall in Hall. apply Hall.
    apply in_or_app. right. now left.
  - inversion Hs; subst. now apply IH.
Qed.

End SortFacts.

(** The part of the ordering of [list_tasks] that holds as the specification
    words it: a task is never listed before a task of higher priority. And
    within a priority the order is by due date, latest first, a missing due
    date counting as [datetime.max]. *)
Lemma list_tasks_order (tasks ordered : list Task.t) (a b : Task.t) :
  list_sort_reverse sort_key tasks = Some ordered ->
  listed_before a b ordered ->
  priority_order (Task.priority b) <= priority_order (Task.priority a)
  /\ (Task.priority a = Task.priority b ->
      instant (snd (sort_key b)) <= instant (snd (sort_key a))).
Proof.
  intros Hsort Hbefore.
  pose proof (listed_before_key_le sort_key _ _ _ _ Hsort Hbefore) as Hle.
  apply key_le_iff in Hle. unfold sort_key at 1 2 3 4 in Hle.
  cbn [fst] in Hle.
  destruct Hle as [Hlt | (Heq & _ & Hinst)]; split.
  - lia.
  - intros Hp. rewrite Hp in Hlt. lia.
  - lia.
  - intros _. exact Hinst.
Qed.

Lemma StronglySorted_In_total {A : Type} (R : A -> A -> Prop) (l : list A)
    (x y : A) :
  StronglySorted R l -> In x l -> In y l -> x = y \/ R x y \/ R y x.
Proof.
  induction 1 as [|a l Hs IH Hall]; simpl; [tauto|].
  rewrite Forall_forall in Hall.
  intros [<-|Hx] [<-|Hy]; auto.
Qed.

Lemma same_kind_refl (d : datetime) : same_kind d d = true.
Proof. unfold same_kind. now destruct (Datetime.utcoffset d). Qed.

(** Two tasks of the same priority whose sort dates are one naive and one
    aware make the sort raise [TypeError]. *)
Lemma list_tasks_mixed_dates_raise (tasks : list Task.t) (a b : Task.t)
    status priority category assignee project_id limit s :
  apply_filters status priority category assignee project_id
    (PyDict.values (tasks_storage s)) = tasks ->
  In a tasks -> In b tasks ->
  Task.priority a = Task.priority b ->
  same_kind (snd (sort_key a)) (snd (sort_key b)) = false ->
  list_tasks status priority category assignee project_id limit s
  = (s, Raised TypeError).
Proof.
  intros Htasks Ha Hb Hprio Hkind. unfold list_tasks. rewrite Htasks.
  destruct (list_sort_reverse sort_key tasks) as [ordered|] eqn:E;
    [exfalso | reflexivity].
  destruct (list_sort_reverse_descending _ _ _ E) as [Hperm Hsorted].
  assert (Hrank : fst (sort_key a) = fst (sort_key b))
    by (simpl; now rewrite Hprio).
  destruct (StronglySorted_In_total _ _ a b Hsorted) as [Heq | [Hle | Hle]].
  - now apply (Permutation_in _ Hperm).
  - now apply (Permutation_in _ Hperm).
  - subst b. rewrite same_kind_refl in Hkind. discriminate.
  - apply key_le_iff in Hle. destruct Hle as [Hlt | (_ & Hk & _)]; [lia|].
    unfold same_kind in *.
    destruct (Datetime.utcoffset (snd (sort_key a))),
             (Datetime.utcoffset (snd (sort_key b))); discriminate.
  - apply key_le_iff in Hle. destruct Hle as [Hlt | (_ & Hk & _)]; [lia|].
    congruence.
Qed.

Lemma listed_before_total {A : Type} (x y : A) (l : list A) :
  In x l -> In y l -> x <> y -> listed_before x y l \/ listed_before y x l.
Proof.
  intros Hx Hy Hne.
  destruct (in_split _ _ Hx) as (l1 & l2 & ->).
  apply in_app_or in Hy. destruct Hy as [Hy | [Heq | Hy]].
  - right. destruct (in_split _ _ Hy) as (m1 & m2 & ->).
    exists m1, m2, l2. now rewrite <- app_assoc.
  - congruence.
  - left. destruct (in_split _ _ Hy) as (m1 & m2 & ->).
    now exists l1, m1, m2.
Qed.

(** Within a priority the listing runs from the latest due date to the
    earliest: of two tasks of equal priority the one whose sort date (the
    due date, or [datetime.max] without one) is later is listed first. *)
Lemma list_tasks_later_due_date_first (tasks ordered : list Task.t)
    (a b : Task.t) :
  list_sort_reverse sort_key tasks = Some ordered ->
  In a tasks -> In b tasks ->
  Task.priority a = Task.priority b ->
  instant (snd (sort_key a)) < instant (snd (sort_key b)) ->
  listed_before b a ordered.
Proof.
  intros Hsort Ha Hb Hprio Hlt.
  destruct (list_sort_reverse_descending _ _ _ Hsort) as [Hperm _].
  destruct (listed_before_total a b ordered) as [Hab | Hba].
  - now apply (Permutation_in _ Hperm).
  - now apply (Permutation_in _ Hperm).
  - intros ->. lia.
  - destruct (list_tasks_order _ _ _ _ Hsort Hab) as [_ Hdue].
    specialize (Hdue Hprio). lia.
  - exact Hba.
Qed.

(** C4, on the code: among tasks of equal priority [list_tasks] lists the one
    with the later sort date first, because [reverse=True] reverses the whole
    key: a later due date comes before an earlier one and a task without a
    due date, whose sort date is [datetime.max], comes before both. When the
    due date of one task carries a UTC offset and another task of the tier
    has none, the comparison with [datetime.max] raises [TypeError]. *)
Theorem list_tasks_reverses_due_dates :
  (forall (tasks ordered : list Task.t) (a b : Task.t),
      list_sort_reverse sort_key tasks = Some ordered ->
      In a tasks -> In b tasks ->
      Task.priority a = Task.priority b ->
      instant (snd (sort_key a)) < instant (snd (sort_key b)) ->
      listed_before b a ordered)
  /\ PyDict.keys (tasks_storage same_tier_store)
     = ["task-jan"; "task-jun"; "task-none"]
  /\ listed_titles
       (snd (list_tasks None None None None None 20 same_tier_store))
     = Some ["No due date"; "Due in June"; "Due in January"]
  /\ snd (list_tasks None None None None None 20 same_tier_utc_store)
     = Raised TypeError.
Proof.
  split; [exact list_tasks_later_due_date_first|].
  repeat split; reflexivity.
Qed.

(* ===================================================================== *)
(** ** Stores that sequences of calls produce *)
(* ===================================================================== *)

Section DictSteps.
Context {V : Type}.

Lemma In_set (k k' : string) (v v' : V) (d : PyDict.dict V) :
  In (k, v) (PyDict.set k' v' d) -> (k = k' /\ v = v') \/ In (k, v) d.
Proof.
  induction d as [|[k0 v0] r IH]; simpl.
  - intros [[= <- <-]|[]]. now left.
  - destruct (String.eqb k' k0); simpl.
    + intros [[= <- <-]|HIn]; [now left | right; now right].
    + intros [E|HIn]; [right; now left|].
      destruct (IH HIn); [now left | right; now right].
Qed.

Lemma contains_set (k k' : string) (v : V) (d : PyDict.dict V) :
  PyDict.contains k d = true -> PyDict.contains k (PyDict.set k' v d) = true.
Proof.
  unfold PyDict.contains. intros H.
  destruct (String.eqb_spec k' k) as [->|Hne].
  - now rewrite PyDictFacts.get_set_eq.
  - now rewrite PyDictFacts.get_set_ne.
Qed.

Lemma contains_set_eq (k : string) (v : V) (d : PyDict.dict V) :
  PyDict.contains k (PyDict.set k v d) = true.
Proof. unfold PyDict.contains. now rewrite PyDictFacts.get_set_eq. Qed.

End DictSteps.

(** The entry [stop_timer] selects is a stored one. *)
Lemma select_entry_In time_entry_id task_id s k e :
  select_entry time_entry_id task_id s = inr (k, e) ->
  In (k, e) (time_entries_storage s).
Proof.
  unfold select_entry.
  destruct time_entry_id as [i|]; [destruct (str_truthy (Some i))|].
  1: { destruct (PyDict.get i (time_entries_storage s)) eqn:G; [|discriminate].
       intros [= -> ->]. now apply PyDictFacts.get_Some_In. }
  all: destruct task_id as [t|]; [destruct (str_truthy (Some t))|];
    try discriminate;
    destruct (find_active t _) as [[k' e']|] eqn:F; [|discriminate];
    intros [= -> ->]; eapply find_active_Some; eassumption.
Qed.

Section Reachable.
Variable fromisoformat : string -> option datetime.

(** The tools other than [delete_task] only ever store tasks. *)
Lemma tasks_grow (c : call) (s : Store) :
  (forall task_id, c <> DeleteTask task_id) ->
  PyDict.wf (tasks_storage s) ->
  PyDict.wf (tasks_storage (fst (exec fromisoformat c s)))
  /\ forall k, PyDict.contains k (tasks_storage s) = true ->
               PyDict.contains k
                 (tasks_storage (fst (exec fromisoformat c s))) = true.
Proof.
  intros Hnot Hwf. destruct c; simpl.
  - unfold create_task.
    destruct due_date as [d|];
      [destruct (str_truthy (Some d));
       [destruct (parse_iso fromisoformat d)|]|];
      simpl; split; auto using PyDictFacts.wf_set, contains_set.
  - unfold update_task.
    destruct (PyDict.get task_id (tasks_storage s)); [|now split].
    destruct due_date as [d|]; [destruct (parse_iso fromisoformat d)|];
      simpl; split; auto using PyDictFacts.wf_set, contains_set.
  - exfalso. now apply (Hnot task_id).
  - unfold start_timer.
    destruct (PyDict.get task_id (tasks_storage s)); [|now split].
    destruct (find_active _ _) as [[k e]|]; now split.
  - unfold stop_timer.
    destruct (select_entry time_entry_id task_id s) as [r|[k entry]];
      [now split|].
    destruct (TimeEntry.end_time entry).
    + destruct (PyDict.get _ _); now split.
    + destruct (Datetime.sub _ _); [|now split]. simpl.
      destruct (PyDict.get _ _); simpl; split;
        auto using PyDictFacts.wf_set, contains_set.
  - unfold log_time.
    destruct (PyDict.get task_id (tasks_storage s)); [|now split].
    destruct (parsed_start_time _ _ _); [|now split].
    destruct (Datetime.minutes _); [|now split].
    destruct (Datetime.add _ _); [|now split].
    simpl; split; auto using PyDictFacts.wf_set, contains_set.
  - destruct (create_project_frame fromisoformat new_id now name description
                start_date end_date budget team_members s) as (-> & _ & _).
    now split.
Qed.

(** What the tools other than [delete_task] do to the entries: nothing, or
    one entry of a stored task is written, a running one only with a start
    time read from the local clock. *)
Lemma entries_written (c : call) (s : Store) :
  (forall task_id, c <> DeleteTask task_id) ->
  entries_consistent s ->
  time_entries_storage (fst (exec fromisoformat c s)) = time_entries_storage s
  \/ exists k e,
       time_entries_storage (fst (exec fromisoformat c s))
       = PyDict.set k e (time_entries_storage s)
       /\ PyDict.contains (TimeEntry.task_id e) (tasks_storage s) = true
       /\ (TimeEntry.end_time e = None ->
           Datetime.utcoffset (TimeEntry.start_time e) = None).
Proof.
  intros Hnot Hcons. destruct c; simpl.
  - left. apply create_task_entries.
  - left. apply update_task_entries.
  - exfalso. now apply (Hnot task_id).
  - unfold start_timer.
    destruct (PyDict.get task_id (tasks_storage s)) eqn:Ht; [|now left].
    destruct (find_active _ _) as [[k e]|]; [now left|].
    right. do 2 eexists. split; [reflexivity|]. simpl.
    unfold PyDict.contains. rewrite Ht. now split.
  - unfold stop_timer.
    destruct (select_entry time_entry_id task_id s) as [r|[k entry]] eqn:Hsel;
      [now left|].
    pose proof (select_entry_In _ _ _ _ _ Hsel) as HIn.
    destruct (Hcons _ _ HIn) as [Htask _].
    destruct (TimeEntry.end_time entry).
    + destruct (PyDict.get _ _); now left.
    + destruct (Datetime.sub _ _); simpl.
      * right. do 2 eexists.
        split; [destruct (PyDict.get _ _); reflexivity|].
        split; [exact Htask | discriminate].
      * right. do 2 eexists. split; [reflexivity|].
        split; [exact Htask | discriminate].
  - unfold log_time.
    destruct (PyDict.get task_id (tasks_storage s)) eqn:Ht; [|now left].
    destruct (parsed_start_time _ _ _); [|now left].
    destruct (Datetime.minutes _); [|now left].
    destruct (Datetime.add _ _); [|now left].
    right. do 2 eexists. split; [reflexivity|]. simpl.
    unfold PyDict.contains. rewrite Ht. split; [reflexivity | discriminate].
  - left.
    now destruct (create_project_frame fromisoformat new_id now name
                    description start_date end_date budget team_members s)
      as (_ & -> & _).
Qed.

Lemma delete_task_consistent (task_id : string) (s : Store) :
  store_wf s -> entries_consistent s ->
  store_wf (fst (delete_task task_id s))
  /\ entries_consistent (fst (delete_task task_id s)).
Proof.
  intros (Hwt & Hwp & Hwe) Hcons. unfold delete_task.
  destruct (PyDict.get task_id (tasks_storage s));
    [|simpl; split; [repeat split; assumption | assumption]].
  rewrite cascade_filter by assumption.
  cbn [fst]. split.
  - repeat split; cbn [tasks_storage projects_storage time_entries_storage
                       with_tasks with_entries];
      auto using PyDictFacts.wf_pop, PyDictFacts.wf_filter.
  - intros k e HIn.
    cbn [tasks_storage time_entries_storage with_tasks with_entries] in *.
    apply filter_In in HIn. destruct HIn as [HIn Hother]. simpl in Hother.
    destruct (Hcons _ _ HIn) as [Htask Hnaive]. split; [|assumption].
    unfold PyDict.contains in *. rewrite PyDictFacts.get_pop_ne; [assumption|].
    intros ->. now rewrite String.eqb_refl in Hother.
Qed.

Lemma exec_consistent (c : call) (s : Store) :
  store_wf s -> entries_consistent s ->
  store_wf (fst (exec fromisoformat c s))
  /\ entries_consistent (fst (exec fromisoformat c s)).
Proof.
  intros Hwf Hcons.
  assert (Hcases : (exists task_id, c = DeleteTask task_id)
                   \/ forall task_id, c <> DeleteTask task_id).
  { destruct c; try (right; discriminate). left. eauto. }
  destruct Hcases as [[task_id ->] | Hnot].
  - now apply delete_task_consistent.
  - destruct Hwf as (Hwt & Hwp & Hwe).
    destruct (tasks_grow c s Hnot Hwt) as [Hwt' Hkeep].
    assert (Hwp' : PyDict.wf (projects_storage (fst (exec fromisoformat c s)))).
    { destruct c; simpl;
        try (destruct (create_project_frame fromisoformat new_id now name
                         description start_date end_date budget team_members s)
               as (_ & _ & [-> | [project ->]]);
             auto using PyDictFacts.wf_set; fail).
      - unfold create_task.
        destruct due_date as [d|];
          [destruct (str_truthy (Some d));
           [destruct (parse_iso fromisoformat d)|]|]; assumption.
      - unfold update_task. destruct (PyDict.get _ _); [|assumption].
        destruct due_date as [d|]; [destruct (parse_iso fromisoformat d)|];
          assumption.
      - unfold delete_task. destruct (PyDict.get _ _); assumption.
      - unfold start_timer. destruct (PyDict.get _ _); [|assumption].
        destruct (find_active _ _) as [[? ?]|]; assumption.
      - unfold stop_timer.
        destruct (select_entry _ _ _) as [?|[? entry]]; [assumption|].
        destruct (TimeEntry.end_time entry).
        + destruct (PyDict.get _ _); assumption.
        + destruct (Datetime.sub _ _); [|assumption]. simpl.
          destruct (PyDict.get _ _); assumption.
      - unfold log_time. destruct (PyDict.get _ _); [|assumption].
        destruct (parsed_start_time _ _ _); [|assumption].
        destruct (Datetime.minutes _); [|assumption].
        destruct (Datetime.add _ _); assumption. }
    destruct (entries_written c s Hnot Hcons) as [Heq | (k & e & Heq & Ht & Hn)].
    + split.
      * repeat split; [assumption | assumption | now rewrite Heq].
      * intros k e HIn. rewrite Heq in HIn.
        destruct (Hcons _ _ HIn). split; auto.
    + split.
      * repeat split; [assumption | assumption|].
        rewrite Heq. now apply PyDictFacts.wf_set.
      * intros k0 e0 HIn. rewrite Heq in HIn.
        destruct (In_set _ _ _ _ _ HIn) as [[-> ->] | HIn'].
        -- split; auto.
        -- destruct (Hcons _ _ HIn'). split; auto.
Qed.

(** Every store reached from the empty one has dictionaries with distinct
    keys, entries that belong to stored tasks, and active timers started on
    the local clock. *)
Lemma run_consistent (cs : list call) :
  store_wf (run fromisoformat cs empty_store)
  /\ entries_consistent (run fromisoformat cs empty_store).
Proof.
  assert (Hgen : forall s, store_wf s -> entries_consistent s ->
                   store_wf (run fromisoformat cs s)
                   /\ entries_consistent (run fromisoformat cs s)).
  { induction cs as [|c cs IH]; intros s Hwf Hcons; simpl; [now split|].
    destruct (exec_consistent c s Hwf Hcons). now apply IH. }
  apply Hgen.
  - repeat split; constructor.
  - intros k e [].
Qed.

End Reachable.

(* ===================================================================== *)
(** ** Stopping a timer and deleting a task, in reachable stores *)
(* ===================================================================== *)

(** C2, as stated, fails: the duration is truncated toward zero, not taken
    to the floor. When the local clock has gone back by ninety seconds since
    the timer of "Write spec" was started, as it does when it is set back or
    at the end of daylight saving time, [stop_timer] stores
    [duration_minutes = -1] where the floor of the elapsed minutes is -2. *)
Lemma stop_timer_clock_set_back_counterexample :
  exists s' r entry entry',
    PyDict.get "entry-1" (time_entries_storage running_store) = Some entry
    /\ TimeEntry.end_time entry = None
    /\ TimeEntry.start_time entry = Datetime.naive nine_am
    /\ stop_timer (nine_am - 90 * Datetime.US_PER_SECOND) None (Some "task-1")
                  running_store = (s', r)
    /\ is_failure r = false
    /\ PyDict.get "entry-1" (time_entries_storage s') = Some entry'
    /\ TimeEntry.end_time entry'
       = Some (Datetime.naive (nine_am - 90 * Datetime.US_PER_SECOND))
    /\ TimeEntry.duration_minutes entry' = Some (-1)
    /\ (nine_am - 90 * Datetime.US_PER_SECOND - nine_am)
       / Datetime.US_PER_MINUTE = -2.
Proof. do 4 eexists. repeat split; reflexivity. Qed.

(** C2, amended. In a store reached by any sequence of calls, when
    [stop_timer] targets a stored entry without [end_time] and less than
    [2^25] minutes (some 63 years) lie between its start and [now], it sets
    [end_time] to [now], sets [duration_minutes] to the elapsed time in
    minutes truncated toward zero, which is the floor of the elapsed minutes
    when the clock has not gone back since the start, and adds the elapsed
    time in hours to the task's [actual_hours]: the new value is the
    binary64 sum of the value recorded before, nothing recorded counting as
    [0.0], and [total_seconds() / 3600]. In the scenario, a ninety-minute
    session gives [duration_minutes = 90] and [actual_hours = 1.5], and a
    following thirty-minute session leaves [actual_hours = 2.0]. *)
Theorem stop_timer_closes_entry_and_adds_hours :
  (forall fromisoformat cs now time_entry_id task_id k entry,
      let s := run fromisoformat cs empty_store in
      let elapsed := now - Datetime.us (TimeEntry.start_time entry) in
      select_entry time_entry_id task_id s = inr (k, entry) ->
      TimeEntry.end_time entry = None ->
      Z.abs elapsed < 2 ^ 25 * Datetime.US_PER_MINUTE ->
      exists s' r entry' task task' h,
        stop_timer now time_entry_id task_id s = (s', r)
        /\ is_failure r = false
        /\ PyDict.get k (time_entries_storage s') = Some entry'
        /\ TimeEntry.end_time entry' = Some (Datetime.naive now)
        /\ TimeEntry.duration_minutes entry'
           = Some (Z.quot elapsed Datetime.US_PER_MINUTE)
        /\ (0 <= elapsed ->
            TimeEntry.duration_minutes entry'
            = Some (elapsed / Datetime.US_PER_MINUTE))
        /\ PyDict.get (TimeEntry.task_id entry) (tasks_storage s) = Some task
        /\ PyDict.get (TimeEntry.task_id entry) (tasks_storage s') = Some task'
        /\ Task.actual_hours task' = Some h
        /\ h = (hours_of (Task.actual_hours task)
                + Datetime.total_seconds elapsed / of_int 3600)%float)
  /\ (forall fromisoformat,
        let s1 := run fromisoformat (create_write_spec :: first_session)
                      empty_store in
        let s2 := run fromisoformat second_session s1 in
        (exists entry task,
            PyDict.get "entry-1" (time_entries_storage s1) = Some entry
            /\ TimeEntry.duration_minutes entry = Some 90
            /\ PyDict.get "task-1" (tasks_storage s1) = Some task
            /\ Task.actual_hours task = Some 1.5%float)
        /\ (exists entry task,
              PyDict.get "entry-2" (time_entries_storage s2) = Some entry
              /\ TimeEntry.duration_minutes entry = Some 30
              /\ PyDict.get "task-1" (tasks_storage s2) = Some task
              /\ Task.actual_hours task = Some 2%float)).
Proof.
  split.
  - intros fromisoformat cs now time_entry_id task_id k entry s elapsed
           Hsel Hend Hlt.
    destruct (run_consistent fromisoformat cs) as [_ Hcons]. fold s in Hcons.
    destruct (Hcons _ _ (select_entry_In _ _ _ _ _ Hsel)) as [Htask Hnaive].
    unfold PyDict.contains in Htask.
    destruct (PyDict.get (TimeEntry.task_id entry) (tasks_storage s))
      as [task|] eqn:Hget; [|discriminate].
    assert (Hstart : TimeEntry.start_time entry
                     = Datetime.naive (Datetime.us (TimeEntry.start_time entry))).
    { specialize (Hnaive Hend). unfold Datetime.naive.
      destruct (TimeEntry.start_time entry) as [u o]. simpl in *.
      now rewrite Hnaive. }
    destruct (stop_timer_spec now time_entry_id task_id s k entry task _
                Hsel Hend Hstart Hlt Hget)
      as (s' & r & entry' & task' & h & H1 & H2 & H3 & H4 & H5 & H6 & H7 & H8).
    exists s', r, entry', task, task', h.
    repeat split; try assumption.
    intros Hnn. rewrite H5. f_equal. now apply quot_minutes_floor.
  - intros fromisoformat s1 s2. split.
    + do 2 eexists. repeat split; reflexivity.
    + do 2 eexists. repeat split; reflexivity.
Qed.

Lemma stop_timer_closes_entry_and_adds_hours_witness :
  exists s' r entry' task task' h,
    stop_timer (after_minutes 90 nine_am) None (Some "task-1") running_store
    = (s', r)
    /\ is_failure r = false
    /\ PyDict.get "entry-1" (time_entries_storage s') = Some entry'
    /\ TimeEntry.end_time entry' = Some (Datetime.naive (after_minutes 90 nine_am))
    /\ TimeEntry.duration_minutes entry'
       = Some (Z.quot (after_minutes 90 nine_am - nine_am)
                      Datetime.US_PER_MINUTE)
    /\ (0 <= after_minutes 90 nine_am - nine_am ->
        TimeEntry.duration_minutes entry'
        = Some ((after_minutes 90 nine_am - nine_am) / Datetime.US_PER_MINUTE))
    /\ PyDict.get "task-1" (tasks_storage running_store) = Some task
    /\ PyDict.get "task-1" (tasks_storage s') = Some task'
    /\ Task.actual_hours task' = Some h
    /\ h = (hours_of (Task.actual_hours task)
            + Datetime.total_seconds (after_minutes 90 nine_am - nine_am)
              / of_int 3600)%float.
Proof.
  assert (Hlt : Z.abs (after_minutes 90 nine_am - nine_am)
                < 2 ^ 25 * Datetime.US_PER_MINUTE)
    by (vm_compute; reflexivity).
  exact (proj1 stop_timer_closes_entry_and_adds_hours
           IsoBasic.fromisoformat
           [create_write_spec; StartTimer "entry-1" nine_am "task-1" None]
           (after_minutes 90 nine_am) None (Some "task-1") "entry-1"
           (TimeEntry.mk "entry-1" "task-1" (Datetime.naive nine_am) None
                         None None)
           eq_refl eq_refl Hlt).
Defined.

(** C3. In a store reached by any sequence of calls, [delete_task] on a
    stored task that has N time entries removes the task and exactly those
    N entries and reports N: afterwards the task id and each of those entry
    ids are not found (in the dictionaries, by [get_task_details] and by
    [stop_timer]), while the other tasks, the entries of other tasks and the
    projects are as before. *)
Theorem delete_task_removes_task_and_its_entries :
  forall fromisoformat cs task_id task,
    let s := run fromisoformat cs empty_store in
    PyDict.get task_id (tasks_storage s) = Some task ->
    exists s',
      delete_task task_id s
      = (s', TaskDeleted (Task.title task)
               (List.length (entries_for task_id s)))
      /\ PyDict.get task_id (tasks_storage s') = None
      /\ get_task_details task_id s' = (s', TaskNotFound task_id)
      /\ (forall k, k <> task_id ->
            PyDict.get k (tasks_storage s') = PyDict.get k (tasks_storage s))
      /\ (forall k e,
            PyDict.get k (time_entries_storage s) = Some e ->
            TimeEntry.task_id e = task_id ->
            PyDict.get k (time_entries_storage s') = None
            /\ (forall now any, k <> "" ->
                  stop_timer now (Some k) any s' = (s', TimeEntryNotFound k)))
      /\ (forall k e,
            PyDict.get k (time_entries_storage s) = Some e ->
            TimeEntry.task_id e <> task_id ->
            PyDict.get k (time_entries_storage s') = Some e)
      /\ (forall k,
            PyDict.get k (time_entries_storage s) = None ->
            PyDict.get k (time_entries_storage s') = None)
      /\ (List.length (time_entries_storage s')
          + List.length (entries_for task_id s)
          = List.length (time_entries_storage s))%nat
      /\ projects_storage s' = projects_storage s.
Proof.
  intros fromisoformat cs task_id task s Htask.
  apply delete_task_spec; [|assumption].
  apply run_consistent.
Qed.

Lemma delete_task_removes_task_and_its_entries_witness :
  exists s',
    delete_task "task-1" two_tasks_store
    = (s', TaskDeleted "Write spec" 2)
    /\ PyDict.get "task-1" (tasks_storage s') = None
    /\ PyDict.get "entry-1" (time_entries_storage s') = None
    /\ PyDict.get "entry-2" (time_entries_storage s') = None
    /\ PyDict.get "entry-3" (time_entries_storage s')
       = PyDict.get "entry-3" (time_entries_storage two_tasks_store)
    /\ List.length (time_entries_storage s') = 1%nat
    /\ PyDict.keys (projects_storage s') = ["project-1"].
Proof.
  destruct (delete_task_removes_task_and_its_entries IsoBasic.fromisoformat
              two_tasks_calls "task-1" _ eq_refl)
    as (s' & Hdel & Htask & _ & _ & Hmine & Hother & _ & Hlen & Hproj).
  exists s'. split; [exact Hdel|]. split; [exact Htask|].
  split; [eapply Hmine; reflexivity|].
  split; [eapply Hmine; reflexivity|].
  split; [apply Hother with (e := TimeEntry.mk "entry-3" "task-2"
                                    (Datetime.naive nine_am)
                                    (Some (Datetime.naive (after_minutes 20 nine_am)))
                                    None (Some 20));
          [reflexivity | discriminate]|].
  split; [simpl in Hlen; lia|].
  rewrite Hproj. reflexivity.
Defined.

(* ===================================================================== *)
(** ** The arithmetic on the figures of the scenarios *)
(* ===================================================================== *)

(** On integers below [2^53] the true division is the division of the two
    conversions, which the processor performs. *)
Example truediv_of_small_integers :
  truediv 45 60 = (of_int 45 / of_int 60)%float
  /\ truediv 45 60 = 0.75%float
  /\ Datetime.total_seconds (90 * Datetime.US_PER_MINUTE) = 5400%float
  /\ of_int 60 = 60%float /\ of_int 3600 = 3600%float.
Proof. repeat split; reflexivity. Qed.

(** Ten minutes are not a binary64 number of hours: the quotient stored is
    the nearest one. An increment too small for the total is absorbed. *)
Example truediv_rounds :
  Prim2SF (truediv 10 60) = S754_finite false 6004799503160661 (-55)
  /\ add_hours (truediv 10 60) (Some 9007199254740992%float)
     = Some 9007199254740992%float.
Proof. split; reflexivity. Qed.

(** The ratio of the example, exactly. *)
Example ratio_scenario_exact :
  to_Q (productivity_ratio 480 7 8)
  = Some (2010535547933257 # 140737488355328)%Q.
Proof. reflexivity. Qed.
